(** * Fantasy draft assistant: the valuation pipeline of [draft_agent.py]

    A shallow embedding of the scoring models, the trend analyzer, the
    sleeper classifier, the replacement-value calculator and the draft
    board builder, then of the live game context, the command line, the
    output formatting and the MLB records of the stat provider, followed
    by the properties proved about them.

    Python values are modelled as they are at run time: a [float] is an
    IEEE-754 binary64 number ([spec_float] at precision 53), an [int] is
    an unbounded integer, a [dict] is a finite map from [str] keys, and a
    raised exception is a result of its own. *)

From Stdlib Require Import ZArith String Ascii List SpecFloat DecimalString Lia.
From Stdlib Require Import Permutation.
From Stdlib Require PrimFloat FloatOps.
From stdpp Require Import gmap strings list.

Local Open Scope Z_scope.

(** ** Binary64 arithmetic *)

Module F64.

Abbreviation float64 := spec_float.

Definition prec : Z := 53.
Definition emax : Z := 1024.

Definition fadd : float64 -> float64 -> float64 := SFadd prec emax.
Definition fsub : float64 -> float64 -> float64 := SFsub prec emax.
Definition fmul : float64 -> float64 -> float64 := SFmul prec emax.
Definition fdiv : float64 -> float64 -> float64 := SFdiv prec emax.

(** Python's [x < y], [x <= y] and [x == y] on floats: every comparison
    with a NaN is [False]. *)
Definition fltb : float64 -> float64 -> bool := SFltb.
Definition fleb : float64 -> float64 -> bool := SFleb.
Definition feqb : float64 -> float64 -> bool := SFeqb.

Definition is_nan (x : float64) : bool :=
  match x with S754_nan => true | _ => false end.

Definition is_inf (x : float64) : bool :=
  match x with S754_infinity _ => true | _ => false end.

(** The float nearest to an integer (ties to even), infinite past the
    largest finite float. *)
Definition float_of_Z (z : Z) : float64 := binary_normalize prec emax z 0 false.

(** The float nearest to the fraction [n / d]. *)
Definition float_of_ratio (s : bool) (n : N) (d : positive) : float64 :=
  match n with
  | N0 => S754_zero s
  | Npos p => SFdiv prec emax (S754_finite s p 0) (S754_finite false d 0)
  end.

(** The float nearest to [n * 10 ^ e]: what reading a decimal numeral
    gives. *)
Definition float_of_decimal (s : bool) (n : N) (e : Z) : float64 :=
  match e with
  | Zneg p => float_of_ratio s n (10 ^ p)
  | _ =>
      match n with
      | N0 => S754_zero s
      | Npos m => binary_round prec emax s (m * Z.to_pos (10 ^ e)) 0
      end
  end.

(** [lit n k] is the float literal with digits [n] and [k] decimal
    places: [lit 12 1] is [1.2], [lit 270 3] is [0.270]. *)
Definition lit (n : Z) (k : nat) : float64 :=
  float_of_decimal (n <? 0) (Z.abs_N n) (- Z.of_nat k).

Definition zero : float64 := S754_zero false.

(** The integer nearest to [m * 2 ^ e * k], ties to even. *)
Definition round_half_even_scaled (m : positive) (e : Z) (k : Z) : Z :=
  let n := Zpos m * k in
  match e with
  | Zneg p =>
      let d := 2 ^ Zpos p in
      let q := n / d in
      match (2 * (n mod d) ?= d) with
      | Lt => q
      | Gt => q + 1
      | Eq => if Z.even q then q else q + 1
      end
  | _ => n * 2 ^ e
  end.

Definition pow10 (ndigits : nat) : positive :=
  match ndigits with
  | O => 1%positive
  | _ => Pos.pow 10 (Pos.of_nat ndigits)
  end.

End F64.

Export F64.

#[global] Arguments fadd : simpl never.
#[global] Arguments fsub : simpl never.
#[global] Arguments fmul : simpl never.
#[global] Arguments fdiv : simpl never.
#[global] Arguments lit : simpl never.
#[global] Arguments float_of_Z : simpl never.

(** ** Python values, exceptions and the builtins the code calls *)

Module Py.

(** The exceptions the modelled code can raise. *)
Inductive exn :=
| ValueError
| TypeError
| AttributeError
| OverflowError
| ZeroDivisionError.

#[global] Instance exn_eq_dec : EqDecision exn.
Proof. solve_decision. Defined.

(** The outcome of evaluating a Python expression: a value or a raised
    exception. *)
Inductive result (A : Type) :=
| Ok (a : A)
| Raise (e : exn).

Arguments Ok {A} a.
Arguments Raise {A} e.

#[global] Instance result_ret : MRet result := fun A a => Ok a.
#[global] Instance result_bind : MBind result :=
  fun A B f r => match r with Ok a => f a | Raise e => Raise e end.

(** [try: r except (handled): fallback] *)
Definition try_except {A} (r : result A) (handled : list exn) (fallback : result A)
  : result A :=
  match r with
  | Ok a => Ok a
  | Raise e => if bool_decide (e ∈ handled) then fallback else Raise e
  end.

Fixpoint mapM_result {A B} (f : A -> result B) (l : list A) : result (list B) :=
  match l with
  | [] => Ok []
  | x :: l' => y ← f x; ys ← mapM_result f l'; Ok (y :: ys)
  end.

(** The values a decoded JSON payload holds. A nested dict keeps its
    items as a list. *)
#[local] Unset Elimination Schemes.
Inductive pyval :=
| PyNone
| PyBool (b : bool)
| PyInt (z : Z)
| PyFloat (f : float64)
| PyStr (s : string)
| PyList (l : list pyval)
| PyDict (d : list (string * pyval)).
#[local] Set Elimination Schemes.

(** A stat record, a game-log entry, a hot-player entry: [dict] with
    [str] keys. *)
Abbreviation dict := (gmap string pyval).

(** [d.get(k, v)] is [default v (d !! k)]; [not d] for a dict: *)
Definition dict_is_empty (d : dict) : bool := bool_decide (size d = 0%nat).

(** Truth value of an object, as [if x:] tests it. *)
Definition truthy (v : pyval) : bool :=
  match v with
  | PyNone => false
  | PyBool b => b
  | PyInt z => negb (z =? 0)
  | PyFloat f => negb (feqb f zero)
  | PyStr s => negb (String.eqb s "")
  | PyList l => match l with [] => false | _ => true end
  | PyDict d => match d with [] => false | _ => true end
  end.

(** [v == s] for a str [s]: only a str equals a str. *)
Definition eq_str (v : pyval) (s : string) : bool :=
  match v with PyStr t => String.eqb t s | _ => false end.

(** [v in (s1, s2, ...)] for a tuple of strs. *)
Definition in_strs (v : pyval) (ss : list string) : bool :=
  existsb (eq_str v) ss.

(** *** str methods (ASCII) *)

Definition is_space (c : ascii) : bool :=
  let n := N_of_ascii c in ((9 <=? n) && (n <=? 13) || (n =? 32))%N.

Definition is_digit (c : ascii) : bool :=
  let n := N_of_ascii c in ((48 <=? n) && (n <=? 57))%N.

Definition lower_ascii (c : ascii) : ascii :=
  let n := N_of_ascii c in
  if ((65 <=? n) && (n <=? 90))%N then ascii_of_N (n + 32) else c.

(** [s.lower()] *)
Fixpoint lower (s : string) : string :=
  match s with
  | EmptyString => EmptyString
  | String c s' => String (lower_ascii c) (lower s')
  end.

(** [s.lstrip(c)] for a one-character argument. *)
Fixpoint lstrip (c : ascii) (s : string) : string :=
  match s with
  | EmptyString => EmptyString
  | String a s' => if Ascii.eqb a c then lstrip c s' else s
  end.

(** [v.lstrip(c)]: only a str has the method. *)
Definition py_lstrip (v : pyval) (c : ascii) : result string :=
  match v with
  | PyStr s => Ok (lstrip c s)
  | _ => Raise AttributeError
  end.

(** [s.split(c)[0]]: the part of [s] before the first [c]. *)
Fixpoint split_first (c : ascii) (s : string) : string :=
  match s with
  | EmptyString => EmptyString
  | String a s' => if Ascii.eqb a c then EmptyString else String a (split_first c s')
  end.

(** [s or d] for strs. *)
Definition str_or (s d : string) : string :=
  if String.eqb s "" then d else s.

(** The text an f-string field prints for a str. The code formats
    [stats.get('avg', '')] only after [lstrip] has succeeded on that
    value, so the field is a str whenever it is printed. *)
Definition fstring_str (v : pyval) : string :=
  match v with PyStr s => s | _ => ""%string end.

(** *** float(str) *)

Fixpoint drop_while {A} (p : A -> bool) (l : list A) : list A :=
  match l with
  | x :: l' => if p x then drop_while p l' else l
  | [] => []
  end.

Definition strip_spaces (cs : list ascii) : list ascii :=
  rev (drop_while is_space (rev (drop_while is_space cs))).

(** Underscores may only stand between two digits. *)
Fixpoint drop_underscores (prev : ascii) (cs : list ascii) : option (list ascii) :=
  match cs with
  | [] => if Ascii.eqb prev "_" then None else Some []
  | c :: cs' =>
      if Ascii.eqb c "_" then
        if is_digit prev then drop_underscores c cs' else None
      else if Ascii.eqb prev "_" && negb (is_digit c) then None
      else cons c <$> drop_underscores c cs'
  end.

Fixpoint span_digits (cs : list ascii) (acc : N) (cnt : nat) : N * nat * list ascii :=
  match cs with
  | c :: cs' =>
      if is_digit c then span_digits cs' (10 * acc + (N_of_ascii c - 48))%N (S cnt)
      else (acc, cnt, cs)
  | [] => (acc, cnt, [])
  end.

Definition take_sign (cs : list ascii) : bool * list ascii :=
  match cs with
  | c :: cs' =>
      if Ascii.eqb c "-" then (true, cs')
      else if Ascii.eqb c "+" then (false, cs')
      else (false, cs)
  | [] => (false, [])
  end.

Definition parse_exponent (cs : list ascii) : option Z :=
  match cs with
  | [] => Some 0
  | c :: cs' =>
      if Ascii.eqb (lower_ascii c) "e" then
        let '(s, ds) := take_sign cs' in
        match span_digits ds 0 0 with
        | (_, O, _) => None
        | (n, _, []) => Some (if s then - Z.of_N n else Z.of_N n)
        | _ => None
        end
      else None
  end.

Definition parse_number (s : bool) (cs : list ascii) : option float64 :=
  let '(n1, c1, r1) := span_digits cs 0 0 in
  let '(n, c2, r2) :=
    match r1 with
    | c :: r1' => if Ascii.eqb c "." then span_digits r1' n1 0 else (n1, O, r1)
    | [] => (n1, O, r1)
    end in
  match (c1 + c2)%nat with
  | O => None
  | _ => e ← parse_exponent r2; Some (float_of_decimal s n (e - Z.of_nat c2))
  end.

(** The float a str denotes, [None] where [float(s)] raises ValueError:
    surrounding whitespace, an optional sign, then [inf], [infinity] or
    [nan] in any case, or a decimal numeral with an optional exponent. *)
Definition parse_float (str : string) : option float64 :=
  cs ← drop_underscores "000" (strip_spaces (list_ascii_of_string str));
  let '(s, body) := take_sign cs in
  let word := string_of_list_ascii (map lower_ascii body) in
  if String.eqb word "inf" || String.eqb word "infinity" then Some (S754_infinity s)
  else if String.eqb word "nan" then Some S754_nan
  else parse_number s body.

(** [float(v)] *)
Definition py_float (v : pyval) : result float64 :=
  match v with
  | PyFloat f => Ok f
  | PyInt z =>
      let f := float_of_Z z in
      if is_inf f then Raise OverflowError else Ok f
  | PyBool b => Ok (if b then float_of_Z 1 else zero)
  | PyStr s =>
      match parse_float s with
      | Some f => Ok f
      | None => Raise ValueError
      end
  | PyNone | PyList _ | PyDict _ => Raise TypeError
  end.

(** *** round, format, sum, division *)

(** [round(x, ndigits)]: the float nearest to the decimal obtained by
    rounding [x] to [ndigits] places, ties to even; NaN and the
    infinities round to themselves. *)
Definition py_round (x : float64) (ndigits : nat) : float64 :=
  match x with
  | S754_finite s m e =>
      let k := pow10 ndigits in
      match round_half_even_scaled m e (Zpos k) with
      | Zpos n => SFdiv prec emax (S754_finite s n 0) (S754_finite false k 0)
      | _ => S754_zero s
      end
  | _ => x
  end.

Definition string_of_N (n : N) : string := NilZero.string_of_uint (N.to_uint n).

Definition zero_pad (width : nat) (s : string) : string :=
  Nat.iter (width - String.length s) (String "0") s.

(** [f"{x:.<ndigits>f}"] *)
Definition format_f (x : float64) (ndigits : nat) : string :=
  let sign (s : bool) := if s then "-"%string else ""%string in
  let k := Zpos (pow10 ndigits) in
  let digits (n : Z) :=
    string_of_N (Z.to_N (n / k)) +:+
    match ndigits with
    | O => ""%string
    | _ => "." +:+ zero_pad ndigits (string_of_N (Z.to_N (n mod k)))
    end in
  match x with
  | S754_nan => "nan"%string
  | S754_infinity s => sign s +:+ "inf"
  | S754_zero s => sign s +:+ digits 0
  | S754_finite s m e => sign s +:+ digits (round_half_even_scaled m e k)
  end.

(** [sum(xs)] over floats: the additions run left to right from the
    int [0]. (CPython 3.12 and later compensate the rounding error of the
    running sum; the properties below that mention [py_sum] do not depend
    on how the sum is rounded.) *)
Definition py_sum (xs : list float64) : float64 := fold_left fadd xs zero.

(** [x / y] on floats raises ZeroDivisionError on a zero divisor. *)
Definition py_div (x y : float64) : result float64 :=
  if feqb y zero then Raise ZeroDivisionError else Ok (fdiv x y).

(** *** Sorting *)

(** [insert_desc key x l] puts [x] in front of the first entry whose
    key is not greater than that of [x]. *)
Fixpoint insert_desc {A} (key : A -> float64) (x : A) (l : list A) : list A :=
  match l with
  | [] => [x]
  | y :: l' => if fltb (key x) (key y) then y :: insert_desc key x l' else x :: l
  end.

(** [l.sort(key=key, reverse=True)] and [sorted(l, key=key, reverse=True)]:
    a stable sort in descending key order that compares keys with [<]
    only. Where [<] orders the keys (no NaN among them) every such sort
    returns the same list, the one computed here; entries that compare
    equal keep their order in [l]. With a NaN among the keys the outcome
    depends on the algorithm; on lists of at most three entries CPython's
    sort makes the moves of this one. *)
Definition sort_desc {A} (key : A -> float64) (l : list A) : list A :=
  foldr (insert_desc key) [] l.

End Py.

Export Py.

(** ** Fantasy scoring models *)

(** The weight tables, in the order the dict literals list their keys
    (the order [.items()] yields them). *)
Definition NBA_POINTS_WEIGHTS : list (string * float64) :=
  [ ("pts", lit 10 1);
    ("reb", lit 12 1);
    ("ast", lit 15 1);
    ("stl", lit 30 1);
    ("blk", lit 30 1);
    ("fg3m", lit 5 1);
    ("tov", lit (-10) 1) ]%string.

Definition MLB_HITTING_WEIGHTS : list (string * float64) :=
  [ ("runs", lit 10 1);
    ("hr", lit 40 1);
    ("rbi", lit 10 1);
    ("sb", lit 20 1);
    ("avg_bonus", lit 50 1) ]%string.

Definition MLB_PITCHING_WEIGHTS : list (string * float64) :=
  [ ("wins", lit 50 1);
    ("so", lit 10 1);
    ("saves", lit 50 1);
    ("era_bonus", lit (-20) 1);
    ("whip_bonus", lit (-30) 1) ]%string.

(** [table.get(k, 0)] and, for a key of the table, [table[k]]. *)
Fixpoint weight (table : list (string * float64)) (k : string) : float64 :=
  match table with
  | [] => zero
  | (k', w) :: table' => if String.eqb k' k then w else weight table' k
  end.

(** [_safe_float]: [float(value)], with [0.0] where that raises
    ValueError or TypeError. *)
Definition _safe_float (value : pyval) : result float64 :=
  try_except (py_float value) [ValueError; TypeError] (Ok zero).

(** One turn of [total += _safe_float(stats.get(stat_key, 0)) * w]. *)
Definition add_weighted (stats : dict) (total : float64) (stat_key : string)
  (w : float64) : result float64 :=
  x ← _safe_float (default (PyInt 0) (stats !! stat_key));
  Ok (fadd total (fmul x w)).

Fixpoint weighted_sum (stats : dict) (total : float64)
  (items : list (string * float64)) : result float64 :=
  match items with
  | [] => Ok total
  | (stat_key, w) :: items' =>
      total' ← add_weighted stats total stat_key w;
      weighted_sum stats total' items'
  end.

Definition compute_nba_points_value (stats : dict) : result float64 :=
  if dict_is_empty stats then Ok zero
  else
    total ← weighted_sum stats zero NBA_POINTS_WEIGHTS;
    Ok (py_round total 1).

(** [float(v.lstrip(".") or if_empty) / 1000] under
    [except (ValueError, TypeError): on_error]. *)
Definition parse_avg (v : pyval) (if_empty : string) (on_error : float64)
  : result float64 :=
  try_except
    (s ← py_lstrip v "."; f ← py_float (PyStr (str_or s if_empty)); Ok (fdiv f (float_of_Z 1000)))
    [ValueError; TypeError]
    (Ok on_error).

Definition compute_mlb_hitting_value (stats : dict) : result float64 :=
  if dict_is_empty stats then Ok zero
  else
    total ← weighted_sum stats zero
      (map (fun stat_key => (stat_key, weight MLB_HITTING_WEIGHTS stat_key))
         ["runs"; "hr"; "rbi"; "sb"]%string);
    avg ← parse_avg (default (PyStr ".250") (stats !! "avg"%string)) "250" (lit 250 3);
    let total :=
      if fltb (lit 270 3) avg then
        fadd total
          (fmul (fmul (fsub avg (lit 270 3)) (float_of_Z 1000))
             (weight MLB_HITTING_WEIGHTS "avg_bonus"))
      else total in
    Ok (py_round total 1).

(** [float(v)] under [except (ValueError, TypeError): on_error]. *)
Definition float_or (v : pyval) (on_error : float64) : result float64 :=
  try_except (py_float v) [ValueError; TypeError] (Ok on_error).

Definition compute_mlb_pitching_value (stats : dict) : result float64 :=
  if dict_is_empty stats then Ok zero
  else
    total ← add_weighted stats zero "wins" (weight MLB_PITCHING_WEIGHTS "wins");
    total ← add_weighted stats total "so" (weight MLB_PITCHING_WEIGHTS "so");
    total ← add_weighted stats total "saves" (weight MLB_PITCHING_WEIGHTS "saves");
    era ← float_or (default (PyStr "3.50") (stats !! "era"%string)) (lit 350 2);
    let total :=
      if fltb (lit 350 2) era then
        fadd total
          (fmul (fdiv (fsub era (lit 350 2)) (lit 50 2))
             (weight MLB_PITCHING_WEIGHTS "era_bonus"))
      else total in
    whip ← float_or (default (PyStr "1.20") (stats !! "whip"%string)) (lit 120 2);
    let total :=
      if fltb (lit 120 2) whip then
        fadd total
          (fmul (fdiv (fsub whip (lit 120 2)) (lit 10 2))
             (weight MLB_PITCHING_WEIGHTS "whip_bonus"))
      else total in
    Ok (py_round total 1).

(** ** Trend analyzer *)

Definition game_pts (g : dict) : result float64 :=
  _safe_float (default (PyInt 0) (g !! "pts"%string)).

Definition compute_recent_trend (season_stats : dict) (game_log : list dict)
  : result float64 :=
  if match game_log with [] => true | _ => false end || dict_is_empty season_stats
  then Ok zero
  else
    season_ppg ← _safe_float (default (PyInt 0) (season_stats !! "pts"%string));
    if feqb season_ppg zero then Ok zero
    else
      pts ← mapM_result game_pts game_log;
      recent_ppg ← py_div (py_sum pts) (float_of_Z (Z.of_nat (length game_log)));
      ratio ← py_div (fsub recent_ppg season_ppg) season_ppg;
      Ok (py_round (fmul ratio (float_of_Z 100)) 1).

(** ** Sleeper classifier *)

Definition trend_reason (trend : float64) : string :=
  "Trending +" +:+ format_f trend 0 +:+ "% over last 10 games".

Definition blocks_reason (blk : float64) : string :=
  "Elite blocks (" +:+ format_f blk 1 +:+ "/g) with upward trend".

Definition steals_reason (stl : float64) : string :=
  "Elite steals (" +:+ format_f stl 1 +:+ "/g) with upward trend".

Definition spring_reason (stats : dict) : string :=
  "Spring training breakout ("
  +:+ fstring_str (default (PyStr "") (stats !! "avg"%string)) +:+ " AVG)".

Definition identify_sleeper (stats : dict) (trend fantasy_value : float64)
  (position : pyval) : result (bool * string) :=
  if fleb (lit 150 1) trend && fltb (float_of_Z 20) fantasy_value
  then Ok (true, trend_reason trend)
  else
    blk ← _safe_float (default (PyInt 0) (stats !! "blk"%string));
    stl ← _safe_float (default (PyInt 0) (stats !! "stl"%string));
    if in_strs position ["C"; "PF"]%string && fleb (lit 20 1) blk
       && fleb (float_of_Z 5) trend
    then Ok (true, blocks_reason blk)
    else if in_strs position ["PG"; "SG"]%string && fleb (lit 18 1) stl
            && fleb (float_of_Z 5) trend
    then Ok (true, steals_reason stl)
    else if eq_str (default PyNone (stats !! "type"%string)) "spring_training"
    then
      avg ← parse_avg (default (PyStr ".000") (stats !! "avg"%string)) "0" zero;
      if fleb (lit 350 3) avg
      then
        games ← _safe_float (default (PyInt 0) (stats !! "games"%string));
        if fleb (float_of_Z 5) games
        then Ok (true, spring_reason stats)
        else Ok (false, ""%string)
      else Ok (false, ""%string)
    else Ok (false, ""%string).

(** ** Value over replacement *)

Definition compute_vor (player_value : float64) (position : string)
  (replacement_values : gmap string float64) : float64 :=
  let replacement := default zero (replacement_values !! position) in
  py_round (fsub player_value replacement) 1.

(** ** Draft board builder *)

Module RankedPlayer.

Record t := mk {
  name : string;
  team : pyval;
  position : pyval;
  fantasy_value : float64;
  vor : float64;
  season_stats : dict;
  recent_trend : float64;
  live_note : pyval;
  is_sleeper : bool;
  sleeper_reason : string;
  recommendation : string
}.

Definition set_vor (v : float64) (rp : t) : t :=
  mk (name rp) (team rp) (position rp) (fantasy_value rp) v (season_stats rp)
    (recent_trend rp) (live_note rp) (is_sleeper rp) (sleeper_reason rp)
    (recommendation rp).

Definition set_recommendation (r : string) (rp : t) : t :=
  mk (name rp) (team rp) (position rp) (fantasy_value rp) (vor rp) (season_stats rp)
    (recent_trend rp) (live_note rp) (is_sleeper rp) (sleeper_reason rp) r.

End RankedPlayer.

Definition NBA_DEFAULT_POOL : list string :=
  [ "Nikola Jokic"; "Luka Doncic"; "Shai Gilgeous-Alexander";
    "Jayson Tatum"; "Anthony Edwards"; "Victor Wembanyama";
    "Tyrese Haliburton"; "Domantas Sabonis"; "LeBron James";
    "Kevin Durant"; "Damian Lillard"; "Devin Booker";
    "Anthony Davis"; "Trae Young"; "Bam Adebayo";
    "De'Aaron Fox"; "Donovan Mitchell"; "Jalen Brunson";
    "Jaren Jackson Jr"; "Chet Holmgren"; "Paolo Banchero";
    "Scottie Barnes"; "Darius Garland"; "Tyler Herro";
    "Lauri Markkanen"; "Franz Wagner"; "Cade Cunningham";
    "Tyrese Maxey"; "Desmond Bane"; "Dejounte Murray" ]%string.

Definition MLB_DEFAULT_POOL : list string :=
  [ "Shohei Ohtani"; "Aaron Judge"; "Ronald Acuna Jr";
    "Mookie Betts"; "Freddie Freeman"; "Trea Turner";
    "Juan Soto"; "Corey Seager"; "Bobby Witt Jr";
    "Julio Rodriguez"; "Corbin Carroll"; "Gunnar Henderson";
    "Elly De La Cruz"; "Marcus Semien"; "Vladimir Guerrero Jr";
    "Spencer Strider"; "Zack Wheeler"; "Gerrit Cole";
    "Corbin Burnes"; "Yoshinobu Yamamoto"; "Dylan Cease";
    "Logan Webb"; "Bryce Harper"; "Matt Olson";
    "Pete Alonso"; "Bo Bichette"; "Jose Ramirez";
    "Kyle Tucker"; "Adley Rutschman"; "Jackson Chourio" ]%string.

(** The stat provider ([external_stats]) as the board builder sees it:
    each lookup answers with a dict or a list of dicts, empty when the
    player or the data is not available. The answers come from the
    network, so they are inputs of the model. *)
Record providers := {
  get_nba_player_season_stats : string -> dict;
  get_nba_player_game_log : pyval -> list dict;
  get_mlb_player_stats : string -> string -> dict;
  get_mlb_spring_training_stats : string -> dict
}.

(** [position.split("/")[0] if position else "UTIL"] *)
Definition pos_key_of (position : pyval) : result string :=
  if truthy position then
    match position with
    | PyStr s => Ok (split_first "/" s)
    | _ => Raise AttributeError
    end
  else Ok "UTIL"%string.

(** The stats, value, trend and position of one candidate, [None] where
    the loop body runs [continue]. *)
Definition resolve_player (P : providers) (sport scoring_format player_name : string)
  : result (option (dict * float64 * float64 * pyval)) :=
  if String.eqb sport "nba" then
    let stats := get_nba_player_season_stats P player_name in
    if dict_is_empty stats then Ok None
    else
      value ← (if String.eqb scoring_format "points"
               then compute_nba_points_value stats
               else compute_nba_points_value stats);
      let player_id := default PyNone (stats !! "player_id"%string) in
      trend ← (if truthy player_id
               then compute_recent_trend stats (get_nba_player_game_log P player_id)
               else Ok zero);
      Ok (Some (stats, value, trend, default (PyStr "") (stats !! "position"%string)))
  else if String.eqb sport "mlb" then
    let hitting := get_mlb_player_stats P player_name "hitting" in
    sv ← (if dict_is_empty hitting then
            let pitching := get_mlb_player_stats P player_name "pitching" in
            if dict_is_empty pitching then Ok None
            else value ← compute_mlb_pitching_value pitching; Ok (Some (pitching, value))
          else value ← compute_mlb_hitting_value hitting; Ok (Some (hitting, value)));
    match sv with
    | None => Ok None
    | Some (stats, value) =>
        let spring := get_mlb_spring_training_stats P player_name in
        let stats :=
          if negb (dict_is_empty spring)
             && truthy (default PyNone (spring !! "games"%string))
          then <["spring_training"%string := PyDict (map_to_list spring)]> stats
          else stats in
        Ok (Some (stats, value, zero, default (PyStr "") (stats !! "position"%string)))
    end
  else Ok None.

(** One turn of the valuation loop on the state [(ranked,
    replacement_values)]. *)
Definition value_player (P : providers) (sport scoring_format : string)
  (hot_players : gmap string dict) (player_name : string)
  (st : list RankedPlayer.t * gmap string (list float64))
  : result (list RankedPlayer.t * gmap string (list float64)) :=
  r ← resolve_player P sport scoring_format player_name;
  match r with
  | None => Ok st
  | Some (stats, value, trend, position) =>
      pos_key ← pos_key_of position;
      let replacement_values :=
        <[pos_key := default [] (st.2 !! pos_key) ++ [value]]> st.2 in
      let '(live_note, live_bonus) :=
        match hot_players !! player_name with
        | Some hp => (default (PyStr "") (hp !! "note"%string), lit 30 1)
        | None => (PyStr "", zero)
        end in
      '(is_sleeper, sleeper_reason) ← identify_sleeper stats trend value position;
      let adjusted_value := fadd value live_bonus in
      let adjusted_value :=
        if fltb (float_of_Z 10) trend
        then fadd adjusted_value (fmul trend (lit 1 1))
        else adjusted_value in
      let rp :=
        RankedPlayer.mk player_name (default (PyStr "") (stats !! "team"%string))
          position adjusted_value zero stats trend live_note is_sleeper
          sleeper_reason "" in
      Ok (st.1 ++ [rp], replacement_values)
  end.

Fixpoint valuation_loop (P : providers) (sport scoring_format : string)
  (hot_players : gmap string dict) (available : list string)
  (st : list RankedPlayer.t * gmap string (list float64))
  : result (list RankedPlayer.t * gmap string (list float64)) :=
  match available with
  | [] => Ok st
  | player_name :: rest =>
      st' ← value_player P sport scoring_format hot_players player_name st;
      valuation_loop P sport scoring_format hot_players rest st'
  end.

(** The replacement baseline of one position, from the values observed
    at it: the body of the loop over [replacement_values.items()]. The
    int [0] of the last branch is only ever subtracted from a float,
    which reads it as [0.0]. *)
Definition replacement_baseline (values : list float64) : float64 :=
  let sorted_vals := sort_desc id values in
  if (12 <=? length sorted_vals)%nat then
    fdiv (py_sum (take 5 (drop 7 sorted_vals))) (float_of_Z 5)
  else if (3 <=? length sorted_vals)%nat then
    List.last sorted_vals zero
  else zero.

Definition apply_vor (repl : gmap string float64) (rp : RankedPlayer.t)
  : result RankedPlayer.t :=
  pos_key ← pos_key_of (RankedPlayer.position rp);
  Ok (RankedPlayer.set_vor (compute_vor (RankedPlayer.fantasy_value rp) pos_key repl) rp).

(** [_count_roster_positions]: no position is counted yet. *)
Definition _count_roster_positions (roster_names : list string) (sport : string)
  : gmap string Z := ∅.

Definition positional_need (roster_positions : gmap string Z) (rp : RankedPlayer.t)
  : result RankedPlayer.t :=
  pos_key ← pos_key_of (RankedPlayer.position rp);
  if default 0 (roster_positions !! pos_key) =? 0 then
    Ok (RankedPlayer.set_recommendation ("fills " +:+ pos_key +:+ " need")
          (RankedPlayer.set_vor (fadd (RankedPlayer.vor rp) (lit 20 1)) rp))
  else Ok rp.

Definition best_available (ranked : list RankedPlayer.t) : list RankedPlayer.t :=
  match ranked with
  | rp :: rest =>
      if String.eqb (RankedPlayer.recommendation rp) ""
      then RankedPlayer.set_recommendation "BEST AVAILABLE" rp :: rest
      else ranked
  | [] => []
  end.

(** The pool after the drafted names are taken out. *)
Definition available_players (sport : string) (drafted_names : list string)
  : list string :=
  let drafted_lower : gset string := list_to_set (lower <$> drafted_names) in
  let pool := if String.eqb sport "nba" then NBA_DEFAULT_POOL else MLB_DEFAULT_POOL in
  filter (fun name => lower name ∉ drafted_lower) pool.

(** [build_draft_board]. [live_context] is [None] without a live
    connection and otherwise holds the hot-player table the connection
    yields for this call. *)
Definition build_draft_board (P : providers) (sport scoring_format : string)
  (drafted_names roster : list string) (live_context : option (gmap string dict))
  : result (list RankedPlayer.t) :=
  let hot_players := default ∅ live_context in
  let available := available_players sport drafted_names in
  '(ranked, replacement_values) ←
    valuation_loop P sport scoring_format hot_players available ([], ∅);
  let repl := replacement_baseline <$> replacement_values in
  ranked ← mapM_result (apply_vor repl) ranked;
  let roster_positions := _count_roster_positions roster sport in
  ranked ← mapM_result (positional_need roster_positions) ranked;
  let ranked := sort_desc RankedPlayer.vor ranked in
  Ok (best_available ranked).

(** ** The text of values: [str] and [repr] *)

Definition string_of_Z (z : Z) : string :=
  if z <? 0 then "-" +:+ string_of_N (Z.abs_N z) else string_of_N (Z.to_N z).

Definition zeros (n : nat) : string := Nat.iter n (String "0") "".

(** [s.rstrip("0")] on a numeral. *)
Definition strip_trailing_zeros (s : string) : string :=
  string_of_list_ascii
    (rev (drop_while (fun c => Ascii.eqb c "0") (rev (list_ascii_of_string s)))).

(** The shortest decimal numeral that [float] reads back as [m * 2 ^ e],
    the nearest to it where several have that length: its digits and the
    position of the decimal point, so that the value is
    [0.d1d2... * 10 ^ decpt]. *)
Definition shortest_digits (m : positive) (e : Z) : string * Z :=
  let num := match e with Zpos p => Zpos m * 2 ^ Zpos p | _ => Zpos m end in
  let den := match e with Zneg p => 2 ^ Zpos p | _ => 1 end in
  let p0 := Z.of_nat (String.length (string_of_N (Z.to_N num)))
            - Z.of_nat (String.length (string_of_N (Z.to_N den))) in
  let below (p : Z) := num * 10 ^ Z.max 0 (- p) <? den * 10 ^ Z.max 0 p in
  let decpt := if below p0 then p0 else p0 + 1 in
  let reads_back (c : Z) (k : Z) :=
    feqb (float_of_decimal false (Z.to_N c) (decpt - k)) (S754_finite false m e) in
  let fix search (fuel : nat) (k : Z) : string * Z :=
    let n := num * 10 ^ Z.max 0 (k - decpt) in
    let d := den * 10 ^ Z.max 0 (decpt - k) in
    let lo := n / d in
    let r := n mod d in
    let lo_ok := reads_back lo k in
    let hi_ok := negb (r =? 0) && reads_back (lo + 1) k in
    let found (c : Z) :=
      (strip_trailing_zeros (string_of_N (Z.to_N c)),
       if c =? 10 ^ k then decpt + 1 else decpt) in
    match fuel with
    | O => found lo
    | S fuel' =>
        if lo_ok && hi_ok then
          match 2 * r ?= d with
          | Lt => found lo
          | Gt => found (lo + 1)
          | Eq => if Z.even lo then found lo else found (lo + 1)
          end
        else if lo_ok then found lo
        else if hi_ok then found (lo + 1)
        else search fuel' (k + 1)
    end in
  search 17%nat 1.

(** [repr(x)] for a float. *)
Definition float_repr (x : float64) : string :=
  match x with
  | S754_nan => "nan"
  | S754_infinity s => if s then "-inf" else "inf"
  | S754_zero s => if s then "-0.0" else "0.0"
  | S754_finite s m e =>
      let '(digits, decpt) := shortest_digits m e in
      let ndigits := Z.of_nat (String.length digits) in
      (if s then "-" else "") +:+
      (if (-4 <? decpt) && (decpt <=? 16) then
         if decpt <=? 0 then "0." +:+ zeros (Z.to_nat (- decpt)) +:+ digits
         else if ndigits <=? decpt then digits +:+ zeros (Z.to_nat (decpt - ndigits)) +:+ ".0"
         else String.substring 0 (Z.to_nat decpt) digits +:+ "."
              +:+ String.substring (Z.to_nat decpt) (Z.to_nat (ndigits - decpt)) digits
       else
         let exponent := decpt - 1 in
         String.substring 0 1 digits
         +:+ (if 1 <? ndigits then "." +:+ String.substring 1 (Z.to_nat (ndigits - 1)) digits
              else "")
         +:+ "e" +:+ (if exponent <? 0 then "-" else "+")
         +:+ zero_pad 2 (string_of_N (Z.abs_N exponent)))
  end.

Definition hex_digit (n : N) : ascii :=
  ascii_of_N (if (n <? 10)%N then 48 + n else 87 + n).

(** [repr(s)] for a str of printable or control ASCII characters. *)
Definition str_repr (s : string) : string :=
  let cs := list_ascii_of_string s in
  let double_quote : ascii := ascii_of_N 34 in
  let quote : ascii :=
    if existsb (Ascii.eqb "'") cs && negb (existsb (Ascii.eqb double_quote) cs)
    then double_quote else "'"%char in
  let escape (c : ascii) : list ascii :=
    let n := N_of_ascii c in
    if Ascii.eqb c quote || Ascii.eqb c "\" then ["\"%char; c]
    else if (n =? 9)%N then ["\"; "t"]%char
    else if (n =? 10)%N then ["\"; "n"]%char
    else if (n =? 13)%N then ["\"; "r"]%char
    else if (n <? 32)%N || (n =? 127)%N
    then ["\"%char; "x"%char; hex_digit (n / 16); hex_digit (n mod 16)]
    else [c] in
  string_of_list_ascii (quote :: concat (map escape cs) ++ [quote]).

(** [repr(v)] *)
Fixpoint py_repr (v : pyval) : string :=
  match v with
  | PyNone => "None"
  | PyBool b => if b then "True" else "False"
  | PyInt z => string_of_Z z
  | PyFloat f => float_repr f
  | PyStr s => str_repr s
  | PyList l => "[" +:+ String.concat ", " (map py_repr l) +:+ "]"
  | PyDict d =>
      "{" +:+ String.concat ", " (map (fun kv => str_repr kv.1 +:+ ": " +:+ py_repr kv.2) d)
      +:+ "}"
  end.

(** [str(v)], the text an f-string field without a format shows. *)
Definition py_str (v : pyval) : string :=
  match v with
  | PyStr s => s
  | _ => py_repr v
  end.

(** ** Live game context *)

(** A loop over [l] that threads a state and can raise. *)
Fixpoint foldM_result {A B} (f : B -> A -> result B) (l : list A) (b : B) : result B :=
  match l with
  | [] => Ok b
  | x :: l' => b' ← f b x; foldM_result f l' b'
  end.

(** [isinstance(v, dict)], with the dict as a map from its keys. A dict
    nested in a payload lists each of its keys once. *)
Definition as_dict (v : pyval) : option dict :=
  match v with
  | PyDict items => Some (list_to_map items)
  | _ => None
  end.

(** [a or b] *)
Definition py_or (a b : pyval) : pyval := if truthy a then a else b.

(** [str(status).lower() in ("live", "in_progress", "active", "in
    progress")]. Only a str has one of the four texts: [str] of a number
    is a numeral, [inf] or [nan], of a bool [True] or [False], and of a
    list or a dict it starts with a bracket. *)
Definition status_is_live (status : pyval) : bool :=
  match status with
  | PyStr s => in_strs (PyStr (lower s)) ["live"; "in_progress"; "active"; "in progress"]%string
  | _ => false
  end.

(** The values [for player in players] visits, after
    [players = game.get(team_key) or []] and the replacement of a dict by
    the list of its values. A str yields its characters; a number is not
    iterable. *)
Definition players_of (v : pyval) : result (list pyval) :=
  match py_or v (PyList []) with
  | PyDict items => Ok items.*2
  | PyList l => Ok l
  | PyStr s => Ok (map (fun c => PyStr (String c EmptyString)) (list_ascii_of_string s))
  | PyNone | PyBool _ | PyInt _ | PyFloat _ => Raise TypeError
  end.

(** The entry filed for a hot player. *)
Definition hot_entry (pts reb ast : float64) : dict :=
  list_to_map
    [ ("pts", PyFloat pts); ("reb", PyFloat reb); ("ast", PyFloat ast);
      ("live", PyBool true);
      ("note",
       PyStr ("LIVE: " +:+ format_f pts 0 +:+ "pts/" +:+ format_f reb 0 +:+ "reb/"
              +:+ format_f ast 0 +:+ "ast tonight")) ]%string.

(** A list and a dict cannot be the key of a dict. *)
Definition is_hashable (v : pyval) : bool :=
  match v with
  | PyList _ | PyDict _ => false
  | _ => true
  end.

(** The body of the loop over the players of one team. The table
    [hot_players] is kept as the list of the assignments
    [hot_players[name] = entry], in the order they are made. *)
Definition scan_player (hot_players : list (pyval * dict)) (player : pyval)
  : result (list (pyval * dict)) :=
  match as_dict player with
  | None => Ok hot_players
  | Some p =>
      let get k := default PyNone (p !! k) in
      let name :=
        py_or (py_or (py_or (get "name"%string) (get "player_name"%string))
                 (get "fullName"%string)) (PyStr "") in
      if negb (truthy name) then Ok hot_players
      else
        pts ← _safe_float (py_or (get "points"%string) (get "pts"%string));
        reb ← _safe_float (py_or (get "rebounds"%string) (get "reb"%string));
        ast ← _safe_float (py_or (get "assists"%string) (get "ast"%string));
        if fleb (float_of_Z 20) pts || fleb (float_of_Z 10) reb || fleb (float_of_Z 8) ast
        then
          if is_hashable name then Ok (hot_players ++ [(name, hot_entry pts reb ast)])
          else Raise TypeError
        else Ok hot_players
  end.

Definition TEAM_KEYS : list string :=
  [ "home_players"; "away_players"; "players"; "home_stats"; "away_stats" ]%string.

Definition scan_team (g : dict) (hot_players : list (pyval * dict)) (team_key : string)
  : result (list (pyval * dict)) :=
  players ← players_of (default PyNone (g !! team_key));
  foldM_result scan_player players hot_players.

(** The body of the loop over the games. A game that is not a dict has
    no [get]. *)
Definition scan_game (hot_players : list (pyval * dict)) (game : pyval)
  : result (list (pyval * dict)) :=
  match as_dict game with
  | None => Raise AttributeError
  | Some g =>
      if status_is_live (py_or (default PyNone (g !! "status"%string)) (PyStr ""))
      then foldM_result (scan_team g) TEAM_KEYS hot_players
      else Ok hot_players
  end.

(** [ShippLiveContext.extract_hot_players] *)
Definition extract_hot_players (games : list pyval) : result (list (pyval * dict)) :=
  foldM_result scan_game games [].

(** The table the assignments leave, as the lookup of a player name sees
    it: a name is a str, and no other value equals a str, so an entry
    filed under a key that is not a str is never found. *)
Definition hot_table (assignments : list (pyval * dict)) : gmap string dict :=
  foldl
    (fun table a =>
       match a.1 with
       | PyStr name => <[name := a.2]> table
       | _ => table
       end)
    ∅ assignments.

(** ** Live game feed *)

Definition SHIPP_BASE_URL : string := "https://api.shipp.ai/api/v1".

Module ShippLiveContext.

(** The fields of the client that the polling reads and writes. The
    connection id and the cursor are [None] until they are set. *)
Record t := mk {
  api_key : string;
  connection_id : pyval;
  last_event_id : pyval
}.

Definition set_last_event_id (v : pyval) (self : t) : t :=
  mk (api_key self) (connection_id self) v.

End ShippLiveContext.

(** ["?" in path] *)
Definition has_query (path : string) : bool :=
  existsb (Ascii.eqb "?") (list_ascii_of_string path).

Definition _url (self : ShippLiveContext.t) (path : string) : string :=
  let sep := if has_query path then "&"%string else "?"%string in
  SHIPP_BASE_URL +:+ path +:+ sep +:+ "api_key=" +:+ ShippLiveContext.api_key self.

(** [v[-1]]: the last item of a list, the last character of a str;
    [None] where the indexing raises. *)
Definition py_last (v : pyval) : option pyval :=
  match v with
  | PyList l => last l
  | PyStr s => (fun c => PyStr (String c EmptyString)) <$> last (list_ascii_of_string s)
  | _ => None
  end.

(** The request of one poll: the URL and the JSON body. *)
Definition poll_request (self : ShippLiveContext.t) : string * dict :=
  (_url self ("/connections/" +:+ py_str (ShippLiveContext.connection_id self)),
   if truthy (ShippLiveContext.last_event_id self)
   then {[ "since_event_id"%string := ShippLiveContext.last_event_id self ]}
   else ∅).

(** What the [try] block makes of the decoded reply: the events and the
    client with its cursor moved, or [None] where a statement raises. *)
Definition read_events (self : ShippLiveContext.t) (data : pyval)
  : option (pyval * ShippLiveContext.t) :=
  d ← as_dict data;
  let events := default (default (PyList []) (d !! "events"%string)) (d !! "data"%string) in
  if truthy events then
    last_event ← py_last events;
    l ← as_dict last_event;
    let cursor :=
      py_or (default PyNone (l !! "id"%string)) (default PyNone (l !! "event_id"%string)) in
    Some (events,
          if truthy cursor
          then ShippLiveContext.set_last_event_id (PyStr (py_str cursor)) self
          else self)
  else Some (events, self).

(** [get_live_games]: the value returned and the client afterwards.
    [response] is the decoded reply to the request, [None] where the
    request, the status check or the decoding raises; without a
    connection no request is made. *)
Definition get_live_games (self : ShippLiveContext.t) (response : option pyval)
  : pyval * ShippLiveContext.t :=
  if negb (truthy (ShippLiveContext.connection_id self)) then (PyList [], self)
  else
    match response ≫= read_events self with
    | Some r => r
    | None => (PyList [], self)
    end.

(** The values [for game in games] visits. *)
Definition iterate (v : pyval) : result (list pyval) :=
  match v with
  | PyList l => Ok l
  | PyStr s => Ok (map (fun c => PyStr (String c EmptyString)) (list_ascii_of_string s))
  | PyDict items => Ok (PyStr <$> items.*1)
  | PyNone | PyBool _ | PyInt _ | PyFloat _ => Raise TypeError
  end.

(** The hot-player table [build_draft_board] computes from a live
    context: [extract_hot_players(get_live_games())]. *)
Definition live_hot_players (self : ShippLiveContext.t) (response : option pyval)
  : result (gmap string dict) :=
  games ← iterate (get_live_games self response).1;
  assignments ← extract_hot_players games;
  Ok (hot_table assignments).

(** ** Command line *)

(** [c.isspace()] for an ASCII character, the test of [str.strip()]. *)
Definition is_whitespace (c : ascii) : bool :=
  let n := N_of_ascii c in ((9 <=? n) && (n <=? 13) || (28 <=? n) && (n <=? 32))%N.

(** [s.strip()] *)
Definition strip (s : string) : string :=
  string_of_list_ascii
    (rev (drop_while is_whitespace (rev (drop_while is_whitespace (list_ascii_of_string s))))).

(** [s.split(c)] for a one-character separator. *)
Fixpoint split (c : ascii) (s : string) : list string :=
  match s with
  | EmptyString => [EmptyString]
  | String a s' =>
      if Ascii.eqb a c then EmptyString :: split c s'
      else
        match split c s' with
        | part :: parts => String a part :: parts
        | [] => [String a EmptyString]
        end
  end.

(** [[n.strip() for n in arg.split(",") if n.strip()]]: how [main] reads
    the values of [--drafted] and [--roster]. *)
Definition comma_separated_names (arg : string) : list string :=
  strip <$> filter (fun n => negb (String.eqb (strip n) "")) (split "," arg).

(** ** Output formatting *)

Definition NBA_POSITIONS : list (string * string) :=
  [ ("PG", "Point Guard"); ("SG", "Shooting Guard"); ("SF", "Small Forward");
    ("PF", "Power Forward"); ("C", "Center"); ("G", "Guard"); ("F", "Forward") ]%string.

Definition MLB_POSITIONS : list (string * string) :=
  [ ("C", "Catcher"); ("1B", "First Base"); ("2B", "Second Base");
    ("3B", "Third Base"); ("SS", "Shortstop"); ("OF", "Outfield");
    ("DH", "Designated Hitter"); ("SP", "Starting Pitcher");
    ("RP", "Relief Pitcher") ]%string.

Definition is_letter (c : ascii) : bool :=
  let n := N_of_ascii c in
  ((65 <=? n) && (n <=? 90) || (97 <=? n) && (n <=? 122))%N.

Definition upper_ascii (c : ascii) : ascii :=
  let n := N_of_ascii c in
  if ((97 <=? n) && (n <=? 122))%N then ascii_of_N (n - 32) else c.

(** [s.title()] (ASCII): a letter is upper case after a character that
    is not a letter and lower case after a letter. *)
Fixpoint title_from (after_letter : bool) (s : string) : string :=
  match s with
  | EmptyString => EmptyString
  | String c s' =>
      if is_letter c
      then String (if after_letter then lower_ascii c else upper_ascii c) (title_from true s')
      else String c (title_from false s')
  end.

Definition title (s : string) : string := title_from false s.

(** ["c" * n] *)
Definition repeat_char (c : ascii) (n : nat) : string := Nat.iter n (String c) "".

(** [f"{n:<width>d}"] for a count, and [f"{s:<width>s}"]. *)
Definition format_d (n : nat) (width : nat) : string :=
  let s := string_of_N (N.of_nat n) in
  repeat_char " " (width - String.length s) +:+ s.

Definition format_s (s : string) (width : nat) : string :=
  s +:+ repeat_char " " (width - String.length s).

(** [f"{x:+.<ndigits>f}"]: a plus sign unless the number has a minus. *)
Definition format_plus_f (x : float64) (ndigits : nat) : string :=
  match x with
  | S754_zero true | S754_infinity true | S754_finite true _ _ => format_f x ndigits
  | _ => "+" +:+ format_f x ndigits
  end.

(** [f"{v:.<ndigits>f}"] for a value: an int and a bool are converted to
    float, a str does not know the format code, another value has no
    format at all. *)
Definition format_f_value (v : pyval) (ndigits : nat) : result string :=
  match v with
  | PyFloat f => Ok (format_f f ndigits)
  | PyInt z =>
      let f := float_of_Z z in
      if is_inf f then Raise OverflowError else Ok (format_f f ndigits)
  | PyBool b => Ok (format_f (if b then float_of_Z 1 else zero) ndigits)
  | PyStr _ => Raise ValueError
  | PyNone | PyList _ | PyDict _ => Raise TypeError
  end.

(** [l[:n]] *)
Definition slice_to {A} (n : Z) (l : list A) : list A :=
  if 0 <=? n then take (Z.to_nat n) l
  else take (length l - Z.to_nat (- n)) l.

Definition player_tag (rp : RankedPlayer.t) : string :=
  let tag := if RankedPlayer.is_sleeper rp then " [SLEEPER]"%string else ""%string in
  if truthy (RankedPlayer.live_note rp) then tag +:+ " [LIVE]" else tag.

(** The season summary of one entry. *)
Definition season_lines (sport : string) (s : dict) : result (list string) :=
  if String.eqb sport "nba" then
    pts ← format_f_value (default (PyInt 0) (s !! "pts"%string)) 1;
    reb ← format_f_value (default (PyInt 0) (s !! "reb"%string)) 1;
    ast ← format_f_value (default (PyInt 0) (s !! "ast"%string)) 1;
    stl ← format_f_value (default (PyInt 0) (s !! "stl"%string)) 1;
    blk ← format_f_value (default (PyInt 0) (s !! "blk"%string)) 1;
    Ok [ "      Season: " +:+ pts +:+ "pts, " +:+ reb +:+ "reb, " +:+ ast +:+ "ast, "
         +:+ stl +:+ "stl, " +:+ blk +:+ "blk" ]
  else if String.eqb sport "mlb" then
    let get (k : string) (d : pyval) := py_str (default d (s !! k)) in
    if match default PyNone (s !! "era"%string) with PyNone => false | _ => true end
       && bool_decide (is_Some (s !! "wins"%string))
    then
      Ok [ "      Season: " +:+ get "wins" (PyInt 0) +:+ "W-" +:+ get "losses" (PyInt 0)
           +:+ "L, " +:+ get "era" (PyStr "0.00") +:+ " ERA, " +:+ get "so" (PyInt 0)
           +:+ " K, " +:+ get "whip" (PyStr "0.00") +:+ " WHIP" ]
    else
      Ok [ "      Season: " +:+ get "avg" (PyStr ".000") +:+ " AVG, " +:+ get "hr" (PyInt 0)
           +:+ " HR, " +:+ get "rbi" (PyInt 0) +:+ " RBI, " +:+ get "runs" (PyInt 0)
           +:+ " R, " +:+ get "sb" (PyInt 0) +:+ " SB" ]
  else Ok [].

(** The lines of the entry at rank [i]. *)
Definition player_lines (sport : string) (i : nat) (rp : RankedPlayer.t)
  : result (list string) :=
  let head :=
    "  " +:+ format_d i 2 +:+ ". " +:+ RankedPlayer.name rp +:+ " ("
    +:+ py_str (RankedPlayer.position rp) +:+ ", " +:+ py_str (RankedPlayer.team rp)
    +:+ ") -- VOR: " +:+ format_plus_f (RankedPlayer.vor rp) 1 +:+ player_tag rp in
  season ← season_lines sport (RankedPlayer.season_stats rp);
  let trend :=
    if negb (feqb (RankedPlayer.recent_trend rp) zero) then
      let direction :=
        if fltb zero (RankedPlayer.recent_trend rp) then "UP"%string else "DOWN"%string in
      [ "      Last 10: " +:+ direction +:+ " "
        +:+ format_f (SFabs (RankedPlayer.recent_trend rp)) 0 +:+ "% from season avg" ]
    else [] in
  let live :=
    if truthy (RankedPlayer.live_note rp)
    then [ "      " +:+ py_str (RankedPlayer.live_note rp) ] else [] in
  let sleeper :=
    if RankedPlayer.is_sleeper rp && negb (String.eqb (RankedPlayer.sleeper_reason rp) "")
    then [ "      >> SLEEPER: " +:+ RankedPlayer.sleeper_reason rp ] else [] in
  let recommendation :=
    if negb (String.eqb (RankedPlayer.recommendation rp) "")
    then [ "      >> " +:+ RankedPlayer.recommendation rp ] else [] in
  Ok (head :: season ++ trend ++ live ++ sleeper ++ recommendation ++ [""%string]).

(** [(position or "").split("/")] *)
Definition position_parts (position : pyval) : result (list string) :=
  match py_or position (PyStr "") with
  | PyStr s => Ok (split "/" s)
  | _ => Raise AttributeError
  end.

(** How many entries are eligible at a position. *)
Definition eligible_count (pos_abbr : string) (ranked : list RankedPlayer.t) : result nat :=
  parts ← mapM_result (fun rp => position_parts (RankedPlayer.position rp)) ranked;
  Ok (length (filter (fun ps => pos_abbr ∈ ps) parts)).

Definition scarcity_label (count : nat) : string :=
  if (count <=? 3)%nat then "SCARCE" else if (count <=? 6)%nat then "THIN" else "DEEP".

(** The positional scarcity summary: one line for each position of the
    sport at which some entry is eligible. *)
Definition scarcity_lines (ranked : list RankedPlayer.t) (sport : string)
  : result (list string) :=
  let positions := if String.eqb sport "nba" then NBA_POSITIONS else MLB_POSITIONS in
  lines ←
    mapM_result
      (fun position =>
         count ← eligible_count position.1 ranked;
         Ok (if (count =? 0)%nat then []
             else [ "    " +:+ format_s position.1 3 +:+ ": " +:+ format_d count 2
                    +:+ " quality options (" +:+ scarcity_label count +:+ ")" ]))
      positions;
  Ok (concat lines).

Definition newline : string := String (ascii_of_N 10) EmptyString.

Definition format_draft_board (ranked : list RankedPlayer.t)
  (sport scoring_format : string) (top_n : Z) : result string :=
  let sport_label := if String.eqb sport "nba" then "NBA"%string else "MLB"%string in
  let format_label := title scoring_format in
  let shown := slice_to top_n ranked in
  players ←
    mapM_result (fun entry => player_lines sport entry.1 entry.2)
      (zip (seq 1 (length shown)) shown);
  scarcity ← scarcity_lines ranked sport;
  Ok (String.concat newline
        ([ repeat_char "=" 72;
           "  FANTASY DRAFT ASSISTANT -- " +:+ sport_label +:+ " " +:+ format_label
           +:+ " League";
           repeat_char "=" 72;
           "";
           "  BEST AVAILABLE PLAYERS";
           "  " +:+ repeat_char "-" 68 ]%string
         ++ concat players
         ++ [ "  " +:+ repeat_char "-" 68; "  POSITIONAL SCARCITY"; "" ]%string
         ++ scarcity
         ++ [ ""; repeat_char "=" 72 ]%string)).

(** ** Stat provider: the MLB records *)

(** [v.get(k, d)] on a value of a payload: only a dict has [get]. *)
Definition py_get (v : pyval) (k : string) (d : pyval) : result pyval :=
  match as_dict v with
  | Some m => Ok (default d (m !! k))
  | None => Raise AttributeError
  end.

(** The fields [get_mlb_player_stats] copies from the raw stat record,
    as pairs of the normalized key and the key and default it is read
    with. *)
Definition MLB_HITTING_FIELDS : list (string * (string * pyval)) :=
  [ ("games", ("gamesPlayed", PyInt 0)); ("avg", ("avg", PyStr ".000"));
    ("hr", ("homeRuns", PyInt 0)); ("rbi", ("rbi", PyInt 0));
    ("runs", ("runs", PyInt 0)); ("sb", ("stolenBases", PyInt 0));
    ("obp", ("obp", PyStr ".000")); ("slg", ("slg", PyStr ".000"));
    ("ops", ("ops", PyStr ".000")); ("hits", ("hits", PyInt 0));
    ("ab", ("atBats", PyInt 0)); ("bb", ("baseOnBalls", PyInt 0));
    ("so", ("strikeOuts", PyInt 0)) ]%string.

Definition MLB_PITCHING_FIELDS : list (string * (string * pyval)) :=
  [ ("games", ("gamesPlayed", PyInt 0)); ("wins", ("wins", PyInt 0));
    ("losses", ("losses", PyInt 0)); ("era", ("era", PyStr "0.00"));
    ("whip", ("whip", PyStr "0.00")); ("so", ("strikeOuts", PyInt 0));
    ("ip", ("inningsPitched", PyStr "0.0")); ("saves", ("saves", PyInt 0));
    ("holds", ("holds", PyInt 0)); ("bb", ("baseOnBalls", PyInt 0));
    ("hits_allowed", ("hits", PyInt 0)); ("hr_allowed", ("homeRuns", PyInt 0)) ]%string.

(** [result.update({key: raw.get(source, default), ...})] *)
Definition copy_fields (raw : pyval) (fields : list (string * (string * pyval)))
  (record : dict) : result dict :=
  foldM_result
    (fun record field =>
       v ← py_get raw field.2.1 field.2.2;
       Ok (<[field.1 := v]> record))
    fields record.

(** The record [get_mlb_player_stats] returns once it has the player,
    its id and the raw stat record of the first split. On every other
    path it returns the empty dict. *)
Definition mlb_stats_record (player player_id raw : pyval)
  (player_name stat_group : string) : result dict :=
  primary ← py_get player "primaryPosition" (PyDict []);
  position ← py_get primary "abbreviation" (PyStr "");
  name ← py_get player "fullName" (PyStr player_name);
  current ← py_get player "currentTeam" (PyDict []);
  team ← py_get current "name" (PyStr "");
  let record : dict :=
    list_to_map
      [ ("player_id", player_id); ("name", name); ("team", team);
        ("position", position) ]%string in
  if String.eqb stat_group "hitting" then copy_fields raw MLB_HITTING_FIELDS record
  else if String.eqb stat_group "pitching" then copy_fields raw MLB_PITCHING_FIELDS record
  else Ok record.

(** * Vocabulary of the properties *)

(** A float that is not NaN, as a point of [Z * Z * Z] ordered
    lexicographically: the class (negative infinity, negative, zero,
    positive, positive infinity), then exponent and mantissa. *)
Definition ord_key (x : float64) : Z * Z * Z :=
  match x with
  | S754_nan => (0, 0, 0)
  | S754_zero _ => (0, 0, 0)
  | S754_infinity s => (if s then -2 else 2, 0, 0)
  | S754_finite s m e => if s then (-1, - e, Zneg m) else (1, e, Zpos m)
  end.

Definition lex_compare (a b : Z * Z * Z) : comparison :=
  match a.1.1 ?= b.1.1 with
  | Eq => match a.1.2 ?= b.1.2 with
          | Eq => a.2 ?= b.2
          | c => c
          end
  | c => c
  end.

(** [precedes a b l]: some occurrence of [a] in [l] stands before some
    occurrence of [b]. *)
Inductive precedes {A} (a b : A) : list A -> Prop :=
| precedes_here l : b ∈ l -> precedes a b (a :: l)
| precedes_later x l : precedes a b l -> precedes a b (x :: l).

(** [descending key l]: every entry's key is at least the key of every
    later entry. *)
Definition descending {A} (key : A -> float64) (l : list A) : Prop :=
  forall a b, precedes a b l -> fleb (key b) (key a) = true.

(** What the two passes over the valued entries (VOR, then positional
    need with the roster count of [_count_roster_positions]) make of one
    entry. *)
Definition scored (repl : gmap string float64) (rp rp' : RankedPlayer.t) : Prop :=
  RankedPlayer.name rp' = RankedPlayer.name rp
  /\ RankedPlayer.position rp' = RankedPlayer.position rp
  /\ RankedPlayer.fantasy_value rp' = RankedPlayer.fantasy_value rp
  /\ exists pos_key,
      pos_key_of (RankedPlayer.position rp) = Ok pos_key
      /\ RankedPlayer.vor rp'
         = fadd (compute_vor (RankedPlayer.fantasy_value rp) pos_key repl) (lit 20 1)
      /\ RankedPlayer.recommendation rp' = "fills " +:+ pos_key +:+ " need".

(** Every valued entry has a position key, and the loop has recorded a
    value under it. *)
Definition keyed (st : list RankedPlayer.t * gmap string (list float64)) : Prop :=
  Forall
    (fun rp =>
       exists pos_key,
         pos_key_of (RankedPlayer.position rp) = Ok pos_key
         /\ is_Some (st.2 !! pos_key))
    st.1.

(** The names and VORs of a returned board, in rank order. *)
Definition board_vors (r : result (list RankedPlayer.t)) : option (list (string * float64)) :=
  match r with
  | Ok ranked => Some (map (fun rp => (RankedPlayer.name rp, RankedPlayer.vor rp)) ranked)
  | Raise _ => None
  end.

(** The pitching formula in the spec's words: the weighted counting
    stats, minus [(era - 3.50) / 0.50 * 2.0] when the ERA is above 3.50,
    minus [(whip - 1.20) / 0.10 * 3.0] when the WHIP is above 1.20,
    rounded to one decimal. *)
Definition pitching_value_spec (wins so saves era whip : float64) : float64 :=
  let base :=
    fadd (fadd (fadd zero (fmul wins (lit 50 1))) (fmul so (lit 10 1)))
      (fmul saves (lit 50 1)) in
  let after_era :=
    if fltb (lit 350 2) era
    then fsub base (fmul (fdiv (fsub era (lit 350 2)) (lit 50 2)) (lit 20 1))
    else base in
  let after_whip :=
    if fltb (lit 120 2) whip
    then fsub after_era (fmul (fdiv (fsub whip (lit 120 2)) (lit 10 2)) (lit 30 1))
    else after_era in
  py_round after_whip 1.

(** The hitting formula in the spec's words: the weighted counting
    stats, plus [(avg - .270) * 1000 * 5.0] when the average is strictly
    above .270, rounded to one decimal. *)
Definition hitting_value_spec (runs hr rbi sb avg : float64) : float64 :=
  let base :=
    fadd (fadd (fadd (fadd zero (fmul runs (lit 10 1))) (fmul hr (lit 40 1)))
            (fmul rbi (lit 10 1))) (fmul sb (lit 20 1)) in
  py_round
    (if fltb (lit 270 3) avg
     then fadd base (fmul (fmul (fsub avg (lit 270 3)) (float_of_Z 1000)) (lit 50 1))
     else base) 1.

(** The candidates the valuation loop keeps: those for which the
    provider has data. *)
Definition has_data (P : providers) (sport scoring_format player_name : string) : bool :=
  match resolve_player P sport scoring_format player_name with
  | Ok (Some _) => true
  | _ => false
  end.

(** The live bonus and the trend boost of the loop body. *)
Definition adjusted_value (value trend : float64) (hot : bool) : float64 :=
  let adjusted := fadd value (if hot then lit 30 1 else zero) in
  if fltb (float_of_Z 10) trend then fadd adjusted (fmul trend (lit 1 1)) else adjusted.

(** An entry whose fields, those that the passes after the valuation
    loop do not assign, are what the loop body computes for its name. *)
Definition valued_as (P : providers) (sport scoring_format : string)
  (hot_players : gmap string dict) (rp : RankedPlayer.t) : Prop :=
  exists stats value trend position,
    resolve_player P sport scoring_format (RankedPlayer.name rp)
    = Ok (Some (stats, value, trend, position))
    /\ RankedPlayer.season_stats rp = stats
    /\ RankedPlayer.position rp = position
    /\ RankedPlayer.recent_trend rp = trend
    /\ RankedPlayer.team rp = default (PyStr "") (stats !! "team"%string)
    /\ identify_sleeper stats trend value position
       = Ok (RankedPlayer.is_sleeper rp, RankedPlayer.sleeper_reason rp)
    /\ RankedPlayer.live_note rp
       = match hot_players !! RankedPlayer.name rp with
         | Some hp => default (PyStr "") (hp !! "note"%string)
         | None => PyStr ""
         end
    /\ RankedPlayer.fantasy_value rp
       = adjusted_value value trend (bool_decide (is_Some (hot_players !! RankedPlayer.name rp))).

(** [pos_key == k] for the position key of an entry. *)
Definition has_key (k : string) (rp : RankedPlayer.t) : bool :=
  match pos_key_of (RankedPlayer.position rp) with
  | Ok k' => String.eqb k' k
  | Raise _ => false
  end.

(** Two entries that differ at most in the fields the passes after the
    valuation loop assign: the VOR and the recommendation. *)
Definition same_valuation (rp rp' : RankedPlayer.t) : Prop :=
  RankedPlayer.name rp' = RankedPlayer.name rp
  /\ RankedPlayer.team rp' = RankedPlayer.team rp
  /\ RankedPlayer.position rp' = RankedPlayer.position rp
  /\ RankedPlayer.fantasy_value rp' = RankedPlayer.fantasy_value rp
  /\ RankedPlayer.season_stats rp' = RankedPlayer.season_stats rp
  /\ RankedPlayer.recent_trend rp' = RankedPlayer.recent_trend rp
  /\ RankedPlayer.live_note rp' = RankedPlayer.live_note rp
  /\ RankedPlayer.is_sleeper rp' = RankedPlayer.is_sleeper rp
  /\ RankedPlayer.sleeper_reason rp' = RankedPlayer.sleeper_reason rp.

(** As many values are recorded under a key as there are valued
    entries with the key. *)
Definition counted (st : list RankedPlayer.t * gmap string (list float64)) : Prop :=
  forall k,
    length (default [] (st.2 !! k)) = length (filter (fun rp => has_key k rp) st.1).

(** An assignment of a hot entry: the name is truthy and one of the
    three thresholds is met. *)
Definition hot_assignment (a : pyval * dict) : Prop :=
  truthy a.1 = true
  /\ exists pts reb ast,
      a.2 = hot_entry pts reb ast
      /\ fleb (float_of_Z 20) pts || fleb (float_of_Z 10) reb || fleb (float_of_Z 8) ast
         = true.

(** A game the loop passes over. *)
Definition not_live (game : pyval) : bool :=
  match as_dict game with
  | Some g => negb (status_is_live (py_or (default PyNone (g !! "status"%string)) (PyStr "")))
  | None => false
  end.

(** A name as the command line can carry it: not empty, without a
    comma, and with no whitespace at either end. *)
Definition plain_name (n : string) : Prop :=
  n <> ""%string /\ strip n = n /\ ","%char ∉ list_ascii_of_string n.

(** A stat the season line of an NBA entry can show: absent, or a
    number that has a float value. *)
Definition showable (v : option pyval) : Prop :=
  exists text, format_f_value (default (PyInt 0) v) 1 = Ok text.

Definition nba_showable (rp : RankedPlayer.t) : Prop :=
  Forall (fun k => showable (RankedPlayer.season_stats rp !! k))
    ["pts"; "reb"; "ast"; "stl"; "blk"]%string.

(** A position the scarcity summary can read: a str, or a value that
    counts as false. *)
Definition readable_position (rp : RankedPlayer.t) : Prop :=
  exists parts, position_parts (RankedPlayer.position rp) = Ok parts.

(** The answers of [get_mlb_player_stats]: the empty dict, or a record
    built from a payload. *)
Definition mlb_provider_answers (P : providers) : Prop :=
  forall player_name stat_group,
    get_mlb_player_stats P player_name stat_group = ∅
    \/ exists player player_id raw,
        mlb_stats_record player player_id raw player_name stat_group
        = Ok (get_mlb_player_stats P player_name stat_group).

(** Two records that agree at every key but "spring_training". *)
Definition off_spring (s s' : dict) : Prop :=
  forall k, k <> "spring_training"%string -> s !! k = s' !! k.

(** Two entries that differ at most in what their records hold under
    "spring_training". *)
Definition same_but_spring (rp rp' : RankedPlayer.t) : Prop :=
  RankedPlayer.name rp = RankedPlayer.name rp'
  /\ RankedPlayer.team rp = RankedPlayer.team rp'
  /\ RankedPlayer.position rp = RankedPlayer.position rp'
  /\ RankedPlayer.fantasy_value rp = RankedPlayer.fantasy_value rp'
  /\ RankedPlayer.vor rp = RankedPlayer.vor rp'
  /\ off_spring (RankedPlayer.season_stats rp) (RankedPlayer.season_stats rp')
  /\ RankedPlayer.recent_trend rp = RankedPlayer.recent_trend rp'
  /\ RankedPlayer.live_note rp = RankedPlayer.live_note rp'
  /\ RankedPlayer.is_sleeper rp = RankedPlayer.is_sleeper rp'
  /\ RankedPlayer.sleeper_reason rp = RankedPlayer.sleeper_reason rp'
  /\ RankedPlayer.recommendation rp = RankedPlayer.recommendation rp'.

(** Two outcomes: the same exception, or results that are related. *)
Definition same_outcome {A} (R : A -> A -> Prop) (r r' : result A) : Prop :=
  match r, r' with
  | Ok a, Ok a' => R a a'
  | Raise e, Raise e' => e = e'
  | _, _ => False
  end.

(** Two providers that answer alike but for the spring training. *)
Definition same_season_answers (P P' : providers) : Prop :=
  (forall n, get_nba_player_season_stats P n = get_nba_player_season_stats P' n)
  /\ (forall id, get_nba_player_game_log P id = get_nba_player_game_log P' id)
  /\ (forall n g, get_mlb_player_stats P n g = get_mlb_player_stats P' n g).

(** * Example inputs *)

(** The record of the spec's basketball example. *)
Definition nba_example : dict :=
  list_to_map
    [ ("pts", PyFloat (lit 250 1)); ("reb", PyFloat (lit 70 1));
      ("ast", PyFloat (lit 80 1)); ("stl", PyFloat (lit 15 1));
      ("blk", PyFloat (lit 5 1)); ("fg3m", PyFloat (lit 20 1));
      ("tov", PyFloat (lit 30 1)) ]%string.

(** The records of the spec's two pitching examples. *)
Definition pitching_example : dict :=
  list_to_map
    [ ("wins", PyInt 10); ("so", PyInt 150); ("saves", PyInt 0);
      ("era", PyStr "4.50"); ("whip", PyStr "1.40") ]%string.

Definition pitching_malformed_example : dict :=
  list_to_map
    [ ("wins", PyInt 5); ("so", PyInt 50); ("saves", PyInt 0);
      ("era", PyStr "N/A"); ("whip", PyStr "bad") ]%string.

(** The record of the spec's hitting example, and the same record with
    a JSON [null] for the average. *)
Definition hitting_example : dict :=
  list_to_map
    [ ("runs", PyInt 100); ("hr", PyInt 40); ("rbi", PyInt 110);
      ("sb", PyInt 10); ("avg", PyStr ".300") ]%string.

Definition hitting_null_avg_example : dict :=
  list_to_map
    [ ("runs", PyInt 100); ("hr", PyInt 40); ("rbi", PyInt 110);
      ("sb", PyInt 10); ("avg", PyNone) ]%string.

(** The stat record of the test suite that does not qualify. *)
Definition not_qualifying_example : dict :=
  list_to_map
    [ ("pts", PyInt 10); ("blk", PyFloat (lit 5 1)); ("stl", PyFloat (lit 5 1)) ]%string.

(** A center with 2.5 blocks, a 20% trend and a value of 30: both the
    trend rule and the blocks rule apply. *)
Definition trending_center_example : dict :=
  list_to_map [ ("blk", PyFloat (lit 25 1)) ]%string.

(** The season record and game log of the test suite's upward trend. *)
Definition trend_season_example : dict :=
  list_to_map [ ("pts", PyFloat (lit 200 1)) ]%string.

Definition trend_log_example : list dict :=
  [ list_to_map [ ("pts", PyInt 25) ];
    list_to_map [ ("pts", PyInt 27) ];
    list_to_map [ ("pts", PyInt 24) ] ]%string.

(** A provider that knows two NBA players and nobody else. *)
Definition two_player_stats (second_pts : pyval) (player_name : string) : dict :=
  if String.eqb player_name "Nikola Jokic" then
    list_to_map
      [ ("team", PyStr "DEN"); ("position", PyStr "C");
        ("pts", PyFloat (lit 100 1)) ]%string
  else if String.eqb player_name "Luka Doncic" then
    list_to_map
      [ ("team", PyStr "DAL"); ("position", PyStr "PG/SG");
        ("pts", second_pts) ]%string
  else ∅.

Definition two_player_provider (second_pts : pyval) : providers :=
  {| get_nba_player_season_stats := two_player_stats second_pts;
     get_nba_player_game_log := fun _ => [];
     get_mlb_player_stats := fun _ _ => ∅;
     get_mlb_spring_training_stats := fun _ => ∅ |}.

(** The board of the two players when the second scores 30.5 points. *)
Definition two_player_board : list RankedPlayer.t :=
  Eval vm_compute in
    match build_draft_board (two_player_provider (PyFloat (lit 305 1)))
            "nba" "points" [] ["LeBron James"%string] None with
    | Ok ranked => ranked
    | Raise _ => []
    end.


(** The games of the test suite: a live one with a player above and a
    player below the thresholds, one that is over, and a live one whose
    players come as a dict. *)
Definition live_game_example : pyval :=
  PyDict
    [ ("status", PyStr "live");
      ("home_players",
       PyList
         [ PyDict [ ("name", PyStr "Star Player"); ("pts", PyInt 30);
                    ("reb", PyInt 12); ("ast", PyInt 5) ];
           PyDict [ ("name", PyStr "Bench Guy"); ("pts", PyInt 4);
                    ("reb", PyInt 2); ("ast", PyInt 1) ] ]) ]%string.

Definition final_game_example : pyval :=
  PyDict
    [ ("status", PyStr "final");
      ("home_players",
       PyList
         [ PyDict [ ("name", PyStr "Star Player"); ("pts", PyInt 50);
                    ("reb", PyInt 15); ("ast", PyInt 10) ] ]) ]%string.

Definition dict_players_example : pyval :=
  PyDict
    [ ("status", PyStr "in_progress");
      ("players",
       PyDict
         [ ("p1",
            PyDict [ ("player_name", PyStr "Hot Shot"); ("points", PyInt 25);
                     ("rebounds", PyInt 5); ("assists", PyInt 3) ]) ]) ]%string.

(** The board of the test suite's first formatting test. *)
Definition test_player_board : list RankedPlayer.t :=
  [ RankedPlayer.mk "Test Player" (PyStr "TST") (PyStr "PG") (float_of_Z 50)
      (float_of_Z 15)
      (list_to_map
         [ ("pts", PyFloat (lit 250 1)); ("reb", PyFloat (lit 70 1));
           ("ast", PyFloat (lit 80 1)); ("stl", PyFloat (lit 15 1));
           ("blk", PyFloat (lit 5 1)) ]%string)
      (float_of_Z 12) (PyStr "") false "" "BEST AVAILABLE" ].

(** The board of the two players when the provider reports the points
    of the second as the str "30.5": the valuation reads 30.5. *)
Definition str_points_board : list RankedPlayer.t :=
  Eval vm_compute in
    match build_draft_board (two_player_provider (PyStr "30.5"))
            "nba" "points" [] [] None with
    | Ok ranked => ranked
    | Raise _ => []
    end.

(** A player and a raw hitting record, as the payloads hold them. *)
Definition judge_player : pyval :=
  PyDict
    [ ("id", PyInt 592450); ("fullName", PyStr "Aaron Judge");
      ("primaryPosition", PyDict [ ("abbreviation", PyStr "OF") ]);
      ("currentTeam", PyDict [ ("name", PyStr "New York Yankees") ]) ]%string.

Definition judge_raw : pyval :=
  PyDict
    [ ("gamesPlayed", PyInt 150); ("avg", PyStr ".310"); ("homeRuns", PyInt 52);
      ("rbi", PyInt 130); ("runs", PyInt 110); ("stolenBases", PyInt 5) ]%string.

Definition judge_record : dict :=
  Eval vm_compute in
    match mlb_stats_record judge_player (PyInt 592450) judge_raw "Aaron Judge" "hitting" with
    | Ok record => record
    | Raise _ => ∅
    end.

(** A provider that knows one hitter. *)
Definition judge_provider : providers :=
  {| get_nba_player_season_stats := fun _ => ∅;
     get_nba_player_game_log := fun _ => [];
     get_mlb_player_stats := fun player_name stat_group =>
       if String.eqb player_name "Aaron Judge" && String.eqb stat_group "hitting"
       then judge_record else ∅;
     get_mlb_spring_training_stats := fun _ => ∅ |}.

Definition judge_board : list RankedPlayer.t :=
  Eval vm_compute in
    match build_draft_board judge_provider "mlb" "roto" [] [] None with
    | Ok ranked => ranked
    | Raise _ => []
    end.

(** The one-hitter provider, with a spring training record. *)
Definition judge_spring_provider : providers :=
  {| get_nba_player_season_stats := fun _ => ∅;
     get_nba_player_game_log := fun _ => [];
     get_mlb_player_stats := get_mlb_player_stats judge_provider;
     get_mlb_spring_training_stats := fun _ =>
       list_to_map
         [ ("type", PyStr "spring_training"); ("games", PyInt 12);
           ("avg", PyStr ".400") ]%string |}.

Definition connected_example : ShippLiveContext.t :=
  ShippLiveContext.mk "test-key" (PyStr "abc123") PyNone.

(** The reply of the test suite, and a reply whose "data" is null. *)
Definition events_reply_example : pyval :=
  PyDict
    [ ("data",
       PyList
         [ PyDict [ ("id", PyStr "evt-98"); ("status", PyStr "live") ];
           PyDict [ ("id", PyStr "evt-99"); ("status", PyStr "live") ] ]) ]%string.

Definition null_data_reply : pyval := PyDict [ ("data", PyNone) ]%string.

(** A live game in which the second of the two players is hot, the
    assignments it yields, and the board built with them. *)
Definition doncic_live_game : pyval :=
  PyDict
    [ ("status", PyStr "Live");
      ("away_players",
       PyList
         [ PyDict [ ("name", PyStr "Luka Doncic"); ("points", PyInt 35);
                    ("rebounds", PyInt 8); ("assists", PyInt 9) ] ]) ]%string.

Definition doncic_assignments : list (pyval * dict) :=
  Eval vm_compute in
    match extract_hot_players [doncic_live_game] with
    | Ok assignments => assignments
    | Raise _ => []
    end.

Definition doncic_live_board : list RankedPlayer.t :=
  Eval vm_compute in
    match build_draft_board (two_player_provider (PyFloat (lit 305 1)))
            "nba" "points" [] [] (Some (hot_table doncic_assignments)) with
    | Ok ranked => ranked
    | Raise _ => []
    end.

(** A raw hitting record whose average is the JSON null, and a provider
    that answers with the record built from it. *)
Definition null_avg_raw : pyval :=
  PyDict [ ("gamesPlayed", PyInt 150); ("avg", PyNone); ("homeRuns", PyInt 52) ]%string.

Definition null_avg_record : dict :=
  Eval vm_compute in
    match mlb_stats_record judge_player (PyInt 592450) null_avg_raw "Aaron Judge" "hitting" with
    | Ok record => record
    | Raise _ => ∅
    end.

Definition null_avg_provider : providers :=
  {| get_nba_player_season_stats := fun _ => ∅;
     get_nba_player_game_log := fun _ => [];
     get_mlb_player_stats := fun player_name stat_group =>
       if String.eqb player_name "Aaron Judge" && String.eqb stat_group "hitting"
       then null_avg_record else ∅;
     get_mlb_spring_training_stats := fun _ => ∅ |}.

(** * Properties *)

(** ** Checks of the arithmetic and of the builtins

    The operations of [F64] agree with the machine's binary64
    operations, and the models of [float], [round] and the format
    specifiers give the values CPython gives. *)

Example fadd_agrees_with_hardware :
  FloatOps.Prim2SF
    (PrimFloat.add (FloatOps.SF2Prim (lit 1 1)) (FloatOps.SF2Prim (lit 2 1)))
  = fadd (lit 1 1) (lit 2 1).
Proof. vm_compute. reflexivity. Qed.

Example fmul_agrees_with_hardware :
  FloatOps.Prim2SF
    (PrimFloat.mul (FloatOps.SF2Prim (lit 70 1)) (FloatOps.SF2Prim (lit 12 1)))
  = fmul (lit 70 1) (lit 12 1).
Proof. vm_compute. reflexivity. Qed.

Example fdiv_agrees_with_hardware :
  FloatOps.Prim2SF
    (PrimFloat.div (FloatOps.SF2Prim (float_of_Z 76)) (FloatOps.SF2Prim (float_of_Z 3)))
  = fdiv (float_of_Z 76) (float_of_Z 3).
Proof. vm_compute. reflexivity. Qed.

Example fsub_agrees_with_hardware :
  FloatOps.Prim2SF
    (PrimFloat.sub (FloatOps.SF2Prim (lit 300 3)) (FloatOps.SF2Prim (lit 270 3)))
  = fsub (lit 300 3) (lit 270 3).
Proof. vm_compute. reflexivity. Qed.

(** [0.1 + 0.2 == 0.30000000000000004] *)
Example fadd_tenths : fadd (lit 1 1) (lit 2 1) = lit 30000000000000004 17.
Proof. vm_compute. reflexivity. Qed.

(** [round(0.25, 1) == 0.2], [round(0.35, 1) == 0.3], [round(-0.04, 1)]
    is [-0.0], and NaN rounds to itself. *)
Example py_round_tie_to_even : py_round (lit 25 2) 1 = lit 2 1.
Proof. vm_compute. reflexivity. Qed.

Example py_round_below_tie : py_round (lit 35 2) 1 = lit 3 1.
Proof. vm_compute. reflexivity. Qed.

Example py_round_negative_zero : py_round (lit (-4) 2) 1 = S754_zero true.
Proof. vm_compute. reflexivity. Qed.

Example py_round_nan : py_round S754_nan 1 = S754_nan.
Proof. reflexivity. Qed.

(** [f"{2.5:.0f}" == "2"] and [f"{26.6666:.1f}" == "26.7"]. *)
Example format_f_tie_to_even : format_f (lit 25 1) 0 = "2"%string.
Proof. vm_compute. reflexivity. Qed.

Example format_f_one_place : format_f (lit 266666 4) 1 = "26.7"%string.
Proof. vm_compute. reflexivity. Qed.

(** [float(" 1_000.5e-1 ") == 100.05]; [float("-.--")] and [float("N/A")]
    raise ValueError; [float("nan")] is NaN. *)
Example parse_float_decimal : parse_float " 1_000.5e-1 " = Some (lit 10005 2).
Proof. vm_compute. reflexivity. Qed.

Example parse_float_dashes : parse_float "-.--" = None.
Proof. vm_compute. reflexivity. Qed.

Example parse_float_not_available : parse_float "N/A" = None.
Proof. vm_compute. reflexivity. Qed.

Example parse_float_nan : parse_float "nan" = Some S754_nan.
Proof. vm_compute. reflexivity. Qed.

(** [float(2**53 + 1) == 2.0**53]; [float(10**400)] raises
    OverflowError; [float(None)] raises TypeError. *)
Example py_float_int_rounds : py_float (PyInt (2 ^ 53 + 1)) = Ok (float_of_Z (2 ^ 53)).
Proof. vm_compute. reflexivity. Qed.

Example py_float_int_overflow : py_float (PyInt (10 ^ 400)) = Raise OverflowError.
Proof. vm_compute. reflexivity. Qed.

Example py_float_none : py_float PyNone = Raise TypeError.
Proof. reflexivity. Qed.

(** [sorted([1.0, nan, 2.0], reverse=True)] is [[1.0, nan, 2.0]] and
    [sorted([2.0, 3.0, 1.0], reverse=True)] is [[3.0, 2.0, 1.0]]. *)
Example sort_desc_with_nan :
  sort_desc id [lit 10 1; S754_nan; lit 20 1] = [lit 10 1; S754_nan; lit 20 1].
Proof. vm_compute. reflexivity. Qed.

Example sort_desc_three :
  sort_desc id [lit 20 1; lit 30 1; lit 10 1] = [lit 30 1; lit 20 1; lit 10 1].
Proof. vm_compute. reflexivity. Qed.

(** ** The order on floats *)

Section FloatOrder.

Lemma SFcompare_lex x y :
  is_nan x = false -> is_nan y = false ->
  SFcompare x y = Some (lex_compare (ord_key x) (ord_key y)).
Proof.
  destruct x as [sx|sx| |sx mx ex], y as [sy|sy| |sy my ey];
    try discriminate; intros _ _; unfold lex_compare; simpl;
    try (destruct sx; reflexivity); try (destruct sy; reflexivity);
    try (destruct sx, sy; reflexivity).
  destruct sx, sy; simpl; try reflexivity.
  rewrite Z.compare_opp, (Z.compare_antisym ex ey).
  destruct (ex ?= ey); reflexivity.
Qed.

Lemma lex_compare_antisym a b : lex_compare b a = CompOpp (lex_compare a b).
Proof.
  unfold lex_compare.
  rewrite (Z.compare_antisym a.1.1 b.1.1), (Z.compare_antisym a.1.2 b.1.2),
    (Z.compare_antisym a.2 b.2).
  destruct (a.1.1 ?= b.1.1), (a.1.2 ?= b.1.2), (a.2 ?= b.2); reflexivity.
Qed.

Lemma lex_compare_le_trans a b c :
  lex_compare a b <> Gt -> lex_compare b c <> Gt -> lex_compare a c <> Gt.
Proof.
  unfold lex_compare.
  destruct (Z.compare_spec a.1.1 b.1.1), (Z.compare_spec b.1.1 c.1.1),
    (Z.compare_spec a.1.1 c.1.1); try lia; try congruence;
  destruct (Z.compare_spec a.1.2 b.1.2), (Z.compare_spec b.1.2 c.1.2),
    (Z.compare_spec a.1.2 c.1.2); try lia; try congruence;
  destruct (Z.compare_spec a.2 b.2), (Z.compare_spec b.2 c.2),
    (Z.compare_spec a.2 c.2); try lia; congruence.
Qed.

Lemma fleb_lex x y :
  is_nan x = false -> is_nan y = false ->
  fleb x y = true <-> lex_compare (ord_key x) (ord_key y) <> Gt.
Proof.
  intros Hx Hy. unfold fleb, SFleb. rewrite (SFcompare_lex x y Hx Hy).
  destruct (lex_compare (ord_key x) (ord_key y)); split; congruence.
Qed.

Lemma fltb_lex x y :
  is_nan x = false -> is_nan y = false ->
  fltb x y = true <-> lex_compare (ord_key x) (ord_key y) = Lt.
Proof.
  intros Hx Hy. unfold fltb, SFltb. rewrite (SFcompare_lex x y Hx Hy).
  destruct (lex_compare (ord_key x) (ord_key y)); split; congruence.
Qed.

(** Without NaN, [not (x < y)] is [y <= x]. *)
Lemma fltb_false_fleb x y :
  is_nan x = false -> is_nan y = false -> fltb x y = false -> fleb y x = true.
Proof.
  intros Hx Hy H. apply fleb_lex; auto.
  rewrite lex_compare_antisym.
  destruct (lex_compare (ord_key x) (ord_key y)) eqn:E; simpl; try congruence.
  apply fltb_lex in E; auto. congruence.
Qed.

Lemma fleb_trans x y z :
  is_nan x = false -> is_nan y = false -> is_nan z = false ->
  fleb x y = true -> fleb y z = true -> fleb x z = true.
Proof.
  intros Hx Hy Hz Hxy Hyz.
  apply fleb_lex in Hxy; auto. apply fleb_lex in Hyz; auto.
  apply fleb_lex; auto. eapply lex_compare_le_trans; eauto.
Qed.

Lemma fleb_refl x : is_nan x = false -> fleb x x = true.
Proof.
  intros Hx. apply fleb_lex; auto. unfold lex_compare.
  rewrite !Z.compare_refl. discriminate.
Qed.

Lemma fltb_fleb x y : fltb x y = true -> fleb x y = true.
Proof.
  unfold fltb, fleb, SFltb, SFleb. destruct (SFcompare x y) as [[]|]; congruence.
Qed.

(** Floats that compare equal are not ordered by [<], whatever they are. *)
Lemma feqb_not_fltb x y : feqb x y = true -> fltb y x = false.
Proof.
  unfold feqb, SFeqb, fltb, SFltb. intros H.
  destruct (is_nan x) eqn:Hx; [destruct x; discriminate|].
  destruct (is_nan y) eqn:Hy; [destruct x, y; discriminate|].
  rewrite (SFcompare_lex x y Hx Hy) in H.
  rewrite (SFcompare_lex y x Hy Hx), lex_compare_antisym.
  destruct (lex_compare (ord_key x) (ord_key y)); simpl; congruence.
Qed.

(** Subtracting the float [0.0] changes nothing. *)
Lemma fsub_zero x : fsub x zero = x.
Proof. destruct x as [[]|[]| |[] m e]; reflexivity. Qed.

End FloatOrder.

(** ** Stable descending sort *)

Section Sorting.

Context {A : Type} (key : A -> float64).

Lemma precedes_lookup (a b : A) l :
  precedes a b l <->
  exists i j, (i < j)%nat /\ l !! i = Some a /\ l !! j = Some b.
Proof.
  split.
  - induction 1 as [l Hb | x l _ (i & j & Hij & Hi & Hj)].
    + apply list_elem_of_lookup in Hb as [j Hj].
      exists 0%nat, (S j). repeat split; [lia | assumption].
    + exists (S i), (S j). repeat split; [lia | assumption | assumption].
  - intros (i & j & Hij & Hi & Hj). revert i j Hij Hi Hj.
    induction l as [|x l IH]; intros i j Hij Hi Hj; [discriminate|].
    destruct j as [|j]; [lia|]. destruct i as [|i].
    + injection Hi as ->. constructor. eapply list_elem_of_lookup_2. exact Hj.
    + apply precedes_later. apply (IH i j); [lia | assumption | assumption].
Qed.

Lemma precedes_cons_inv (a b x : A) l :
  precedes a b (x :: l) -> (a = x /\ b ∈ l) \/ precedes a b l.
Proof. inversion 1; subst; auto. Qed.

Lemma precedes_sublist (a b : A) l1 l2 :
  sublist l1 l2 -> precedes a b l1 -> precedes a b l2.
Proof.
  induction 1 as [|x l1 l2 Hs IH|x l1 l2 Hs IH]; intros Hp.
  - assumption.
  - apply precedes_cons_inv in Hp as [[-> Hb]|Hp].
    + constructor. eapply elem_of_sublist; eauto.
    + apply precedes_later; auto.
  - apply precedes_later; auto.
Qed.

Lemma insert_desc_perm x l : Permutation (insert_desc key x l) (x :: l).
Proof.
  induction l as [|y l IH]; simpl; [reflexivity|].
  destruct (fltb (key x) (key y)); [|reflexivity].
  rewrite IH. apply perm_swap.
Qed.

Lemma sort_desc_cons x l :
  sort_desc key (x :: l) = insert_desc key x (sort_desc key l).
Proof. reflexivity. Qed.

Lemma sort_desc_perm l : Permutation (sort_desc key l) l.
Proof.
  induction l as [|x l IH]; [reflexivity|].
  rewrite sort_desc_cons, insert_desc_perm. constructor. exact IH.
Qed.

Lemma sort_desc_elem_of a l : a ∈ sort_desc key l <-> a ∈ l.
Proof. rewrite (sort_desc_perm l). reflexivity. Qed.

Lemma sort_desc_length l : length (sort_desc key l) = length l.
Proof. apply Permutation_length, sort_desc_perm. Qed.

(** Where an entry lands: everything it passes has a greater key. *)
Lemma insert_desc_precedes x l a b :
  precedes a b (insert_desc key x l) ->
  (a = x /\ b ∈ l) \/ (b = x /\ fltb (key x) (key a) = true) \/ precedes a b l.
Proof.
  induction l as [|y l IH]; simpl.
  - intros H. apply precedes_cons_inv in H as [[_ Hb]|H].
    + apply elem_of_nil in Hb as [].
    + inversion H.
  - destruct (fltb (key x) (key y)) eqn:E.
    + intros H. apply precedes_cons_inv in H as [[-> Hb]|H].
      * rewrite (insert_desc_perm x l) in Hb.
        apply elem_of_cons in Hb as [->|Hb]; [auto|].
        right; right. constructor. exact Hb.
      * apply IH in H as [[-> Hb]|[[-> Hlt]|H]].
        -- left. split; [reflexivity|]. apply list_elem_of_further, Hb.
        -- auto.
        -- right; right. apply precedes_later, H.
    + intros H. apply precedes_cons_inv in H as [[-> Hb]|H]; auto.
Qed.

(** Stability: an entry stands before another in the sorted list only
    if it did so before sorting or its key is greater. *)
Lemma sort_desc_stable l a b :
  precedes a b (sort_desc key l) ->
  fltb (key b) (key a) = true \/ precedes a b l.
Proof.
  revert a b. induction l as [|x l IH]; intros a b H.
  - inversion H.
  - rewrite sort_desc_cons in H.
    apply insert_desc_precedes in H as [[-> Hb]|[[-> Hlt]|H]].
    + right. constructor. rewrite sort_desc_elem_of in Hb. exact Hb.
    + auto.
    + apply IH in H as [H|H]; [auto|]. right. apply precedes_later, H.
Qed.

Lemma insert_desc_descending x l :
  is_nan (key x) = false -> Forall (fun y => is_nan (key y) = false) l ->
  descending key l -> descending key (insert_desc key x l).
Proof.
  intros Hx Hl Hd a b H.
  assert (Hin : forall c, c ∈ l -> is_nan (key c) = false).
  { intros c Hc. rewrite Forall_forall in Hl. apply Hl, Hc. }
  revert a b H. induction l as [|y l IH]; simpl; intros a b H.
  - apply precedes_cons_inv in H as [[_ Hb]|H]; [|inversion H].
    apply elem_of_nil in Hb as [].
  - assert (Hy : is_nan (key y) = false) by (apply Hin; constructor).
    destruct (fltb (key x) (key y)) eqn:E.
    + apply precedes_cons_inv in H as [[-> Hb]|H].
      * rewrite (insert_desc_perm x l) in Hb.
        apply elem_of_cons in Hb as [->|Hb]; [apply fltb_fleb, E|].
        apply Hd. constructor. exact Hb.
      * apply IH; auto.
        -- inversion Hl; assumption.
        -- intros c d Hcd. apply Hd. apply precedes_later, Hcd.
        -- intros c Hc. apply Hin. apply list_elem_of_further, Hc.
    + apply precedes_cons_inv in H as [[-> Hb]|H]; [|apply Hd, H].
      apply elem_of_cons in Hb as [->|Hb].
      * apply fltb_false_fleb; auto.
      * apply (fleb_trans _ (key y)); auto.
        -- apply Hin. apply list_elem_of_further, Hb.
        -- apply Hd. constructor. exact Hb.
        -- apply fltb_false_fleb; auto.
Qed.

Lemma sort_desc_descending l :
  Forall (fun y => is_nan (key y) = false) l -> descending key (sort_desc key l).
Proof.
  induction 1 as [|x l Hx Hl IH].
  - intros a b H. inversion H.
  - rewrite sort_desc_cons. apply insert_desc_descending; auto.
    rewrite Forall_forall in *. intros y Hy. apply Hl.
    rewrite sort_desc_elem_of in Hy. exact Hy.
Qed.

(** The last entry of a descending list is a least one. *)
Lemma descending_last l d a :
  l <> [] -> descending key l -> is_nan (key (List.last l d)) = false ->
  a ∈ l -> fleb (key (List.last l d)) (key a) = true.
Proof.
  intros Hne Hd Hnan Ha. induction l as [|x l IH]; [congruence|].
  destruct l as [|y l].
  - apply list_elem_of_singleton in Ha as ->. simpl. apply fleb_refl, Hnan.
  - change (List.last (x :: y :: l) d) with (List.last (y :: l) d) in *.
    apply elem_of_cons in Ha as [->|Ha].
    + apply Hd. constructor.
      clear. generalize y. induction l as [|z l IH]; intros y'; simpl.
      * constructor.
      * apply list_elem_of_further. apply IH.
    + apply IH; [discriminate | | exact Hnan | exact Ha].
      intros c e Hce. apply Hd. apply precedes_later, Hce.
Qed.

End Sorting.

Lemma precedes_fmap {A B} (f : A -> B) (a b : A) l :
  precedes a b l -> precedes (f a) (f b) (f <$> l).
Proof.
  induction 1 as [l Hb | x l _ IH]; simpl.
  - constructor. apply list_elem_of_fmap_2, Hb.
  - apply precedes_later, IH.
Qed.

(** ** Replacement baseline *)

Lemma last_elem_of {A} (l : list A) d : l <> [] -> List.last l d ∈ l.
Proof.
  induction l as [|x [|y l] IH]; intros H; [congruence | constructor |].
  apply list_elem_of_further. apply IH. discriminate.
Qed.

(** C2 (amended). For a list of observed values without NaN, the
    descending-sorted list is a rearrangement of the values in
    non-increasing order, and the baseline is: with at least 12 values,
    the sum of the entries at indices 7 to 11 of the sorted list (the 8th-
    to 12th-highest values) divided by 5; with 3 to 11 values, an observed
    value that no observed value is below; with fewer than 3 values,
    zero. *)
Theorem replacement_baseline_spec (values : list float64) :
  Forall (fun v => is_nan v = false) values ->
  Permutation (sort_desc id values) values /\
  descending id (sort_desc id values) /\
  ((12 <= length values)%nat ->
   exists v8 v9 v10 v11 v12,
     sort_desc id values !! 7%nat = Some v8 /\
     sort_desc id values !! 8%nat = Some v9 /\
     sort_desc id values !! 9%nat = Some v10 /\
     sort_desc id values !! 10%nat = Some v11 /\
     sort_desc id values !! 11%nat = Some v12 /\
     replacement_baseline values
     = fdiv (py_sum [v8; v9; v10; v11; v12]) (float_of_Z 5)) /\
  ((3 <= length values < 12)%nat ->
   replacement_baseline values ∈ values /\
   forall v, v ∈ values -> fleb (replacement_baseline values) v = true) /\
  ((length values < 3)%nat -> replacement_baseline values = zero).
Proof.
  intros Hnan.
  pose proof (sort_desc_perm id values) as Hperm.
  pose proof (sort_desc_descending id values Hnan) as Hdesc.
  pose proof (sort_desc_length id values) as Hlen.
  repeat split; try assumption; unfold replacement_baseline.
  - intros H12. rewrite Hlen.
    destruct (Nat.leb_spec 12 (length values)) as [_|]; [|lia].
    destruct (sort_desc id values)
      as [|a1 [|a2 [|a3 [|a4 [|a5 [|a6 [|a7 [|a8 [|a9 [|a10 [|a11 [|a12 s]]]]]]]]]]]];
      simpl in Hlen; try lia.
    exists a8, a9, a10, a11, a12. repeat split; reflexivity.
  - rewrite Hlen.
    destruct (Nat.leb_spec 12 (length values)); [lia|].
    destruct (Nat.leb_spec 3 (length values)); [|lia].
    apply (proj1 (sort_desc_elem_of id _ values)), last_elem_of.
    destruct (sort_desc id values); [simpl in Hlen; lia | discriminate].
  - intros v Hv. rewrite Hlen.
    destruct (Nat.leb_spec 12 (length values)); [lia|].
    destruct (Nat.leb_spec 3 (length values)); [|lia].
    assert (Hne : sort_desc id values <> []).
    { destruct (sort_desc id values); [simpl in Hlen; lia | discriminate]. }
    apply (descending_last id (sort_desc id values) zero v Hne Hdesc).
    + rewrite Forall_forall in Hnan. apply Hnan.
      apply (proj1 (sort_desc_elem_of id _ values)), last_elem_of, Hne.
    + apply sort_desc_elem_of, Hv.
  - intros H3. rewrite Hlen.
    destruct (Nat.leb_spec 12 (length values)); [lia|].
    destruct (Nat.leb_spec 3 (length values)); [lia|]. reflexivity.
Qed.

(** The amended C2 at three observed values: the baseline is the least
    of them. *)
Lemma replacement_baseline_spec_witness :
  replacement_baseline [lit 300 1; lit 100 1; lit 200 1]
    ∈ [lit 300 1; lit 100 1; lit 200 1] /\
  forall v, v ∈ [lit 300 1; lit 100 1; lit 200 1] ->
            fleb (replacement_baseline [lit 300 1; lit 100 1; lit 200 1]) v = true.
Proof.
  apply (replacement_baseline_spec [lit 300 1; lit 100 1; lit 200 1]).
  - repeat constructor.
  - simpl. lia.
Defined.

(** C2 as stated fails on a list that holds a NaN: for the observed
    values [1.0, nan, 2.0] the sort leaves the list as it is and the
    baseline is [2.0], although [1.0] was observed and is smaller. *)
Lemma replacement_baseline_nan_counterexample :
  replacement_baseline [lit 10 1; S754_nan; lit 20 1] = lit 20 1 /\
  lit 10 1 ∈ [lit 10 1; S754_nan; lit 20 1] /\
  fltb (lit 10 1) (replacement_baseline [lit 10 1; S754_nan; lit 20 1]) = true.
Proof.
  split; [vm_compute; reflexivity|]. split; [constructor|].
  vm_compute. reflexivity.
Qed.

(** ** Scoring models *)

Lemma dict_is_empty_true (d : dict) : dict_is_empty d = true <-> d = ∅.
Proof.
  unfold dict_is_empty. rewrite bool_decide_eq_true. apply map_size_empty_iff.
Qed.

Lemma dict_nonempty (d : dict) k v : d !! k = Some v -> dict_is_empty d = false.
Proof.
  intros H. destruct (dict_is_empty d) eqn:E; [|reflexivity].
  apply dict_is_empty_true in E. subst d. rewrite lookup_empty in H. discriminate.
Qed.

Lemma safe_float_ok v x : py_float v = Ok x -> _safe_float v = Ok x.
Proof. unfold _safe_float. intros ->. reflexivity. Qed.

(** [float(v)] raises nothing but ValueError, TypeError and
    OverflowError, so [_safe_float] returns a float or raises
    OverflowError. *)
Lemma py_float_cases v :
  (exists x, py_float v = Ok x) \/ py_float v = Raise ValueError
  \/ py_float v = Raise TypeError \/ py_float v = Raise OverflowError.
Proof.
  destruct v as [|b|z|f|s|l|d]; simpl; eauto.
  - destruct (is_inf (float_of_Z z)); eauto.
  - destruct (parse_float s); eauto.
Qed.

Lemma safe_float_cases v :
  (exists x, _safe_float v = Ok x) \/ _safe_float v = Raise OverflowError.
Proof.
  unfold _safe_float.
  destruct (py_float_cases v) as [[x ->] | [-> | [-> | ->]]]; simpl; eauto.
Qed.

Lemma add_weighted_ok (stats : dict) total k w x :
  _safe_float (default (PyInt 0) (stats !! k)) = Ok x ->
  add_weighted stats total k w = Ok (fadd total (fmul x w)).
Proof. unfold add_weighted. intros ->. reflexivity. Qed.

(** C6. For a stat record in which each of the seven weighted fields is
    present and a valid number ([float] accepts it), the points value is
    the weighted sum pts*1.0 + reb*1.2 + ast*1.5 + stl*3.0 + blk*3.0 +
    fg3m*0.5 + tov*(-1.0), added up in this order from 0.0 and rounded to
    one decimal; the record pts=25, reb=7, ast=8, stl=1.5, blk=0.5,
    fg3m=2, tov=3 has the value 49.4. *)
Theorem compute_nba_points_value_weighted_sum :
  (forall (stats : dict) vpts vreb vast vstl vblk vfg3m vtov
          pts reb ast stl blk fg3m tov,
      stats !! "pts"%string = Some vpts -> py_float vpts = Ok pts ->
      stats !! "reb"%string = Some vreb -> py_float vreb = Ok reb ->
      stats !! "ast"%string = Some vast -> py_float vast = Ok ast ->
      stats !! "stl"%string = Some vstl -> py_float vstl = Ok stl ->
      stats !! "blk"%string = Some vblk -> py_float vblk = Ok blk ->
      stats !! "fg3m"%string = Some vfg3m -> py_float vfg3m = Ok fg3m ->
      stats !! "tov"%string = Some vtov -> py_float vtov = Ok tov ->
      compute_nba_points_value stats
      = Ok (py_round
              (fadd (fadd (fadd (fadd (fadd (fadd (fadd zero
                 (fmul pts (lit 10 1))) (fmul reb (lit 12 1)))
                 (fmul ast (lit 15 1))) (fmul stl (lit 30 1)))
                 (fmul blk (lit 30 1))) (fmul fg3m (lit 5 1)))
                 (fmul tov (lit (-10) 1))) 1))
  /\ compute_nba_points_value nba_example = Ok (lit 494 1).
Proof.
  split; [|vm_compute; reflexivity].
  intros stats vpts vreb vast vstl vblk vfg3m vtov pts reb ast stl blk fg3m tov
    Hpts Fpts Hreb Freb Hast Fast Hstl Fstl Hblk Fblk Hfg3m Ffg3m Htov Ftov.
  unfold compute_nba_points_value. rewrite (dict_nonempty _ _ _ Hpts).
  unfold NBA_POINTS_WEIGHTS, weighted_sum.
  rewrite (add_weighted_ok _ _ _ _ pts) by (rewrite Hpts; apply safe_float_ok, Fpts).
  cbn [mbind result_bind].
  rewrite (add_weighted_ok _ _ _ _ reb) by (rewrite Hreb; apply safe_float_ok, Freb).
  cbn [mbind result_bind].
  rewrite (add_weighted_ok _ _ _ _ ast) by (rewrite Hast; apply safe_float_ok, Fast).
  cbn [mbind result_bind].
  rewrite (add_weighted_ok _ _ _ _ stl) by (rewrite Hstl; apply safe_float_ok, Fstl).
  cbn [mbind result_bind].
  rewrite (add_weighted_ok _ _ _ _ blk) by (rewrite Hblk; apply safe_float_ok, Fblk).
  cbn [mbind result_bind].
  rewrite (add_weighted_ok _ _ _ _ fg3m) by (rewrite Hfg3m; apply safe_float_ok, Ffg3m).
  cbn [mbind result_bind].
  rewrite (add_weighted_ok _ _ _ _ tov) by (rewrite Htov; apply safe_float_ok, Ftov).
  reflexivity.
Qed.

(** The general part of C6 at the spec's example record. *)
Lemma compute_nba_points_value_weighted_sum_witness :
  compute_nba_points_value nba_example
  = Ok (py_round
          (fadd (fadd (fadd (fadd (fadd (fadd (fadd zero
             (fmul (lit 250 1) (lit 10 1))) (fmul (lit 70 1) (lit 12 1)))
             (fmul (lit 80 1) (lit 15 1))) (fmul (lit 15 1) (lit 30 1)))
             (fmul (lit 5 1) (lit 30 1))) (fmul (lit 20 1) (lit 5 1)))
             (fmul (lit 30 1) (lit (-10) 1))) 1).
Proof.
  apply (proj1 compute_nba_points_value_weighted_sum nba_example
           (PyFloat (lit 250 1)) (PyFloat (lit 70 1)) (PyFloat (lit 80 1))
           (PyFloat (lit 15 1)) (PyFloat (lit 5 1)) (PyFloat (lit 20 1))
           (PyFloat (lit 30 1)));
    vm_compute; reflexivity.
Defined.

(** Multiplying by the negated weight and adding is subtracting the
    product with the weight, bit for bit. *)
Lemma binary_round_aux_opp s m e l :
  binary_round_aux prec emax (negb s) m e l
  = SFopp (binary_round_aux prec emax s m e l).
Proof.
  unfold binary_round_aux.
  destruct (shr_fexp prec emax m e l) as [mrs' e'].
  destruct (shr_fexp prec emax _ e' loc_Exact) as [mrs'' e''].
  destruct (shr_m mrs''); try reflexivity.
  destruct (e'' <=? emax - prec); reflexivity.
Qed.

Lemma fmul_opp_r x c : fmul x (SFopp c) = SFopp (fmul x c).
Proof.
  destruct x as [sx|sx| |sx mx ex], c as [sc|sc| |sc mc ec]; simpl;
    try reflexivity; try (destruct sx, sc; reflexivity).
  unfold fmul; simpl. rewrite <- binary_round_aux_opp.
  destruct sx, sc; reflexivity.
Qed.

Lemma fadd_opp_r x y : fadd x (SFopp y) = fsub x y.
Proof.
  destruct x as [sx|sx| |sx mx ex], y as [sy|sy| |sy my ey]; simpl;
    try reflexivity; destruct sx, sy; reflexivity.
Qed.

Lemma fadd_neg_weight total x (w nw : float64) :
  nw = SFopp w -> fadd total (fmul x nw) = fsub total (fmul x w).
Proof. intros ->. rewrite fmul_opp_r. apply fadd_opp_r. Qed.

(** C5. For a non-empty pitcher record whose fields have float values
    (wins, so, saves as [_safe_float] reads them; era and whip as
    [float] reads them, or 3.50 and 1.20 where [float] raises ValueError
    or TypeError), the value is the spec's pitching formula. A str that
    [float] rejects is read as the default, at which no penalty applies.
    The two examples of the spec have the values 190.0 and 75.0. *)
Theorem compute_mlb_pitching_value_spec :
  (forall (stats : dict) wins so saves era whip,
      dict_is_empty stats = false ->
      _safe_float (default (PyInt 0) (stats !! "wins"%string)) = Ok wins ->
      _safe_float (default (PyInt 0) (stats !! "so"%string)) = Ok so ->
      _safe_float (default (PyInt 0) (stats !! "saves"%string)) = Ok saves ->
      float_or (default (PyStr "3.50") (stats !! "era"%string)) (lit 350 2) = Ok era ->
      float_or (default (PyStr "1.20") (stats !! "whip"%string)) (lit 120 2) = Ok whip ->
      compute_mlb_pitching_value stats
      = Ok (pitching_value_spec wins so saves era whip))
  /\ (forall s d, py_float (PyStr s) = Raise ValueError -> float_or (PyStr s) d = Ok d)
  /\ (forall wins so saves,
        pitching_value_spec wins so saves (lit 350 2) (lit 120 2)
        = py_round
            (fadd (fadd (fadd zero (fmul wins (lit 50 1))) (fmul so (lit 10 1)))
               (fmul saves (lit 50 1))) 1)
  /\ compute_mlb_pitching_value pitching_example = Ok (lit 1900 1)
  /\ compute_mlb_pitching_value pitching_malformed_example = Ok (lit 750 1).
Proof.
  split; [|split; [|split; [|split]]].
  - intros stats wins so saves era whip Hne Hw Hs Hv He Hwh.
    unfold compute_mlb_pitching_value. rewrite Hne.
    rewrite (add_weighted_ok _ _ _ _ wins Hw). cbn [mbind result_bind].
    rewrite (add_weighted_ok _ _ _ _ so Hs). cbn [mbind result_bind].
    rewrite (add_weighted_ok _ _ _ _ saves Hv). cbn [mbind result_bind].
    rewrite He. cbn [mbind result_bind]. rewrite Hwh. cbn [mbind result_bind].
    unfold pitching_value_spec. cbn [weight MLB_PITCHING_WEIGHTS String.eqb Ascii.eqb Bool.eqb].
    rewrite !(fadd_neg_weight _ _ (lit 20 1) (lit (-20) 1)) by (vm_compute; reflexivity).
    rewrite !(fadd_neg_weight _ _ (lit 30 1) (lit (-30) 1)) by (vm_compute; reflexivity).
    reflexivity.
  - intros s d H. unfold float_or. rewrite H. reflexivity.
  - intros wins so saves. unfold pitching_value_spec.
    replace (fltb (lit 350 2) (lit 350 2)) with false by (vm_compute; reflexivity).
    replace (fltb (lit 120 2) (lit 120 2)) with false by (vm_compute; reflexivity).
    reflexivity.
  - vm_compute. reflexivity.
  - vm_compute. reflexivity.
Qed.

(** The general part of C5 at the spec's example with penalties. *)
Lemma compute_mlb_pitching_value_spec_witness :
  compute_mlb_pitching_value pitching_example
  = Ok (pitching_value_spec (float_of_Z 10) (float_of_Z 150) zero
          (lit 450 2) (lit 140 2)).
Proof.
  apply (proj1 compute_mlb_pitching_value_spec pitching_example);
    vm_compute; reflexivity.
Defined.

(** What the hitting model does where the average is a str or absent:
    the spec's formula, with .250 for a str that [float] rejects; the
    leading dot of [".300"] is tolerated; the spec's example is 540.0. *)
Lemma compute_mlb_hitting_value_spec :
  (forall (stats : dict) runs hr rbi sb avg,
      dict_is_empty stats = false ->
      _safe_float (default (PyInt 0) (stats !! "runs"%string)) = Ok runs ->
      _safe_float (default (PyInt 0) (stats !! "hr"%string)) = Ok hr ->
      _safe_float (default (PyInt 0) (stats !! "rbi"%string)) = Ok rbi ->
      _safe_float (default (PyInt 0) (stats !! "sb"%string)) = Ok sb ->
      parse_avg (default (PyStr ".250") (stats !! "avg"%string)) "250" (lit 250 3)
      = Ok avg ->
      compute_mlb_hitting_value stats = Ok (hitting_value_spec runs hr rbi sb avg))
  /\ (forall s,
        parse_avg (PyStr s) "250" (lit 250 3)
        = Ok (match parse_float (str_or (lstrip "." s) "250") with
              | Some f => fdiv f (float_of_Z 1000)
              | None => lit 250 3
              end))
  /\ parse_avg (PyStr ".300") "250" (lit 250 3) = Ok (lit 300 3)
  /\ compute_mlb_hitting_value hitting_example = Ok (lit 5400 1).
Proof.
  split; [|split; [|split]].
  - intros stats runs hr rbi sb avg Hne Hr Hh Hb Hs Ha.
    unfold compute_mlb_hitting_value. rewrite Hne.
    cbn [map weighted_sum].
    rewrite (add_weighted_ok _ _ _ _ runs Hr). cbn [mbind result_bind].
    rewrite (add_weighted_ok _ _ _ _ hr Hh). cbn [mbind result_bind].
    rewrite (add_weighted_ok _ _ _ _ rbi Hb). cbn [mbind result_bind].
    rewrite (add_weighted_ok _ _ _ _ sb Hs). cbn [mbind result_bind].
    rewrite Ha. reflexivity.
  - intros s. unfold parse_avg. cbn [py_lstrip mbind result_bind py_float].
    destruct (parse_float (str_or (lstrip "." s) "250")); reflexivity.
  - vm_compute. reflexivity.
  - vm_compute. reflexivity.
Qed.

(** The general part at the spec's hitting example. *)
Lemma compute_mlb_hitting_value_spec_witness :
  compute_mlb_hitting_value hitting_example
  = Ok (hitting_value_spec (float_of_Z 100) (float_of_Z 40) (float_of_Z 110)
          (float_of_Z 10) (lit 300 3)).
Proof.
  apply (proj1 compute_mlb_hitting_value_spec hitting_example);
    vm_compute; reflexivity.
Defined.

(** The three scoring functions return 0.0 on an empty record. *)
Theorem scoring_empty_record :
  compute_nba_points_value ∅ = Ok zero
  /\ compute_mlb_hitting_value ∅ = Ok zero
  /\ compute_mlb_pitching_value ∅ = Ok zero.
Proof. repeat split. Qed.

(** C4, where the code departs from it: an average that is not a str
    (here the JSON [null]) does not default to .250; [lstrip] raises
    AttributeError, which the [except] clause does not catch. *)
Theorem compute_mlb_hitting_value_null_avg_raises :
  compute_mlb_hitting_value hitting_null_avg_example = Raise AttributeError.
Proof. vm_compute. reflexivity. Qed.

(** The same for every record: whatever the average is, if it is
    present and not a str the valuation raises AttributeError (or
    OverflowError from a counting stat before it). *)
Lemma compute_mlb_hitting_value_non_str_avg (stats : dict) v :
  stats !! "avg"%string = Some v ->
  (forall s, v <> PyStr s) ->
  compute_mlb_hitting_value stats = Raise AttributeError
  \/ compute_mlb_hitting_value stats = Raise OverflowError.
Proof.
  intros Hv Hns. unfold compute_mlb_hitting_value.
  rewrite (dict_nonempty _ _ _ Hv). cbn [map weighted_sum]. unfold add_weighted.
  destruct (safe_float_cases (default (PyInt 0) (stats !! "runs"%string)))
    as [[x1 ->]| ->]; cbn [mbind result_bind]; [|auto].
  destruct (safe_float_cases (default (PyInt 0) (stats !! "hr"%string)))
    as [[x2 ->]| ->]; cbn [mbind result_bind]; [|auto].
  destruct (safe_float_cases (default (PyInt 0) (stats !! "rbi"%string)))
    as [[x3 ->]| ->]; cbn [mbind result_bind]; [|auto].
  destruct (safe_float_cases (default (PyInt 0) (stats !! "sb"%string)))
    as [[x4 ->]| ->]; cbn [mbind result_bind]; [|auto].
  rewrite Hv. cbn [default from_option]. left.
  destruct v; try reflexivity. exfalso. eapply Hns. reflexivity.
Qed.

(** ** Value over replacement *)

(** C9 (amended). For a position key absent from the replacement
    mapping the VOR is the player's value rounded to one decimal (the
    baseline used is 0); it is the value itself exactly when rounding to
    one decimal leaves the value as it is. *)
Theorem compute_vor_unknown_position v (position : string)
  (replacement_values : gmap string float64) :
  replacement_values !! position = None ->
  compute_vor v position replacement_values = py_round v 1
  /\ (compute_vor v position replacement_values = v <-> py_round v 1 = v).
Proof.
  intros H. unfold compute_vor. rewrite H. cbn [default from_option].
  rewrite fsub_zero. split; [reflexivity|]. reflexivity.
Qed.

(** The amended C9 at the unknown position of the test suite. *)
Lemma compute_vor_unknown_position_witness :
  compute_vor (lit 450 1) "UTIL" {[ "PG"%string := lit 300 1 ]} = py_round (lit 450 1) 1
  /\ (compute_vor (lit 450 1) "UTIL" {[ "PG"%string := lit 300 1 ]} = lit 450 1
      <-> py_round (lit 450 1) 1 = lit 450 1).
Proof.
  apply (compute_vor_unknown_position (lit 450 1) "UTIL" {[ "PG"%string := lit 300 1 ]}).
  vm_compute. reflexivity.
Defined.

(** C9 as stated fails: the value 45.67 at a position absent from the
    mapping has the VOR 45.7, not 45.67. *)
Lemma compute_vor_unknown_position_counterexample :
  ({[ "PG"%string := lit 300 1 ]} : gmap string float64) !! "UTIL"%string = None
  /\ compute_vor (lit 4567 2) "UTIL" {[ "PG"%string := lit 300 1 ]} = lit 457 1
  /\ feqb (lit 457 1) (lit 4567 2) = false.
Proof. repeat split; vm_compute; reflexivity. Qed.

(** ** Sleeper classifier *)

Lemma trend_reason_nonempty t : trend_reason t <> ""%string.
Proof. cbv beta iota delta [trend_reason String.append]. intros H. discriminate H. Qed.

Lemma blocks_reason_nonempty b : blocks_reason b <> ""%string.
Proof. cbv beta iota delta [blocks_reason String.append]. intros H. discriminate H. Qed.

Lemma steals_reason_nonempty s : steals_reason s <> ""%string.
Proof. cbv beta iota delta [steals_reason String.append]. intros H. discriminate H. Qed.

Lemma spring_reason_nonempty stats : spring_reason stats <> ""%string.
Proof. cbv beta iota delta [spring_reason String.append]. intros H. discriminate H. Qed.

(** The four outcomes of the classifier. *)
Lemma identify_sleeper_outcomes stats trend fantasy_value position flag reason :
  identify_sleeper stats trend fantasy_value position = Ok (flag, reason) ->
  (flag = true /\
   (reason = trend_reason trend
    \/ (exists blk, reason = blocks_reason blk)
    \/ (exists stl, reason = steals_reason stl)
    \/ reason = spring_reason stats))
  \/ (flag = false /\ reason = ""%string).
Proof.
  unfold identify_sleeper.
  destruct (fleb (lit 150 1) trend && fltb (float_of_Z 20) fantasy_value);
    [intros [= <- <-]; naive_solver|].
  destruct (_safe_float (default (PyInt 0) (stats !! "blk"%string))) as [blk|];
    cbn [mbind result_bind]; [|intros H; discriminate H].
  destruct (_safe_float (default (PyInt 0) (stats !! "stl"%string))) as [stl|];
    cbn [mbind result_bind]; [|intros H; discriminate H].
  destruct (in_strs position ["C"; "PF"]%string && fleb (lit 20 1) blk
            && fleb (float_of_Z 5) trend); [intros [= <- <-]; naive_solver|].
  destruct (in_strs position ["PG"; "SG"]%string && fleb (lit 18 1) stl
            && fleb (float_of_Z 5) trend); [intros [= <- <-]; naive_solver|].
  destruct (eq_str (default PyNone (stats !! "type"%string)) "spring_training");
    [|intros [= <- <-]; naive_solver].
  destruct (parse_avg (default (PyStr ".000") (stats !! "avg"%string)) "0" zero)
    as [avg|]; cbn [mbind result_bind]; [|intros H; discriminate H].
  destruct (fleb (lit 350 3) avg); [|intros [= <- <-]; naive_solver].
  destruct (_safe_float (default (PyInt 0) (stats !! "games"%string))) as [games|];
    cbn [mbind result_bind]; [|intros H; discriminate H].
  destruct (fleb (float_of_Z 5) games); intros [= <- <-]; naive_solver.
Qed.

(** C10. Whenever the classifier returns, the flag is [True] exactly
    when the reason is not empty, and a [False] flag comes with the empty
    reason: the result that is not a sleeper is [(False, "")]. *)
Theorem identify_sleeper_flag_reason stats trend fantasy_value position flag reason :
  identify_sleeper stats trend fantasy_value position = Ok (flag, reason) ->
  (flag = true <-> reason <> ""%string)
  /\ (flag = false -> reason = ""%string).
Proof.
  intros H. apply identify_sleeper_outcomes in H as [[-> Hr] | [-> ->]].
  - split; [split; [intros _ | reflexivity] | intros H; discriminate H].
    destruct Hr as [-> | [[blk ->] | [[stl ->] | ->]]];
      auto using trend_reason_nonempty, blocks_reason_nonempty,
        steals_reason_nonempty, spring_reason_nonempty.
  - split; [split; [intros H; discriminate H | intros H; congruence] | reflexivity].
Qed.

(** C10 at a record that does not qualify. *)
Lemma identify_sleeper_flag_reason_witness :
  (false = true <-> ""%string <> ""%string)
  /\ (false = false -> ""%string = ""%string).
Proof.
  apply (identify_sleeper_flag_reason not_qualifying_example (lit 30 1)
           (float_of_Z 15) (PyStr "SF")).
  vm_compute. reflexivity.
Defined.

(** C8. The rules are tried in order and the first match wins: where
    the trend rule's condition holds, and with it the condition of the
    blocks rule or of the steals rule, the result is the trend reason,
    which is no blocks reason and no steals reason. *)
Theorem identify_sleeper_trend_rule_first (stats : dict) trend fantasy_value
  position blk stl :
  fleb (lit 150 1) trend = true ->
  fltb (float_of_Z 20) fantasy_value = true ->
  _safe_float (default (PyInt 0) (stats !! "blk"%string)) = Ok blk ->
  _safe_float (default (PyInt 0) (stats !! "stl"%string)) = Ok stl ->
  in_strs position ["C"; "PF"]%string && fleb (lit 20 1) blk
    && fleb (float_of_Z 5) trend = true
  \/ in_strs position ["PG"; "SG"]%string && fleb (lit 18 1) stl
    && fleb (float_of_Z 5) trend = true ->
  identify_sleeper stats trend fantasy_value position = Ok (true, trend_reason trend)
  /\ (forall b, trend_reason trend <> blocks_reason b)
  /\ (forall s, trend_reason trend <> steals_reason s).
Proof.
  intros Ht Hv _ _ _. unfold identify_sleeper. rewrite Ht, Hv.
  split; [reflexivity|].
  split; intros x;
    cbv beta iota delta [trend_reason blocks_reason steals_reason String.append];
    intros H; discriminate H.
Qed.

Lemma identify_sleeper_trend_rule_first_witness :
  identify_sleeper trending_center_example (lit 200 1) (float_of_Z 30) (PyStr "C")
  = Ok (true, trend_reason (lit 200 1))
  /\ (forall b, trend_reason (lit 200 1) <> blocks_reason b)
  /\ (forall s, trend_reason (lit 200 1) <> steals_reason s).
Proof.
  apply (identify_sleeper_trend_rule_first trending_center_example (lit 200 1)
           (float_of_Z 30) (PyStr "C") (lit 25 1) zero);
    try (vm_compute; reflexivity).
  left. vm_compute. reflexivity.
Defined.

(** ** The float of a positive integer is not zero *)

Section FloatOfPositive.

Lemma shr_1_m mrs : 0 <= shr_m mrs -> shr_m (shr_1 mrs) = Z.div2 (shr_m mrs).
Proof. destruct mrs as [[|[p|p|]|p] r s]; simpl; intros H; try reflexivity; lia. Qed.

Lemma shr_1_nonneg mrs : 0 <= shr_m mrs -> 0 <= shr_m (shr_1 mrs).
Proof. intros H. rewrite shr_1_m by exact H. rewrite Z.div2_div. apply Z.div_pos; lia. Qed.

Lemma iter_shr_1_m p : forall mrs,
  0 <= shr_m mrs ->
  0 <= shr_m (SpecFloat.iter_pos shr_1 p mrs)
  /\ shr_m (SpecFloat.iter_pos shr_1 p mrs) = shr_m mrs / 2 ^ Zpos p.
Proof.
  induction p as [p IH|p IH|]; intros mrs H; simpl SpecFloat.iter_pos.
  - pose proof (shr_1_nonneg mrs H) as H1.
    destruct (IH (shr_1 mrs) H1) as [H2 E2].
    destruct (IH _ H2) as [H3 E3]. split; [exact H3|].
    rewrite E3, E2, shr_1_m, Z.div2_div by exact H.
    rewrite !Z.div_div by lia. f_equal.
    rewrite (Pos2Z.inj_xI p), Z.add_1_r, Z.pow_succ_r, Z.pow_twice_r by lia.
    reflexivity.
  - destruct (IH mrs H) as [H2 E2].
    destruct (IH _ H2) as [H3 E3]. split; [exact H3|].
    rewrite E3, E2. rewrite Z.div_div by lia. f_equal.
    rewrite (Pos2Z.inj_xO p), Z.pow_twice_r. reflexivity.
  - split; [apply shr_1_nonneg, H|]. rewrite shr_1_m, Z.div2_div by exact H.
    reflexivity.
Qed.

Lemma digits2_pos_le m : 2 ^ (Zpos (digits2_pos m) - 1) <= Zpos m.
Proof.
  induction m as [m IH|m IH|]; simpl digits2_pos.
  - rewrite Pos2Z.inj_succ. replace (Z.succ (Zpos (digits2_pos m)) - 1)
      with (Z.succ (Zpos (digits2_pos m) - 1)) by lia.
    rewrite Z.pow_succ_r by lia. lia.
  - rewrite Pos2Z.inj_succ. replace (Z.succ (Zpos (digits2_pos m)) - 1)
      with (Z.succ (Zpos (digits2_pos m) - 1)) by lia.
    rewrite Z.pow_succ_r by lia. lia.
  - simpl. lia.
Qed.

Lemma shr_fexp_pos m e l :
  SpecFloat.emin prec emax <= e ->
  0 < shr_m (fst (shr_fexp prec emax (Zpos m) e l))
  /\ SpecFloat.emin prec emax <= snd (shr_fexp prec emax (Zpos m) e l).
Proof.
  intros He. unfold shr_fexp, shr.
  assert (Hm : shr_m (shr_record_of_loc (Zpos m) l) = Zpos m)
    by (destruct l as [|[]]; reflexivity).
  destruct (fexp prec emax (Zdigits2 (Zpos m) + e) - e) as [|p|p] eqn:E;
    simpl fst; simpl snd; rewrite ?Hm; try (split; lia).
  assert (Hp : Zpos p < Zpos (digits2_pos m)).
  { revert E He. unfold fexp, SpecFloat.emin, prec, emax. simpl Zdigits2. lia. }
  destruct (iter_shr_1_m p (shr_record_of_loc (Zpos m) l)) as [_ ->]; [lia|].
  rewrite Hm. split; [|lia].
  apply Z.div_str_pos. split; [apply Z.pow_pos_nonneg; lia|].
  etransitivity; [|apply digits2_pos_le].
  apply Z.pow_le_mono_r; lia.
Qed.

Lemma binary_round_aux_not_zero s m e l :
  SpecFloat.emin prec emax <= e ->
  feqb (binary_round_aux prec emax s (Zpos m) e l) zero = false.
Proof.
  intros He. unfold binary_round_aux.
  pose proof (shr_fexp_pos m e l He) as [H1 H2].
  destruct (shr_fexp prec emax (Zpos m) e l) as [mrs' e']. simpl in H1, H2.
  assert (Hr : 0 < round_nearest_even (shr_m mrs') (loc_of_shr_record mrs')).
  { unfold round_nearest_even.
    destruct (loc_of_shr_record mrs') as [|[]]; try lia.
    destruct (Z.even (shr_m mrs')); lia. }
  destruct (round_nearest_even (shr_m mrs') (loc_of_shr_record mrs'))
    as [|m1|m1]; try lia.
  pose proof (shr_fexp_pos m1 e' loc_Exact H2) as [H3 _].
  destruct (shr_fexp prec emax (Zpos m1) e' loc_Exact) as [mrs'' e''].
  simpl in H3. destruct (shr_m mrs'') as [|m2|m2]; try lia.
  destruct (e'' <=? emax - prec); destruct s; reflexivity.
Qed.

Lemma float_of_Z_pos_not_zero p : feqb (float_of_Z (Zpos p)) zero = false.
Proof.
  unfold float_of_Z, binary_normalize, binary_round.
  destruct (shl_align p 0 (fexp prec emax (Zpos (digits2_pos p) + 0)))
    as [mz ez] eqn:E.
  apply binary_round_aux_not_zero.
  revert E. unfold shl_align.
  destruct (fexp prec emax (Zpos (digits2_pos p) + 0) - 0) eqn:E2;
    intros [= <- <-]; revert E2;
    unfold fexp, SpecFloat.emin, prec, emax; lia.
Qed.

End FloatOfPositive.

(** ** Trend analyzer *)

Lemma mapM_game_pts_cases (game_log : list dict) :
  (exists pts, mapM_result game_pts game_log = Ok pts
               /\ length pts = length game_log)
  \/ mapM_result game_pts game_log = Raise OverflowError.
Proof.
  induction game_log as [|g game_log IH]; cbn [mapM_result];
    [left; eexists; eauto|].
  destruct (safe_float_cases (default (PyInt 0) (g !! "pts"%string)))
    as [[x Hx]| Hx]; fold (game_pts g) in Hx; rewrite Hx;
    cbn [mbind result_bind]; [|auto].
  destruct IH as [(pts & -> & Hlen)| ->]; cbn [mbind result_bind]; [|auto].
  left. eexists; split; [reflexivity|]. simpl. congruence.
Qed.

Lemma py_div_by_length x n :
  py_div x (float_of_Z (Z.of_nat (S n)))
  = Ok (fdiv x (float_of_Z (Z.of_nat (S n)))).
Proof.
  unfold py_div. change (Z.of_nat (S n)) with (Zpos (Pos.of_succ_nat n)).
  rewrite float_of_Z_pos_not_zero. reflexivity.
Qed.

(** C7. The trend is 0.0 when the game log or the season record is
    empty and when the season points-per-game is zero; no call raises
    ZeroDivisionError; and for a non-empty log and season record with
    non-zero season points (and points that have float values) the trend
    is [(recent - season) / season * 100] rounded to one decimal, where
    [recent] is the sum of the games' points divided by their number. *)
Theorem compute_recent_trend_spec :
  (forall (season_stats : dict) (game_log : list dict),
      game_log = [] \/ season_stats = ∅ ->
      compute_recent_trend season_stats game_log = Ok zero)
  /\ (forall (season_stats : dict) (game_log : list dict) season_ppg,
        _safe_float (default (PyInt 0) (season_stats !! "pts"%string)) = Ok season_ppg ->
        feqb season_ppg zero = true ->
        compute_recent_trend season_stats game_log = Ok zero)
  /\ (forall (season_stats : dict) (game_log : list dict),
        compute_recent_trend season_stats game_log <> Raise ZeroDivisionError)
  /\ (forall (season_stats : dict) (game_log : list dict) season_ppg pts,
        game_log <> [] -> season_stats <> ∅ ->
        _safe_float (default (PyInt 0) (season_stats !! "pts"%string)) = Ok season_ppg ->
        feqb season_ppg zero = false ->
        mapM_result game_pts game_log = Ok pts ->
        compute_recent_trend season_stats game_log
        = Ok (py_round
                (fmul
                   (fdiv
                      (fsub (fdiv (py_sum pts) (float_of_Z (Z.of_nat (length game_log))))
                         season_ppg)
                      season_ppg)
                   (float_of_Z 100)) 1)).
Proof.
  split; [|split; [|split]].
  - intros season_stats game_log [-> | ->]; unfold compute_recent_trend.
    + reflexivity.
    + replace (dict_is_empty ∅) with true
        by (symmetry; apply dict_is_empty_true; reflexivity).
      destruct game_log; reflexivity.
  - intros season_stats game_log season_ppg Hs Hz. unfold compute_recent_trend.
    destruct game_log as [|g game_log]; [reflexivity|].
    destruct (dict_is_empty season_stats); [reflexivity|]. cbn [orb].
    rewrite Hs. cbn [mbind result_bind]. rewrite Hz. reflexivity.
  - intros season_stats game_log. unfold compute_recent_trend.
    destruct game_log as [|g game_log]; [discriminate|].
    destruct (dict_is_empty season_stats); [discriminate|]. cbn [orb].
    destruct (safe_float_cases (default (PyInt 0) (season_stats !! "pts"%string)))
      as [[s ->]| ->]; cbn [mbind result_bind]; [|discriminate].
    destruct (feqb s zero) eqn:Hz; [discriminate|].
    destruct (mapM_game_pts_cases (g :: game_log)) as [(pts & -> & _)| ->];
      cbn [mbind result_bind]; [|discriminate].
    cbn [length]. rewrite py_div_by_length. cbn [mbind result_bind].
    unfold py_div. rewrite Hz. discriminate.
  - intros season_stats game_log season_ppg pts Hg Hne Hs Hz Hpts.
    unfold compute_recent_trend.
    destruct game_log as [|g game_log]; [congruence|].
    destruct (dict_is_empty season_stats) eqn:He.
    { apply dict_is_empty_true in He. congruence. }
    cbn [orb]. rewrite Hs. cbn [mbind result_bind]. rewrite Hz, Hpts.
    cbn [mbind result_bind length]. rewrite py_div_by_length.
    cbn [mbind result_bind]. unfold py_div. rewrite Hz. reflexivity.
Qed.

(** The formula of C7 at the test suite's upward trend: 26.7. *)
Lemma compute_recent_trend_spec_witness :
  compute_recent_trend trend_season_example trend_log_example
  = Ok (py_round
          (fmul
             (fdiv
                (fsub
                   (fdiv (py_sum [float_of_Z 25; float_of_Z 27; float_of_Z 24])
                      (float_of_Z 3))
                   (lit 200 1))
                (lit 200 1))
             (float_of_Z 100)) 1)
  /\ py_round
       (fmul
          (fdiv
             (fsub
                (fdiv (py_sum [float_of_Z 25; float_of_Z 27; float_of_Z 24])
                   (float_of_Z 3))
                (lit 200 1))
             (lit 200 1))
          (float_of_Z 100)) 1 = lit 267 1.
Proof.
  split; [|vm_compute; reflexivity].
  apply (proj2 (proj2 (proj2 compute_recent_trend_spec))
           trend_season_example trend_log_example (lit 200 1)
           [float_of_Z 25; float_of_Z 27; float_of_Z 24]).
  - discriminate.
  - intros H. apply (f_equal (fun d : dict => d !! "pts"%string)) in H.
    vm_compute in H. discriminate H.
  - vm_compute. reflexivity.
  - vm_compute. reflexivity.
  - vm_compute. reflexivity.
Defined.

(** ** Draft board builder *)

Lemma mapM_result_Forall2 {A B} (f : A -> result B) l l' :
  mapM_result f l = Ok l' -> Forall2 (fun x y => f x = Ok y) l l'.
Proof.
  revert l'. induction l as [|x l IH]; intros l'; cbn [mapM_result].
  - intros [= <-]. constructor.
  - destruct (f x) as [y|] eqn:Hy; cbn [mbind result_bind]; [|intros H; discriminate H].
    destruct (mapM_result f l) as [ys|]; cbn [mbind result_bind];
      [|intros H; discriminate H].
    intros [= <-]. constructor; [exact Hy|]. apply IH. reflexivity.
Qed.

(** One turn of the valuation loop leaves the state as it is or
    appends one entry, named after the candidate. *)
Lemma value_player_appends P sport scoring_format hot_players player_name st st' :
  value_player P sport scoring_format hot_players player_name st = Ok st' ->
  st'.1 = st.1
  \/ exists rp, st'.1 = st.1 ++ [rp] /\ RankedPlayer.name rp = player_name.
Proof.
  unfold value_player.
  destruct (resolve_player P sport scoring_format player_name)
    as [[[[[stats value] trend] position]|]|]; cbn [mbind result_bind];
    [| intros [= <-]; auto | intros H; discriminate H].
  destruct (pos_key_of position) as [pos_key|]; cbn [mbind result_bind];
    [|intros H; discriminate H].
  destruct (hot_players !! player_name) as [hp|];
    (destruct (identify_sleeper stats trend value position) as [[flag reason]|];
     cbn [mbind result_bind]; [|intros H; discriminate H]);
    intros [= <-]; right; eexists; split; reflexivity.
Qed.

Lemma valuation_loop_appends P sport scoring_format hot_players available :
  forall st st',
  valuation_loop P sport scoring_format hot_players available st = Ok st' ->
  exists added,
    st'.1 = st.1 ++ added /\ sublist (RankedPlayer.name <$> added) available.
Proof.
  induction available as [|player_name rest IH]; intros st st'; cbn [valuation_loop].
  - intros [= <-]. exists []. rewrite app_nil_r. split; [reflexivity|constructor].
  - destruct (value_player P sport scoring_format hot_players player_name st)
      as [st1|] eqn:H1; cbn [mbind result_bind]; [|intros H; discriminate H].
    intros H2. apply IH in H2 as (added & E & Hsub).
    apply value_player_appends in H1 as [E1 | (rp & E1 & Hname)].
    + exists added. rewrite E, E1. split; [reflexivity|].
      apply sublist_cons, Hsub.
    + exists (rp :: added). rewrite E, E1, <- app_assoc. split; [reflexivity|].
      cbn [fmap list_fmap]. rewrite Hname. apply sublist_skip, Hsub.
Qed.

Lemma apply_vor_then_need repl roster sport rp rp1 rp2 :
  apply_vor repl rp = Ok rp1 ->
  positional_need (_count_roster_positions roster sport) rp1 = Ok rp2 ->
  scored repl rp rp2.
Proof.
  unfold apply_vor, positional_need, _count_roster_positions.
  destruct (pos_key_of (RankedPlayer.position rp)) as [pos_key|] eqn:Hk;
    cbn [mbind result_bind]; [|intros H; discriminate H].
  intros [= <-]. cbn [RankedPlayer.position RankedPlayer.set_vor].
  rewrite Hk. cbn [mbind result_bind]. rewrite lookup_empty.
  cbn [default from_option Z.eqb]. intros [= <-].
  repeat split. exists pos_key. repeat split. exact Hk.
Qed.

Lemma scored_passes repl roster sport l l1 l2 :
  mapM_result (apply_vor repl) l = Ok l1 ->
  mapM_result (positional_need (_count_roster_positions roster sport)) l1 = Ok l2 ->
  Forall2 (scored repl) l l2.
Proof.
  intros H1 H2. apply mapM_result_Forall2 in H1. apply mapM_result_Forall2 in H2.
  revert l2 H2. induction H1 as [|rp rp1 l l1 Hrp _ IH]; intros l2 H2.
  - inversion H2. constructor.
  - inversion H2 as [|? rp2 ? l2' Hrp2 Hl2]; subst. constructor.
    + eapply apply_vor_then_need; eauto.
    + apply IH, Hl2.
Qed.

Lemma fills_need_nonempty pos_key : String.eqb ("fills " +:+ pos_key +:+ " need") "" = false.
Proof. reflexivity. Qed.

Lemma best_available_scored repl l l2 :
  Forall2 (scored repl) l l2 ->
  best_available (sort_desc RankedPlayer.vor l2) = sort_desc RankedPlayer.vor l2.
Proof.
  intros HF. unfold best_available.
  destruct (sort_desc RankedPlayer.vor l2) as [|rp rest] eqn:E; [reflexivity|].
  assert (Hin : rp ∈ l2).
  { apply (sort_desc_elem_of RankedPlayer.vor). rewrite E. constructor. }
  assert (Hall : Forall (fun rp' => exists pos_key,
             RankedPlayer.recommendation rp' = "fills " +:+ pos_key +:+ " need") l2).
  { clear -HF. induction HF as [|x y l l' (_ & _ & _ & k & _ & _ & Hr) _ IH];
      constructor; eauto. }
  rewrite Forall_forall in Hall. destruct (Hall rp Hin) as [k ->].
  rewrite fills_need_nonempty. reflexivity.
Qed.

(** The shape of every board that is returned: the valued entries,
    scored, in stable descending order of VOR. *)
Lemma build_draft_board_inv P sport scoring_format drafted_names roster
  live_context ranked :
  build_draft_board P sport scoring_format drafted_names roster live_context
  = Ok ranked ->
  exists valued replacement_values scored_entries,
    valuation_loop P sport scoring_format (default ∅ live_context)
      (available_players sport drafted_names) ([], ∅)
    = Ok (valued, replacement_values)
    /\ Forall2 (scored (replacement_baseline <$> replacement_values))
         valued scored_entries
    /\ ranked = sort_desc RankedPlayer.vor scored_entries.
Proof.
  unfold build_draft_board.
  destruct (valuation_loop _ _ _ _ _ _) as [[valued rv]|]; cbn [mbind result_bind];
    [|intros H; discriminate H].
  destruct (mapM_result (apply_vor _) valued) as [l1|] eqn:H1;
    cbn [mbind result_bind]; [|intros H; discriminate H].
  destruct (mapM_result (positional_need _) l1) as [l2|] eqn:H2;
    cbn [mbind result_bind]; [|intros H; discriminate H].
  intros [= <-]. exists valued, rv, l2.
  pose proof (scored_passes _ _ _ _ _ _ H1 H2) as HF.
  split; [reflexivity|]. split; [exact HF|].
  eapply best_available_scored, HF.
Qed.

Lemma scored_names repl l l2 :
  Forall2 (scored repl) l l2 -> RankedPlayer.name <$> l2 = RankedPlayer.name <$> l.
Proof.
  induction 1 as [|x y l l' (Hn & _) _ IH]; [reflexivity|].
  cbn [fmap list_fmap]. f_equal; [exact Hn | exact IH].
Qed.

Lemma two_player_board_built :
  build_draft_board (two_player_provider (PyFloat (lit 305 1)))
    "nba" "points" [] ["LeBron James"%string] None
  = Ok two_player_board.
Proof. vm_compute. reflexivity. Qed.

(** C3. Whatever the roster argument, the roster count holds no
    position, and every entry of a returned board carries the +2.0
    positional-need bonus on its VOR and the tag "fills <position> need";
    the entries of the board are exactly the candidates that were
    valued. *)
Theorem build_draft_board_need_bonus P sport scoring_format drafted_names roster
  live_context ranked :
  build_draft_board P sport scoring_format drafted_names roster live_context
  = Ok ranked ->
  (forall pos_key : string,
      default 0 (_count_roster_positions roster sport !! pos_key) = 0)
  /\ exists valued replacement_values,
      valuation_loop P sport scoring_format (default ∅ live_context)
        (available_players sport drafted_names) ([], ∅)
      = Ok (valued, replacement_values)
      /\ Permutation (RankedPlayer.name <$> ranked) (RankedPlayer.name <$> valued)
      /\ Forall
           (fun rp =>
              exists pos_key,
                pos_key_of (RankedPlayer.position rp) = Ok pos_key
                /\ RankedPlayer.vor rp
                   = fadd
                       (compute_vor (RankedPlayer.fantasy_value rp) pos_key
                          (replacement_baseline <$> replacement_values))
                       (lit 20 1)
                /\ RankedPlayer.recommendation rp
                   = "fills " +:+ pos_key +:+ " need")
           ranked.
Proof.
  intros H. split; [intros pos_key; reflexivity|].
  apply build_draft_board_inv in H as (valued & rv & l2 & Hloop & HF & ->).
  exists valued, rv. split; [exact Hloop|]. split.
  - rewrite <- (scored_names _ _ _ HF).
    apply fmap_Permutation, sort_desc_perm.
  - apply Forall_forall. intros rp Hrp. apply sort_desc_elem_of in Hrp.
    clear Hloop. induction HF as [|x y l l' Hxy _ IH].
    + apply elem_of_nil in Hrp as [].
    + apply elem_of_cons in Hrp as [-> | Hrp]; [|apply IH, Hrp].
      destruct Hxy as (_ & Hp & Hv & k & Hk & Hvor & Hrec).
      exists k. rewrite Hp, Hv. auto.
Qed.

(** C3 on the two-player board, with a roster that names a player. *)
Lemma build_draft_board_need_bonus_witness :
  (forall pos_key : string,
      default 0 (_count_roster_positions ["LeBron James"%string] "nba" !! pos_key) = 0)
  /\ exists valued replacement_values,
      valuation_loop (two_player_provider (PyFloat (lit 305 1))) "nba" "points"
        (default ∅ None) (available_players "nba" []) ([], ∅)
      = Ok (valued, replacement_values)
      /\ Permutation (RankedPlayer.name <$> two_player_board)
           (RankedPlayer.name <$> valued)
      /\ Forall
           (fun rp =>
              exists pos_key,
                pos_key_of (RankedPlayer.position rp) = Ok pos_key
                /\ RankedPlayer.vor rp
                   = fadd
                       (compute_vor (RankedPlayer.fantasy_value rp) pos_key
                          (replacement_baseline <$> replacement_values))
                       (lit 20 1)
                /\ RankedPlayer.recommendation rp
                   = "fills " +:+ pos_key +:+ " need")
           two_player_board.
Proof.
  apply (build_draft_board_need_bonus (two_player_provider (PyFloat (lit 305 1)))
           "nba" "points" [] ["LeBron James"%string] None two_player_board).
  exact two_player_board_built.
Defined.

(** C1 (amended). On every board that is returned and holds no NaN as a
    VOR, the VOR does not increase from one rank to the next, and two
    entries whose VORs compare equal stand in the order in which the loop
    met their names in the pool. *)
Theorem build_draft_board_sorted_by_vor P sport scoring_format drafted_names
  roster live_context ranked :
  build_draft_board P sport scoring_format drafted_names roster live_context
  = Ok ranked ->
  Forall (fun rp => is_nan (RankedPlayer.vor rp) = false) ranked ->
  (forall i a b,
      ranked !! i = Some a -> ranked !! S i = Some b ->
      fleb (RankedPlayer.vor b) (RankedPlayer.vor a) = true)
  /\ (forall i j a b,
        (i < j)%nat -> ranked !! i = Some a -> ranked !! j = Some b ->
        feqb (RankedPlayer.vor a) (RankedPlayer.vor b) = true ->
        exists i' j',
          (i' < j')%nat
          /\ available_players sport drafted_names !! i' = Some (RankedPlayer.name a)
          /\ available_players sport drafted_names !! j' = Some (RankedPlayer.name b)).
Proof.
  intros H Hnan.
  apply build_draft_board_inv in H as (valued & rv & l2 & Hloop & HF & ->).
  split.
  - intros i a b Ha Hb.
    assert (Hl2 : Forall (fun rp => is_nan (RankedPlayer.vor rp) = false) l2).
    { rewrite Forall_forall in *. intros rp Hrp. apply Hnan.
      apply sort_desc_elem_of, Hrp. }
    apply (sort_desc_descending RankedPlayer.vor l2 Hl2).
    apply precedes_lookup. exists i, (S i). repeat split; [lia | exact Ha | exact Hb].
  - intros i j a b Hij Ha Hb Heq.
    assert (Hp : precedes a b (sort_desc RankedPlayer.vor l2)).
    { apply precedes_lookup. exists i, j. auto. }
    apply sort_desc_stable in Hp as [Hlt | Hp].
    { rewrite (feqb_not_fltb _ _ Heq) in Hlt. discriminate Hlt. }
    apply (precedes_fmap RankedPlayer.name) in Hp.
    rewrite (scored_names _ _ _ HF) in Hp.
    apply valuation_loop_appends in Hloop as (added & E & Hsub).
    cbn [fst app] in E. subst valued.
    apply precedes_lookup. eapply precedes_sublist; eauto.
Qed.

(** The amended C1 on the two-player board. *)
Lemma build_draft_board_sorted_by_vor_witness :
  (forall i a b,
      two_player_board !! i = Some a -> two_player_board !! S i = Some b ->
      fleb (RankedPlayer.vor b) (RankedPlayer.vor a) = true)
  /\ (forall i j a b,
        (i < j)%nat -> two_player_board !! i = Some a ->
        two_player_board !! j = Some b ->
        feqb (RankedPlayer.vor a) (RankedPlayer.vor b) = true ->
        exists i' j',
          (i' < j')%nat
          /\ available_players "nba" [] !! i' = Some (RankedPlayer.name a)
          /\ available_players "nba" [] !! j' = Some (RankedPlayer.name b)).
Proof.
  apply (build_draft_board_sorted_by_vor (two_player_provider (PyFloat (lit 305 1)))
           "nba" "points" [] ["LeBron James"%string] None two_player_board).
  - exact two_player_board_built.
  - repeat constructor.
Defined.

(** C1 as stated fails where a VOR is NaN: when the provider reports
    the str ["nan"] as the second player's points, the board ranks the
    first player (VOR 12.0) above the second (VOR NaN), and [nan <= 12.0]
    does not hold. *)
Lemma build_draft_board_nan_counterexample :
  board_vors
    (build_draft_board (two_player_provider (PyStr "nan")) "nba" "points" [] [] None)
  = Some [ ("Nikola Jokic"%string, lit 120 1); ("Luka Doncic"%string, S754_nan) ]
  /\ fleb S754_nan (lit 120 1) = false.
Proof. split; vm_compute; reflexivity. Qed.

(** ** Further properties of the board *)





(** No entry of a returned board has a name that matches a drafted
    name when case is ignored. *)
Theorem build_draft_board_excludes_drafted P sport scoring_format drafted_names
  roster live_context ranked :
  build_draft_board P sport scoring_format drafted_names roster live_context
  = Ok ranked ->
  forall rp drafted,
    rp ∈ ranked -> drafted ∈ drafted_names ->
    lower (RankedPlayer.name rp) <> lower drafted.
Proof.
  intros H rp drafted Hrp Hd Heq.
  apply build_draft_board_inv in H as (valued & rv & l2 & Hloop & HF & ->).
  apply sort_desc_elem_of in Hrp.
  apply (list_elem_of_fmap_2 RankedPlayer.name) in Hrp.
  rewrite (scored_names _ _ _ HF) in Hrp.
  apply valuation_loop_appends in Hloop as (added & E & Hsub).
  cbn [fst app] in E. subst valued.
  apply (elem_of_sublist _ _ _ Hrp) in Hsub.
  unfold available_players in Hsub. apply list_elem_of_filter in Hsub as [Hnot _].
  apply Hnot. apply elem_of_list_to_set. rewrite Heq.
  apply list_elem_of_fmap_2, Hd.
Qed.

Lemma build_draft_board_excludes_drafted_witness :
  Forall
    (fun rp =>
       Forall (fun drafted => lower (RankedPlayer.name rp) <> lower drafted)
         ["LEBRON JAMES"%string])
    two_player_board.
Proof.
  apply Forall_forall. intros rp Hrp. apply Forall_forall. intros drafted Hd.
  apply (build_draft_board_excludes_drafted
           (two_player_provider (PyFloat (lit 305 1)))
           "nba" "points" ["LEBRON JAMES"%string] ["LeBron James"%string] None
           two_player_board); [vm_compute; reflexivity | exact Hrp | exact Hd].
Defined.

Lemma value_player_keyed P sport scoring_format hot_players player_name st st' :
  value_player P sport scoring_format hot_players player_name st = Ok st' ->
  keyed st -> keyed st'.
Proof.
  unfold value_player, keyed.
  destruct (resolve_player P sport scoring_format player_name)
    as [[[[[stats value] trend] position]|]|]; cbn [mbind result_bind];
    [| intros [= <-]; auto | intros H; discriminate H].
  destruct (pos_key_of position) as [pos_key|] eqn:Hk; cbn [mbind result_bind];
    [|intros H; discriminate H].
  assert (Hold : Forall
            (fun rp => exists k, pos_key_of (RankedPlayer.position rp) = Ok k
                       /\ is_Some (st.2 !! k)) st.1 ->
          forall v, Forall
            (fun rp => exists k, pos_key_of (RankedPlayer.position rp) = Ok k
                       /\ is_Some (<[pos_key := v]> st.2 !! k)) st.1).
  { intros HF v. eapply Forall_impl; [exact HF|].
    intros rp (k & Hk' & Hs). exists k. split; [exact Hk'|].
    destruct (decide (pos_key = k)) as [->|Hne].
    - rewrite lookup_insert_eq. eauto.
    - rewrite lookup_insert_ne by exact Hne. exact Hs. }
  destruct (hot_players !! player_name) as [hp|];
    (destruct (identify_sleeper stats trend value position) as [[flag reason]|];
     cbn [mbind result_bind]; [|intros H; discriminate H]);
    intros [= <-] HF; cbn [fst snd]; apply Forall_app; (split; [apply Hold, HF|]);
    constructor; [|constructor| |constructor];
    exists pos_key; cbn [RankedPlayer.position]; rewrite lookup_insert_eq; eauto.
Qed.

Lemma valuation_loop_keyed P sport scoring_format hot_players available :
  forall st st',
  valuation_loop P sport scoring_format hot_players available st = Ok st' ->
  keyed st -> keyed st'.
Proof.
  induction available as [|player_name rest IH]; intros st st'; cbn [valuation_loop].
  - intros [= <-]. auto.
  - destruct (value_player P sport scoring_format hot_players player_name st)
      as [st1|] eqn:H1; cbn [mbind result_bind]; [|intros H; discriminate H].
    intros H2 Hk. eapply IH; [exact H2|]. eapply value_player_keyed; eauto.
Qed.

(** Inside the board builder no position key is unknown: every entry
    of a returned board has its key in the baseline mapping. *)
Theorem build_draft_board_keys_known P sport scoring_format drafted_names
  roster live_context ranked :
  build_draft_board P sport scoring_format drafted_names roster live_context
  = Ok ranked ->
  exists valued replacement_values,
    valuation_loop P sport scoring_format (default ∅ live_context)
      (available_players sport drafted_names) ([], ∅)
    = Ok (valued, replacement_values)
    /\ Forall
         (fun rp =>
            exists pos_key,
              pos_key_of (RankedPlayer.position rp) = Ok pos_key
              /\ is_Some ((replacement_baseline <$> replacement_values) !! pos_key))
         ranked.
Proof.
  intros H.
  apply build_draft_board_inv in H as (valued & rv & l2 & Hloop & HF & ->).
  exists valued, rv. split; [exact Hloop|].
  apply valuation_loop_keyed in Hloop; [|constructor].
  unfold keyed in Hloop. cbn [fst snd] in Hloop.
  apply Forall_forall. intros rp Hrp. apply sort_desc_elem_of in Hrp.
  clear -HF Hloop Hrp. induction HF as [|x y l l' Hxy _ IH].
  - apply elem_of_nil in Hrp as [].
  - apply Forall_cons in Hloop as [Hx Hl].
    apply elem_of_cons in Hrp as [-> | Hrp]; [|apply IH; assumption].
    destruct Hxy as (_ & Hp & _). destruct Hx as (k & Hk & Hs).
    exists k. rewrite Hp. split; [exact Hk|].
    rewrite lookup_fmap. destruct Hs as [v ->]. eauto.
Qed.

Lemma build_draft_board_keys_known_witness :
  exists valued replacement_values,
    valuation_loop (two_player_provider (PyFloat (lit 305 1))) "nba" "points"
      (default ∅ None) (available_players "nba" []) ([], ∅)
    = Ok (valued, replacement_values)
    /\ Forall
         (fun rp =>
            exists pos_key,
              pos_key_of (RankedPlayer.position rp) = Ok pos_key
              /\ is_Some ((replacement_baseline <$> replacement_values) !! pos_key))
         two_player_board.
Proof.
  apply (build_draft_board_keys_known (two_player_provider (PyFloat (lit 305 1)))
           "nba" "points" [] ["LeBron James"%string] None two_player_board).
  exact two_player_board_built.
Defined.

(** ** Beyond the valuation pipeline *)

(** ** [_safe_float] *)

(** [_safe_float] returns [float(value)] where that succeeds and 0.0
    where it raises ValueError or TypeError; it is not total: an int
    beyond the range of a float raises OverflowError, and nothing else
    makes it raise. *)
Theorem safe_float_contract (value : pyval) :
  (forall x, py_float value = Ok x -> _safe_float value = Ok x)
  /\ (py_float value = Raise ValueError \/ py_float value = Raise TypeError ->
      _safe_float value = Ok zero)
  /\ (forall e, _safe_float value = Raise e ->
        e = OverflowError /\ exists z, value = PyInt z /\ is_inf (float_of_Z z) = true)
  /\ _safe_float (PyInt (10 ^ 400)) = Raise OverflowError.
Proof.
  split; [intros x H; apply safe_float_ok, H|].
  split; [intros [H|H]; unfold _safe_float; rewrite H; reflexivity|].
  split; [|vm_compute; reflexivity].
  intros e. unfold _safe_float.
  destruct value as [|b|z|f|s|l|d]; cbn [py_float try_except];
    try (intros H; discriminate H).
  - destruct (is_inf (float_of_Z z)) eqn:E; cbn [try_except].
    + cbn. intros [= <-]. eauto.
    + intros H; discriminate H.
  - destruct (parse_float s); cbn [try_except]; intros H; discriminate H.
Qed.

Lemma safe_float_contract_witness :
  _safe_float (PyStr "N/A") = Ok zero.
Proof.
  apply (proj1 (proj2 (safe_float_contract (PyStr "N/A")))).
  left. vm_compute. reflexivity.
Defined.

(** ** What the valuation functions can raise *)

Lemma add_weighted_cases (stats : dict) total k w :
  (exists x, add_weighted stats total k w = Ok x)
  \/ add_weighted stats total k w = Raise OverflowError.
Proof.
  unfold add_weighted.
  destruct (safe_float_cases (default (PyInt 0) (stats !! k))) as [[x ->]| ->];
    cbn [mbind result_bind]; eauto.
Qed.

Lemma weighted_sum_cases (stats : dict) items : forall total,
  (exists x, weighted_sum stats total items = Ok x)
  \/ weighted_sum stats total items = Raise OverflowError.
Proof.
  induction items as [|[k w] items IH]; intros total; cbn [weighted_sum]; [eauto|].
  destruct (add_weighted_cases stats total k w) as [[x ->]| ->];
    cbn [mbind result_bind]; auto.
Qed.

Lemma float_or_cases v d :
  (exists x, float_or v d = Ok x) \/ float_or v d = Raise OverflowError.
Proof.
  unfold float_or.
  destruct (py_float_cases v) as [[x ->] | [-> | [-> | ->]]]; simpl; eauto.
Qed.

(** The points model, the pitching model and the trend analyzer return
    a float on every input, but for an int too large for a float among
    the fields they read: then OverflowError escapes. They raise nothing
    else. *)
Theorem valuation_raises_only_overflow (stats : dict) (game_log : list dict) :
  ((exists x, compute_nba_points_value stats = Ok x)
   \/ compute_nba_points_value stats = Raise OverflowError)
  /\ ((exists x, compute_mlb_pitching_value stats = Ok x)
      \/ compute_mlb_pitching_value stats = Raise OverflowError)
  /\ ((exists x, compute_recent_trend stats game_log = Ok x)
      \/ compute_recent_trend stats game_log = Raise OverflowError).
Proof.
  split; [|split].
  - unfold compute_nba_points_value. destruct (dict_is_empty stats); [eauto|].
    destruct (weighted_sum_cases stats NBA_POINTS_WEIGHTS zero) as [[x ->]| ->];
      cbn [mbind result_bind]; eauto.
  - unfold compute_mlb_pitching_value. destruct (dict_is_empty stats); [eauto|].
    destruct (add_weighted_cases stats zero "wins" (weight MLB_PITCHING_WEIGHTS "wins"))
      as [[x1 ->]| ->]; cbn [mbind result_bind]; [|auto].
    destruct (add_weighted_cases stats x1 "so" (weight MLB_PITCHING_WEIGHTS "so"))
      as [[x2 ->]| ->]; cbn [mbind result_bind]; [|auto].
    destruct (add_weighted_cases stats x2 "saves" (weight MLB_PITCHING_WEIGHTS "saves"))
      as [[x3 ->]| ->]; cbn [mbind result_bind]; [|auto].
    destruct (float_or_cases (default (PyStr "3.50") (stats !! "era"%string)) (lit 350 2))
      as [[era ->]| ->]; cbn [mbind result_bind]; [|auto].
    destruct (float_or_cases (default (PyStr "1.20") (stats !! "whip"%string)) (lit 120 2))
      as [[whip ->]| ->]; cbn [mbind result_bind]; eauto.
  - unfold compute_recent_trend.
    destruct game_log as [|g game_log]; [cbn [orb]; eauto|].
    destruct (dict_is_empty stats); [eauto|]. cbn [orb].
    destruct (safe_float_cases (default (PyInt 0) (stats !! "pts"%string)))
      as [[s ->]| ->]; cbn [mbind result_bind]; [|auto].
    destruct (feqb s zero) eqn:Hz; [eauto|].
    destruct (mapM_game_pts_cases (g :: game_log)) as [(pts & -> & _)| ->];
      cbn [mbind result_bind]; [|auto].
    cbn [length]. rewrite py_div_by_length. cbn [mbind result_bind].
    unfold py_div. rewrite Hz. cbn [mbind result_bind]. eauto.
Qed.

(** ** More on the sleeper classifier *)

Lemma parse_avg_cases v if_empty on_error :
  (exists x, parse_avg v if_empty on_error = Ok x)
  \/ (parse_avg v if_empty on_error = Raise AttributeError /\ forall s, v <> PyStr s).
Proof.
  unfold parse_avg. destruct v as [|b|z|f|s|l|d];
    try (right; split; [reflexivity | intros s' H; discriminate H]).
  left. cbn [py_lstrip mbind result_bind py_float].
  destruct (parse_float (str_or (lstrip "." s) if_empty)); cbn; eauto.
Qed.

(** The classifier returns a pair on every input, with two
    exceptions: OverflowError from an int too large for a float, and
    AttributeError for a spring-training record whose average is present
    and not a str. *)
Theorem identify_sleeper_raises (stats : dict) trend fantasy_value position :
  (exists r, identify_sleeper stats trend fantasy_value position = Ok r)
  \/ identify_sleeper stats trend fantasy_value position = Raise OverflowError
  \/ (identify_sleeper stats trend fantasy_value position = Raise AttributeError
      /\ stats !! "type"%string = Some (PyStr "spring_training")
      /\ exists v, stats !! "avg"%string = Some v /\ forall s, v <> PyStr s).
Proof.
  unfold identify_sleeper.
  destruct (fleb (lit 150 1) trend && fltb (float_of_Z 20) fantasy_value); [eauto|].
  destruct (safe_float_cases (default (PyInt 0) (stats !! "blk"%string)))
    as [[blk ->]| ->]; cbn [mbind result_bind]; [|auto].
  destruct (safe_float_cases (default (PyInt 0) (stats !! "stl"%string)))
    as [[stl ->]| ->]; cbn [mbind result_bind]; [|auto].
  destruct (in_strs position ["C"; "PF"]%string && fleb (lit 20 1) blk
            && fleb (float_of_Z 5) trend); [eauto|].
  destruct (in_strs position ["PG"; "SG"]%string && fleb (lit 18 1) stl
            && fleb (float_of_Z 5) trend); [eauto|].
  destruct (eq_str (default PyNone (stats !! "type"%string)) "spring_training") eqn:Ht;
    [|eauto].
  assert (Htype : stats !! "type"%string = Some (PyStr "spring_training")).
  { destruct (stats !! "type"%string) as [[| | | |t| |]|]; try discriminate Ht.
    cbn in Ht. apply String.eqb_eq in Ht. congruence. }
  destruct (parse_avg_cases (default (PyStr ".000") (stats !! "avg"%string)) "0" zero)
    as [[avg ->]| [-> Hns]]; cbn [mbind result_bind].
  - destruct (fleb (lit 350 3) avg); [|eauto].
    destruct (safe_float_cases (default (PyInt 0) (stats !! "games"%string)))
      as [[games ->]| ->]; cbn [mbind result_bind]; [|auto].
    destruct (fleb (float_of_Z 5) games); eauto.
  - right; right. split; [reflexivity|]. split; [exact Htype|].
    destruct (stats !! "avg"%string) as [v|]; [eauto|].
    exfalso. eapply Hns. reflexivity.
Qed.

Lemma fleb_nan_r x y : fleb x y = true -> is_nan x = false /\ is_nan y = false.
Proof. destruct x as [| | |], y as [| | |]; cbn; intros H; try discriminate H; auto. Qed.

Lemma trend_above_15_above_5 trend :
  fleb (lit 150 1) trend = true -> fleb (float_of_Z 5) trend = true.
Proof.
  intros H. destruct (fleb_nan_r _ _ H) as [_ Hn].
  apply (fleb_trans _ (lit 150 1)); auto.
Qed.

(** Without a trend of at least 5 (percent) nobody is a sleeper, but
    by the spring-training rule. *)
Theorem identify_sleeper_needs_trend (stats : dict) trend fantasy_value position r :
  fleb (float_of_Z 5) trend = false ->
  eq_str (default PyNone (stats !! "type"%string)) "spring_training" = false ->
  identify_sleeper stats trend fantasy_value position = Ok r ->
  r = (false, ""%string).
Proof.
  intros H5 Ht. unfold identify_sleeper.
  destruct (fleb (lit 150 1) trend) eqn:H15.
  { apply trend_above_15_above_5 in H15. congruence. }
  cbn [andb].
  destruct (_safe_float (default (PyInt 0) (stats !! "blk"%string))) as [blk|];
    cbn [mbind result_bind]; [|intros H; discriminate H].
  destruct (_safe_float (default (PyInt 0) (stats !! "stl"%string))) as [stl|];
    cbn [mbind result_bind]; [|intros H; discriminate H].
  rewrite H5, Ht, !andb_false_r. intros [= <-]. reflexivity.
Qed.

Lemma identify_sleeper_needs_trend_witness :
  (false, ""%string) = (false, ""%string).
Proof.
  apply (identify_sleeper_needs_trend not_qualifying_example (lit 30 1)
           (float_of_Z 15) (PyStr "SF") (false, ""%string));
    vm_compute; reflexivity.
Defined.

Lemma resolve_player_format P sport f1 f2 n :
  resolve_player P sport f1 n = resolve_player P sport f2 n.
Proof.
  unfold resolve_player. destruct (String.eqb sport "nba"); [|reflexivity].
  destruct (dict_is_empty _); [reflexivity|].
  destruct (String.eqb f1 "points"), (String.eqb f2 "points"); reflexivity.
Qed.

Lemma value_player_format P sport f1 f2 hot n st :
  value_player P sport f1 hot n st = value_player P sport f2 hot n st.
Proof. unfold value_player. rewrite (resolve_player_format P sport f1 f2 n). reflexivity. Qed.

Lemma valuation_loop_format P sport f1 f2 hot available : forall st,
  valuation_loop P sport f1 hot available st = valuation_loop P sport f2 hot available st.
Proof.
  induction available as [|n rest IH]; intros st; [reflexivity|].
  cbn [valuation_loop]. rewrite (value_player_format P sport f1 f2).
  destruct (value_player P sport f2 hot n st) as [st'|]; cbn [mbind result_bind];
    [apply IH | reflexivity].
Qed.

(** The board depends neither on the scoring format nor on the roster:
    every format is valued as a points league, and no roster position is
    counted. *)
Theorem build_draft_board_ignores_format_and_roster P sport f1 f2 drafted_names
  roster1 roster2 live_context :
  build_draft_board P sport f1 drafted_names roster1 live_context
  = build_draft_board P sport f2 drafted_names roster2 live_context.
Proof.
  unfold build_draft_board. rewrite (valuation_loop_format P sport f1 f2). reflexivity.
Qed.

(** One turn of the loop, spelled out. *)
Lemma value_player_cases P sport scoring_format hot_players player_name st st' :
  value_player P sport scoring_format hot_players player_name st = Ok st' ->
  (resolve_player P sport scoring_format player_name = Ok None /\ st' = st)
  \/ exists stats value trend position pos_key rp,
       resolve_player P sport scoring_format player_name
       = Ok (Some (stats, value, trend, position))
       /\ pos_key_of position = Ok pos_key
       /\ RankedPlayer.name rp = player_name
       /\ RankedPlayer.position rp = position
       /\ valued_as P sport scoring_format hot_players rp
       /\ st' = (st.1 ++ [rp], <[pos_key := default [] (st.2 !! pos_key) ++ [value]]> st.2).
Proof.
  unfold value_player.
  destruct (resolve_player P sport scoring_format player_name)
    as [[[[[stats value] trend] position]|]|] eqn:Hr; cbn [mbind result_bind];
    [| intros [= <-]; auto | intros H; discriminate H].
  destruct (pos_key_of position) as [pos_key|] eqn:Hk; cbn [mbind result_bind];
    [|intros H; discriminate H].
  intros H. right. exists stats, value, trend, position, pos_key.
  destruct (identify_sleeper stats trend value position) as [[flag reason]|] eqn:Hs;
    cbn [mbind result_bind] in H; [|destruct (hot_players !! player_name); discriminate H].
  assert (Hst : exists rp,
    st' = (st.1 ++ [rp], <[pos_key := default [] (st.2 !! pos_key) ++ [value]]> st.2)
    /\ rp = RankedPlayer.mk player_name (default (PyStr "") (stats !! "team"%string))
             position
             (adjusted_value value trend (bool_decide (is_Some (hot_players !! player_name))))
             zero stats trend
             match hot_players !! player_name with
             | Some hp => default (PyStr "") (hp !! "note"%string)
             | None => PyStr ""
             end flag reason "").
  { destruct (hot_players !! player_name) as [hp|]; cbv zeta beta iota in H; injection H as <-;
      eexists; split; reflexivity. }
  destruct Hst as (rp & -> & Erp). exists rp. subst rp. split; [reflexivity|].
  split; [exact Hk|]. split; [reflexivity|]. split; [reflexivity|].
  split; [|reflexivity].
  exists stats, value, trend, position. cbn. rewrite Hr, Hs. repeat split.
Qed.

Lemma valuation_loop_spec P sport scoring_format hot_players available :
  forall st st',
  valuation_loop P sport scoring_format hot_players available st = Ok st' ->
  exists added,
    st'.1 = st.1 ++ added
    /\ RankedPlayer.name <$> added
       = filter (fun n => has_data P sport scoring_format n) available
    /\ Forall (valued_as P sport scoring_format hot_players) added.
Proof.
  induction available as [|player_name rest IH]; intros st st'; cbn [valuation_loop].
  - intros [= <-]. exists []. rewrite app_nil_r. repeat split. constructor.
  - destruct (value_player P sport scoring_format hot_players player_name st)
      as [st1|] eqn:H1; cbn [mbind result_bind]; [|intros H; discriminate H].
    intros H2. apply IH in H2 as (added & E & Hnames & Hall).
    apply value_player_cases in H1
      as [[Hr ->] | (stats & value & trend & position & k & rp & Hr & _ & Hn & _ & Hv & ->)].
    + exists added. split; [exact E|]. split; [|exact Hall].
      rewrite filter_cons_False; [exact Hnames|].
      unfold has_data. rewrite Hr. intros [].
    + exists (rp :: added). cbn [fst] in E. rewrite E, <- app_assoc.
      split; [reflexivity|]. split; [|constructor; assumption].
      rewrite filter_cons_True by (unfold has_data; rewrite Hr; exact I).
      cbn [fmap list_fmap]. rewrite Hn. f_equal. exact Hnames.
Qed.

Lemma apply_vor_same repl rp rp1 : apply_vor repl rp = Ok rp1 -> same_valuation rp rp1.
Proof.
  unfold apply_vor. destruct (pos_key_of _); cbn [mbind result_bind];
    [|intros H; discriminate H].
  intros [= <-]. repeat split.
Qed.

Lemma positional_need_same counts rp rp1 :
  positional_need counts rp = Ok rp1 -> same_valuation rp rp1.
Proof.
  unfold positional_need. destruct (pos_key_of _) as [k|]; cbn [mbind result_bind];
    [|intros H; discriminate H].
  destruct (_ =? _); intros [= <-]; repeat split.
Qed.

Lemma same_valuation_trans a b c :
  same_valuation a b -> same_valuation b c -> same_valuation a c.
Proof. unfold same_valuation. intros H1 H2. intuition congruence. Qed.

Lemma same_valuation_valued_as P sport scoring_format hot_players rp rp' :
  same_valuation rp rp' -> valued_as P sport scoring_format hot_players rp ->
  valued_as P sport scoring_format hot_players rp'.
Proof.
  intros (Hn & Ht & Hp & Hf & Hs & Hr & Hl & Hi & Hsr)
    (stats & value & trend & position & H).
  exists stats, value, trend, position.
  rewrite Hn, Ht, Hp, Hf, Hs, Hr, Hl, Hi, Hsr. exact H.
Qed.

Lemma passes_same_valuation repl counts l l1 l2 :
  mapM_result (apply_vor repl) l = Ok l1 ->
  mapM_result (positional_need counts) l1 = Ok l2 ->
  Forall2 same_valuation l l2.
Proof.
  intros H1 H2. apply mapM_result_Forall2 in H1. apply mapM_result_Forall2 in H2.
  revert l2 H2. induction H1 as [|x y l l1 Hxy _ IH]; intros l2 H2.
  - inversion H2. constructor.
  - inversion H2 as [|? z ? l2' Hyz Hl]; subst. constructor; [|apply IH, Hl].
    eapply same_valuation_trans; [eapply apply_vor_same|eapply positional_need_same]; eauto.
Qed.

(** The passes after the loop assign the VOR and the recommendation
    only, and the sort moves entries without changing them. *)
Lemma build_draft_board_passes P sport scoring_format drafted_names roster
  live_context ranked :
  build_draft_board P sport scoring_format drafted_names roster live_context
  = Ok ranked ->
  exists valued replacement_values scored_entries,
    valuation_loop P sport scoring_format (default ∅ live_context)
      (available_players sport drafted_names) ([], ∅)
    = Ok (valued, replacement_values)
    /\ Forall2 (scored (replacement_baseline <$> replacement_values))
         valued scored_entries
    /\ Forall2 same_valuation valued scored_entries
    /\ ranked = sort_desc RankedPlayer.vor scored_entries.
Proof.
  unfold build_draft_board.
  destruct (valuation_loop _ _ _ _ _ _) as [[valued rv]|]; cbn [mbind result_bind];
    [|intros H; discriminate H].
  destruct (mapM_result (apply_vor _) valued) as [l1|] eqn:H1;
    cbn [mbind result_bind]; [|intros H; discriminate H].
  destruct (mapM_result (positional_need _) l1) as [l2|] eqn:H2;
    cbn [mbind result_bind]; [|intros H; discriminate H].
  intros [= <-]. exists valued, rv, l2.
  pose proof (scored_passes _ _ _ _ _ _ H1 H2) as HF.
  split; [reflexivity|]. split; [exact HF|].
  split; [eapply passes_same_valuation; eauto|].
  eapply best_available_scored, HF.
Qed.

Lemma same_valuation_names l l2 :
  Forall2 same_valuation l l2 -> RankedPlayer.name <$> l2 = RankedPlayer.name <$> l.
Proof.
  induction 1 as [|x y l l' (Hn & _) _ IH]; [reflexivity|].
  cbn [fmap list_fmap]. f_equal; [exact Hn | exact IH].
Qed.

Lemma NBA_DEFAULT_POOL_NoDup : NoDup NBA_DEFAULT_POOL.
Proof. apply (bool_decide_unpack _). vm_compute. exact I. Qed.

Lemma MLB_DEFAULT_POOL_NoDup : NoDup MLB_DEFAULT_POOL.
Proof. apply (bool_decide_unpack _). vm_compute. exact I. Qed.

Lemma available_players_sublist sport drafted_names :
  sublist (available_players sport drafted_names)
    (if String.eqb sport "nba" then NBA_DEFAULT_POOL else MLB_DEFAULT_POOL).
Proof. unfold available_players. apply sublist_filter. Qed.

Lemma pool_length sport :
  length (if String.eqb sport "nba" then NBA_DEFAULT_POOL else MLB_DEFAULT_POOL) = 30%nat.
Proof. destruct (String.eqb sport "nba"); reflexivity. Qed.

(** The board holds exactly the available candidates for which the
    provider has data, each of them once: no name twice, every name from
    the pool of the sport, at most 30 entries. *)
Theorem build_draft_board_members P sport scoring_format drafted_names roster
  live_context ranked :
  build_draft_board P sport scoring_format drafted_names roster live_context
  = Ok ranked ->
  Permutation (RankedPlayer.name <$> ranked)
    (filter (fun n => has_data P sport scoring_format n)
       (available_players sport drafted_names))
  /\ NoDup (RankedPlayer.name <$> ranked)
  /\ (forall rp, rp ∈ ranked ->
        RankedPlayer.name rp
        ∈ (if String.eqb sport "nba" then NBA_DEFAULT_POOL else MLB_DEFAULT_POOL))
  /\ (length ranked <= 30)%nat.
Proof.
  intros H.
  apply build_draft_board_passes in H as (valued & rv & l2 & Hloop & _ & HS & ->).
  apply valuation_loop_spec in Hloop as (added & E & Hnames & _).
  cbn [fst app] in E. subst added.
  assert (Hperm : RankedPlayer.name <$> sort_desc RankedPlayer.vor l2
                  ≡ₚ filter (fun n => has_data P sport scoring_format n)
                       (available_players sport drafted_names)).
  { rewrite <- Hnames, <- (same_valuation_names _ _ HS).
    apply fmap_Permutation, sort_desc_perm. }
  assert (Hsub : sublist
            (filter (fun n => has_data P sport scoring_format n)
               (available_players sport drafted_names))
            (if String.eqb sport "nba" then NBA_DEFAULT_POOL else MLB_DEFAULT_POOL)).
  { etransitivity; [apply sublist_filter | apply available_players_sublist]. }
  split; [exact Hperm|]. split; [|split].
  - rewrite Hperm. eapply sublist_NoDup; [|exact Hsub].
    destruct (String.eqb sport "nba");
      [apply NBA_DEFAULT_POOL_NoDup | apply MLB_DEFAULT_POOL_NoDup].
  - intros rp Hrp. eapply elem_of_sublist; [|exact Hsub].
    rewrite <- Hperm. apply list_elem_of_fmap_2, Hrp.
  - rewrite <- (length_fmap RankedPlayer.name), Hperm, <- (pool_length sport).
    apply sublist_length, Hsub.
Qed.

Lemma build_draft_board_members_witness :
  Permutation (RankedPlayer.name <$> two_player_board)
    (filter (fun n => has_data (two_player_provider (PyFloat (lit 305 1))) "nba" "points" n)
       (available_players "nba" []))
  /\ NoDup (RankedPlayer.name <$> two_player_board)
  /\ (forall rp, rp ∈ two_player_board ->
        RankedPlayer.name rp
        ∈ (if String.eqb "nba" "nba" then NBA_DEFAULT_POOL else MLB_DEFAULT_POOL))
  /\ (length two_player_board <= 30)%nat.
Proof.
  apply (build_draft_board_members (two_player_provider (PyFloat (lit 305 1)))
           "nba" "points" [] ["LeBron James"%string] None two_player_board).
  exact two_player_board_built.
Defined.

Lemma board_entries_valued P sport scoring_format drafted_names roster
  live_context ranked :
  build_draft_board P sport scoring_format drafted_names roster live_context
  = Ok ranked ->
  Forall (valued_as P sport scoring_format (default ∅ live_context)) ranked.
Proof.
  intros H.
  apply build_draft_board_passes in H as (valued & rv & l2 & Hloop & _ & HS & ->).
  apply valuation_loop_spec in Hloop as (added & E & _ & Hall).
  cbn [fst app] in E. subst added.
  apply Forall_forall. intros rp Hrp. apply sort_desc_elem_of in Hrp.
  clear -HS Hall Hrp. induction HS as [|x y l l' Hxy _ IH].
  - apply elem_of_nil in Hrp as [].
  - apply Forall_cons in Hall as [Hx Hl].
    apply elem_of_cons in Hrp as [-> | Hrp]; [|apply IH; assumption].
    eapply same_valuation_valued_as; eauto.
Qed.

(** Every entry of the board carries what the loop body computed for
    its name: the stats, position and trend the valuation resolved, the
    sleeper flag and reason of the classifier, the live note of the
    hot-player table, and as adjusted value the value plus 3.0 for a hot
    player and plus a tenth of the trend where the trend is above 10. The
    passes that follow the loop assign only the VOR and the
    recommendation. *)
Theorem build_draft_board_provenance P sport scoring_format drafted_names roster
  live_context ranked :
  build_draft_board P sport scoring_format drafted_names roster live_context
  = Ok ranked ->
  Forall (valued_as P sport scoring_format (default ∅ live_context)) ranked.
Proof. apply board_entries_valued. Qed.

Lemma build_draft_board_provenance_witness :
  Forall (valued_as (two_player_provider (PyFloat (lit 305 1))) "nba" "points"
            (default ∅ None)) two_player_board.
Proof.
  apply (build_draft_board_provenance (two_player_provider (PyFloat (lit 305 1)))
           "nba" "points" [] ["LeBron James"%string] None two_player_board).
  exact two_player_board_built.
Defined.



(** ** MLB boards *)

Lemma resolve_player_mlb_trend P scoring_format n stats value trend position :
  resolve_player P "mlb" scoring_format n = Ok (Some (stats, value, trend, position)) ->
  trend = zero.
Proof.
  unfold resolve_player. cbn [String.eqb Ascii.eqb Bool.eqb].
  destruct (_ : result (option (dict * float64))) as [[[s v]|]|];
    cbn [mbind result_bind]; intros H; try discriminate H.
  injection H as <- <- <- <-. reflexivity.
Qed.

Lemma mlb_entries_untrended P scoring_format drafted_names roster
  live_context ranked :
  build_draft_board P "mlb" scoring_format drafted_names roster live_context
  = Ok ranked ->
  Forall
    (fun rp =>
       RankedPlayer.recent_trend rp = zero
       /\ (RankedPlayer.is_sleeper rp = true ->
           RankedPlayer.sleeper_reason rp = spring_reason (RankedPlayer.season_stats rp)
           /\ RankedPlayer.season_stats rp !! "type"%string
              = Some (PyStr "spring_training")))
    ranked.
Proof.
  intros H. apply board_entries_valued in H.
  eapply Forall_impl; [exact H|]. clear H.
  intros rp (stats & value & trend & position & Hr & Hs & Hp & Ht & _ & Hsl & _).
  apply resolve_player_mlb_trend in Hr as ->.
  split; [exact Ht|]. intros Hflag. rewrite Hflag, Hs in *. clear Hflag.
  revert Hsl. unfold identify_sleeper.
  replace (fleb (lit 150 1) zero) with false by (vm_compute; reflexivity).
  replace (fleb (float_of_Z 5) zero) with false by (vm_compute; reflexivity).
  cbn [andb].
  destruct (_safe_float (default (PyInt 0) (stats !! "blk"%string))) as [blk|];
    cbn [mbind result_bind]; [|intros H; discriminate H].
  destruct (_safe_float (default (PyInt 0) (stats !! "stl"%string))) as [stl|];
    cbn [mbind result_bind]; [|intros H; discriminate H].
  rewrite !andb_false_r.
  destruct (eq_str (default PyNone (stats !! "type"%string)) "spring_training") eqn:Ety;
    [|intros H; discriminate H].
  assert (Htype : stats !! "type"%string = Some (PyStr "spring_training")).
  { destruct (stats !! "type"%string) as [[| | | |t| |]|]; try discriminate Ety.
    cbn in Ety. apply String.eqb_eq in Ety. congruence. }
  destruct (parse_avg _ _ _) as [avg|]; cbn [mbind result_bind];
    [|intros H; discriminate H].
  destruct (fleb (lit 350 3) avg); [|intros H; discriminate H].
  destruct (_safe_float (default (PyInt 0) (stats !! "games"%string))) as [games|];
    cbn [mbind result_bind]; [|intros H; discriminate H].
  destruct (fleb (float_of_Z 5) games); intros [= <-]; auto.
Qed.

(** On an MLB board every entry has the trend 0.0, and an entry is a
    sleeper only by the spring-training rule: its reason is the
    spring-training text and its record has the type "spring_training". *)
Theorem build_draft_board_mlb_no_trend P scoring_format drafted_names roster
  live_context ranked :
  build_draft_board P "mlb" scoring_format drafted_names roster live_context
  = Ok ranked ->
  Forall
    (fun rp =>
       RankedPlayer.recent_trend rp = zero
       /\ (RankedPlayer.is_sleeper rp = true ->
           RankedPlayer.sleeper_reason rp = spring_reason (RankedPlayer.season_stats rp)
           /\ RankedPlayer.season_stats rp !! "type"%string
              = Some (PyStr "spring_training")))
    ranked.
Proof. apply mlb_entries_untrended. Qed.

Lemma value_player_counted P sport scoring_format hot_players player_name st st' :
  value_player P sport scoring_format hot_players player_name st = Ok st' ->
  counted st -> counted st'.
Proof.
  intros H Hc.
  apply value_player_cases in H
    as [[_ ->] | (stats & value & trend & position & pk & rp & _ & Hk & _ & Hp & _ & ->)];
    [exact Hc|].
  intros k. cbn [fst snd]. rewrite filter_app, length_app, <- Hc.
  assert (E : has_key k rp = String.eqb pk k)
    by (unfold has_key; rewrite Hp, Hk; reflexivity).
  destruct (String.eqb_spec pk k) as [->|Hne].
  - rewrite lookup_insert_eq, filter_cons_True by (rewrite E; exact I).
    cbn [default from_option id]. rewrite length_app. reflexivity.
  - rewrite lookup_insert_ne by exact Hne.
    rewrite filter_cons_False by (rewrite E; intros []).
    cbn [filter list_filter length]. lia.
Qed.

Lemma valuation_loop_counted P sport scoring_format hot_players available :
  forall st st',
  valuation_loop P sport scoring_format hot_players available st = Ok st' ->
  counted st -> counted st'.
Proof.
  induction available as [|player_name rest IH]; intros st st'; cbn [valuation_loop].
  - intros [= <-]. auto.
  - destruct (value_player P sport scoring_format hot_players player_name st)
      as [st1|] eqn:H1; cbn [mbind result_bind]; [|intros H; discriminate H].
    intros H2 Hc. eapply IH; [exact H2|]. eapply value_player_counted; eauto.
Qed.

Lemma replacement_baseline_few values :
  (length values < 3)%nat -> replacement_baseline values = zero.
Proof.
  intros H. unfold replacement_baseline. rewrite sort_desc_length.
  destruct (Nat.leb_spec 12 (length values)); [lia|].
  destruct (Nat.leb_spec 3 (length values)); [lia|]. reflexivity.
Qed.

Lemma same_valuation_has_key k l l2 :
  Forall2 same_valuation l l2 ->
  length (filter (fun rp => has_key k rp) l2) = length (filter (fun rp => has_key k rp) l).
Proof.
  induction 1 as [|x y l l' (_ & _ & Hp & _) _ IH]; [reflexivity|].
  assert (E : has_key k y = has_key k x) by (unfold has_key; rewrite Hp; reflexivity).
  destruct (has_key k x) eqn:Ex.
  - rewrite !filter_cons_True by (rewrite ?E, ?Ex; exact I). cbn [length]. congruence.
  - rewrite !filter_cons_False by (rewrite ?E, ?Ex; intros []). exact IH.
Qed.

(** With fewer than three entries at a position key the baseline is
    zero: the VOR of each is its adjusted value rounded, plus the bonus. *)
Theorem build_draft_board_small_group P sport scoring_format drafted_names roster
  live_context ranked rp pos_key :
  build_draft_board P sport scoring_format drafted_names roster live_context
  = Ok ranked ->
  rp ∈ ranked ->
  pos_key_of (RankedPlayer.position rp) = Ok pos_key ->
  (length (filter (fun rp' => has_key pos_key rp') ranked) < 3)%nat ->
  RankedPlayer.vor rp = fadd (py_round (RankedPlayer.fantasy_value rp) 1) (lit 20 1).
Proof.
  intros H Hrp Hk Hfew.
  apply build_draft_board_passes in H as (valued & rv & l2 & Hloop & HF & HS & ->).
  apply valuation_loop_counted in Hloop; [|intros k; reflexivity].
  specialize (Hloop pos_key). cbn [fst snd] in Hloop.
  rewrite (filter_Permutation _ _ _ (sort_desc_perm RankedPlayer.vor l2)) in Hfew.
  rewrite (same_valuation_has_key _ _ _ HS), <- Hloop in Hfew.
  apply sort_desc_elem_of in Hrp.
  clear -HF Hrp Hk Hfew. induction HF as [|x y l l' Hxy _ IH].
  - apply elem_of_nil in Hrp as [].
  - apply elem_of_cons in Hrp as [-> | Hrp]; [|apply IH, Hrp].
    destruct Hxy as (_ & Hp & Hv & k & Hk' & Hvor & _).
    rewrite Hp, Hk' in Hk. injection Hk as ->.
    rewrite Hvor, Hv. f_equal. unfold compute_vor. rewrite lookup_fmap.
    destruct (rv !! pos_key) as [vs|]; cbn [fmap option_fmap option_map default from_option].
    + rewrite replacement_baseline_few by exact Hfew. rewrite fsub_zero. reflexivity.
    + rewrite fsub_zero. reflexivity.
Qed.

Lemma build_draft_board_small_group_witness :
  Forall
    (fun rp =>
       RankedPlayer.vor rp = fadd (py_round (RankedPlayer.fantasy_value rp) 1) (lit 20 1))
    two_player_board.
Proof.
  apply Forall_forall. intros rp Hrp.
  assert (Hk : exists k, pos_key_of (RankedPlayer.position rp) = Ok k
                         /\ (length (filter (fun rp' => has_key k rp') two_player_board) < 3)%nat).
  { revert rp Hrp. apply Forall_forall. repeat constructor; eexists; split;
      try reflexivity; vm_compute; lia. }
  destruct Hk as (k & Hk & Hfew).
  apply (build_draft_board_small_group (two_player_provider (PyFloat (lit 305 1)))
           "nba" "points" [] ["LeBron James"%string] None two_player_board rp k);
    [exact two_player_board_built | exact Hrp | exact Hk | exact Hfew].
Defined.

Example extract_hot_players_examples :
  (assignments ← extract_hot_players [final_game_example; live_game_example];
   Ok (hot_table assignments))
  = Ok {[ "Star Player"%string := hot_entry (float_of_Z 30) (float_of_Z 12) (float_of_Z 5) ]}
  /\ (assignments ← extract_hot_players [dict_players_example];
      Ok (hot_table assignments))
     = Ok {[ "Hot Shot"%string := hot_entry (float_of_Z 25) (float_of_Z 5) (float_of_Z 3) ]}.
Proof. split; vm_compute; reflexivity. Qed.

Lemma foldM_result_invariant {A B} (f : B -> A -> result B) (Inv : B -> Prop) l :
  (forall b x b', Inv b -> f b x = Ok b' -> Inv b') ->
  forall b b', Inv b -> foldM_result f l b = Ok b' -> Inv b'.
Proof.
  intros Hf. induction l as [|x l IH]; intros b b' Hb; cbn [foldM_result].
  - intros [= <-]. exact Hb.
  - destruct (f b x) as [b1|] eqn:E; cbn [mbind result_bind]; [|intros H; discriminate H].
    apply IH. eapply Hf; eauto.
Qed.

Lemma foldM_result_app {A B} (f : B -> A -> result B) l1 l2 b :
  foldM_result f (l1 ++ l2) b = (b' ← foldM_result f l1 b; foldM_result f l2 b').
Proof.
  revert b. induction l1 as [|x l1 IH]; intros b; cbn [foldM_result app]; [reflexivity|].
  destruct (f b x); cbn [mbind result_bind]; [apply IH | reflexivity].
Qed.

(** What one player adds to the table. *)
Lemma scan_player_cases hot_players player hot_players' :
  scan_player hot_players player = Ok hot_players' ->
  hot_players' = hot_players
  \/ exists a, hot_players' = hot_players ++ [a] /\ hot_assignment a.
Proof.
  unfold scan_player. destruct (as_dict player) as [p|]; [|intros [= <-]; auto].
  destruct (truthy (py_or _ (PyStr ""))) eqn:Hn; cbn [negb]; [|intros [= <-]; auto].
  destruct (_safe_float (py_or (default PyNone (p !! "points"%string)) _)) as [pts|];
    cbn [mbind result_bind]; [|intros H; discriminate H].
  destruct (_safe_float (py_or (default PyNone (p !! "rebounds"%string)) _)) as [reb|];
    cbn [mbind result_bind]; [|intros H; discriminate H].
  destruct (_safe_float (py_or (default PyNone (p !! "assists"%string)) _)) as [ast|];
    cbn [mbind result_bind]; [|intros H; discriminate H].
  destruct (fleb (float_of_Z 20) pts || fleb (float_of_Z 10) reb
            || fleb (float_of_Z 8) ast) eqn:Hhot; [|intros [= <-]; auto].
  destruct (is_hashable _); [|intros H; discriminate H].
  intros [= <-]. right. eexists. split; [reflexivity|].
  split; [exact Hn|]. exists pts, reb, ast. split; [reflexivity | exact Hhot].
Qed.

Section TableInvariant.

Variable Inv : list (pyval * dict) -> Prop.
Hypothesis Inv_snoc : forall hot_players a,
  Inv hot_players -> hot_assignment a -> Inv (hot_players ++ [a]).

Lemma scan_player_invariant hot_players player hot_players' :
  Inv hot_players -> scan_player hot_players player = Ok hot_players' -> Inv hot_players'.
Proof.
  intros Hi H. apply scan_player_cases in H as [->|(a & -> & Ha)]; auto.
Qed.

Lemma scan_team_invariant g hot_players team_key hot_players' :
  Inv hot_players -> scan_team g hot_players team_key = Ok hot_players' -> Inv hot_players'.
Proof.
  unfold scan_team. intros Hi.
  destruct (players_of _) as [players|]; cbn [mbind result_bind];
    [|intros H; discriminate H].
  apply foldM_result_invariant; [apply scan_player_invariant | exact Hi].
Qed.

Lemma scan_game_invariant hot_players game hot_players' :
  Inv hot_players -> scan_game hot_players game = Ok hot_players' -> Inv hot_players'.
Proof.
  unfold scan_game. intros Hi. destruct (as_dict game) as [g|]; [|intros H; discriminate H].
  destruct (status_is_live _); [|intros [= <-]; exact Hi].
  apply foldM_result_invariant; [apply scan_team_invariant | exact Hi].
Qed.

Lemma scan_games_invariant games hot_players hot_players' :
  Inv hot_players -> foldM_result scan_game games hot_players = Ok hot_players' ->
  Inv hot_players'.
Proof. apply foldM_result_invariant, scan_game_invariant. Qed.

End TableInvariant.

Lemma hot_table_snoc assignments a :
  hot_table (assignments ++ [a])
  = match a.1 with
    | PyStr name => <[name := a.2]> (hot_table assignments)
    | _ => hot_table assignments
    end.
Proof. unfold hot_table. rewrite foldl_app. reflexivity. Qed.

Lemma hot_table_lookup assignments name entry :
  hot_table assignments !! name = Some entry -> (PyStr name, entry) ∈ assignments.
Proof.
  induction assignments as [|a assignments IH] using rev_ind.
  - intros H. change (hot_table []) with (∅ : gmap string dict) in H.
    rewrite lookup_empty in H. discriminate H.
  - rewrite hot_table_snoc. destruct a as [k e]. cbn [fst snd].
    destruct k as [| | | |n| |]; try (intros H; apply elem_of_app; left; apply IH, H).
    destruct (decide (n = name)) as [->|Hne].
    + rewrite lookup_insert_eq. intros [= <-]. apply elem_of_app. right. constructor.
    + rewrite lookup_insert_ne by exact Hne.
      intros H; apply elem_of_app; left; apply IH, H.
Qed.

Lemma hot_table_elem_of assignments name entry :
  (PyStr name, entry) ∈ assignments -> is_Some (hot_table assignments !! name).
Proof.
  induction assignments as [|a assignments IH] using rev_ind.
  - intros H. apply elem_of_nil in H as [].
  - intros H. rewrite hot_table_snoc. apply elem_of_app in H as [H|H].
    + destruct a as [[| | | |n| |] e]; cbn [fst snd]; auto.
      destruct (decide (n = name)) as [->|Hne].
      * rewrite lookup_insert_eq. eauto.
      * rewrite lookup_insert_ne by exact Hne. auto.
    + apply list_elem_of_singleton in H as <-. cbn [fst snd].
      rewrite lookup_insert_eq. eauto.
Qed.

Lemma hot_table_entries games assignments :
  extract_hot_players games = Ok assignments ->
  Forall hot_assignment assignments
  /\ forall name entry,
       hot_table assignments !! name = Some entry ->
       name <> ""%string
       /\ exists pts reb ast,
           entry = hot_entry pts reb ast
           /\ fleb (float_of_Z 20) pts || fleb (float_of_Z 10) reb
              || fleb (float_of_Z 8) ast = true.
Proof.
  intros H.
  assert (HF : Forall hot_assignment assignments).
  { revert H. apply (scan_games_invariant (Forall hot_assignment)); [|constructor].
    intros l a Hl Ha. apply Forall_app. split; [exact Hl|]. constructor; [exact Ha|constructor]. }
  split; [exact HF|]. intros name entry Hl. apply hot_table_lookup in Hl.
  rewrite Forall_forall in HF. destruct (HF _ Hl) as [Hn Hhot]. cbn [fst snd] in *.
  split; [|exact Hhot]. intros ->. discriminate Hn.
Qed.

(** Every entry of the table was filed for a player that met a
    threshold (20 points, 10 rebounds or 8 assists), under a name that is
    not empty; it holds the three stats, the live flag and the note. *)
Theorem extract_hot_players_threshold games assignments :
  extract_hot_players games = Ok assignments ->
  Forall hot_assignment assignments
  /\ forall name entry,
       hot_table assignments !! name = Some entry ->
       name <> ""%string
       /\ exists pts reb ast,
           entry = hot_entry pts reb ast
           /\ fleb (float_of_Z 20) pts || fleb (float_of_Z 10) reb
              || fleb (float_of_Z 8) ast = true.
Proof. apply hot_table_entries. Qed.

Lemma extract_hot_players_threshold_witness :
  Forall hot_assignment
    [(PyStr "Star Player", hot_entry (float_of_Z 30) (float_of_Z 12) (float_of_Z 5))].
Proof.
  apply (extract_hot_players_threshold [final_game_example; live_game_example]).
  vm_compute. reflexivity.
Defined.

(** Games that are not live change nothing. *)
Theorem extract_hot_players_skips_not_live games :
  extract_hot_players games
  = extract_hot_players (filter (fun game => not_live game = false) games).
Proof.
  unfold extract_hot_players. generalize (@nil (pyval * dict)).
  induction games as [|game games IH]; intros hot_players; [reflexivity|].
  destruct (not_live game) eqn:E.
  - rewrite filter_cons_False by (rewrite E; discriminate).
    cbn [foldM_result]. unfold scan_game. unfold not_live in E.
    destruct (as_dict game) as [g|]; [|discriminate E].
    apply negb_true_iff in E. rewrite E. cbn [mbind result_bind]. apply IH.
  - rewrite filter_cons_True by (rewrite E; reflexivity).
    cbn [foldM_result]. destruct (scan_game hot_players game);
      cbn [mbind result_bind]; [apply IH | reflexivity].
Qed.

Lemma py_or_truthy a b : truthy a = true -> py_or a b = a.
Proof. unfold py_or. intros ->. reflexivity. Qed.

Lemma foldM_result_establish {A B} (f : B -> A -> result B) (Inv : B -> Prop) l x :
  x ∈ l ->
  (forall b y b', Inv b -> f b y = Ok b' -> Inv b') ->
  (forall b b', f b x = Ok b' -> Inv b') ->
  forall b b', foldM_result f l b = Ok b' -> Inv b'.
Proof.
  intros Hx Hkeep Hset. induction l as [|y l IH]; intros b b'.
  - apply elem_of_nil in Hx as [].
  - cbn [foldM_result].
    destruct (f b y) as [b1|] eqn:E; cbn [mbind result_bind]; [|intros H; discriminate H].
    apply elem_of_cons in Hx as [<-|Hx].
    + apply (foldM_result_invariant f Inv l Hkeep). eapply Hset, E.
    + apply IH, Hx.
Qed.

(** A player of a live game who meets a threshold and has a name is in
    the table. *)
Theorem extract_hot_players_finds games assignments game g team_key players player p
  name pts reb ast :
  extract_hot_players games = Ok assignments ->
  game ∈ games ->
  as_dict game = Some g ->
  status_is_live (py_or (default PyNone (g !! "status"%string)) (PyStr "")) = true ->
  team_key ∈ TEAM_KEYS ->
  players_of (default PyNone (g !! team_key)) = Ok players ->
  player ∈ players ->
  as_dict player = Some p ->
  p !! "name"%string = Some (PyStr name) ->
  name <> ""%string ->
  _safe_float (py_or (default PyNone (p !! "points"%string))
                 (default PyNone (p !! "pts"%string))) = Ok pts ->
  _safe_float (py_or (default PyNone (p !! "rebounds"%string))
                 (default PyNone (p !! "reb"%string))) = Ok reb ->
  _safe_float (py_or (default PyNone (p !! "assists"%string))
                 (default PyNone (p !! "ast"%string))) = Ok ast ->
  fleb (float_of_Z 20) pts || fleb (float_of_Z 10) reb || fleb (float_of_Z 8) ast = true ->
  is_Some (hot_table assignments !! name).
Proof.
  intros H Hgame Hg Hlive Hkey Hplayers Hplayer Hp Hname Hne Hpts Hreb Hast Hhot.
  set (Inv := fun l : list (pyval * dict) => exists entry, (PyStr name, entry) ∈ l).
  assert (Hsnoc : forall l a, Inv l -> hot_assignment a -> Inv (l ++ [a])).
  { intros l a [e He] _. exists e. apply elem_of_app. auto. }
  enough (HI : Inv assignments) by (destruct HI as [e He]; eapply hot_table_elem_of, He).
  revert H. unfold extract_hot_players.
  apply (foldM_result_establish scan_game Inv games game Hgame).
  { intros b y b'. apply scan_game_invariant, Hsnoc. }
  intros b b'. unfold scan_game. rewrite Hg, Hlive.
  apply (foldM_result_establish (scan_team g) Inv TEAM_KEYS team_key Hkey).
  { intros b0 y b0'. apply scan_team_invariant, Hsnoc. }
  clear b b'. intros b b'. unfold scan_team. rewrite Hplayers. cbn [mbind result_bind].
  apply (foldM_result_establish scan_player Inv players player Hplayer).
  { intros b0 y b0'. apply scan_player_invariant, Hsnoc. }
  clear b b'. intros b b'. unfold scan_player. rewrite Hp, Hname.
  cbn [default from_option id].
  assert (Ht : truthy (PyStr name) = true).
  { cbn. destruct (String.eqb_spec name ""); [contradiction | reflexivity]. }
  rewrite !(py_or_truthy (PyStr name)) by exact Ht. rewrite Ht. cbn [negb].
  rewrite Hpts, Hreb, Hast. cbn [mbind result_bind]. rewrite Hhot. cbn [is_hashable].
  intros [= <-]. eexists. apply elem_of_app. right. constructor.
Qed.

Lemma extract_hot_players_finds_witness :
  is_Some
    (hot_table [(PyStr "Star Player", hot_entry (float_of_Z 30) (float_of_Z 12) (float_of_Z 5))]
     !! "Star Player"%string).
Proof.
  apply (extract_hot_players_finds [final_game_example; live_game_example] _
           live_game_example
           (list_to_map
              [ ("status", PyStr "live");
                ("home_players",
                 PyList
                   [ PyDict [ ("name", PyStr "Star Player"); ("pts", PyInt 30);
                              ("reb", PyInt 12); ("ast", PyInt 5) ];
                     PyDict [ ("name", PyStr "Bench Guy"); ("pts", PyInt 4);
                              ("reb", PyInt 2); ("ast", PyInt 1) ] ]) ]%string)
           "home_players"
           [ PyDict [ ("name", PyStr "Star Player"); ("pts", PyInt 30);
                      ("reb", PyInt 12); ("ast", PyInt 5) ];
             PyDict [ ("name", PyStr "Bench Guy"); ("pts", PyInt 4);
                      ("reb", PyInt 2); ("ast", PyInt 1) ] ]%string
           (PyDict [ ("name", PyStr "Star Player"); ("pts", PyInt 30);
                     ("reb", PyInt 12); ("ast", PyInt 5) ]%string)
           (list_to_map [ ("name", PyStr "Star Player"); ("pts", PyInt 30);
                          ("reb", PyInt 12); ("ast", PyInt 5) ]%string)
           "Star Player" (float_of_Z 30) (float_of_Z 12) (float_of_Z 5));
    try (vm_compute; reflexivity); try discriminate.
  - apply list_elem_of_further. constructor.
  - constructor.
  - constructor.
Defined.


Example split_examples :
  split "/" "PG/SG" = ["PG"; "SG"]%string
  /\ split "/" "" = [""]%string
  /\ split "/" "/" = [""; ""]%string
  /\ split "," " a , b,,c " = [" a "; " b"; ""; "c "]%string.
Proof. repeat split. Qed.

Example strip_examples :
  strip "  LeBron James  " = "LeBron James"%string /\ strip "   " = ""%string.
Proof. vm_compute. split; reflexivity. Qed.

Lemma split_nonempty c s : split c s <> [].
Proof.
  induction s as [|a s IH]; cbn [split]; [discriminate|].
  destruct (Ascii.eqb a c); [discriminate|]. destruct (split c s); discriminate.
Qed.

Lemma split_no_sep c s :
  Forall (fun part => c ∉ list_ascii_of_string part) (split c s).
Proof.
  induction s as [|a s IH]; cbn [split].
  - repeat constructor. cbn. apply not_elem_of_nil.
  - destruct (Ascii.eqb_spec a c) as [->|Hne].
    + constructor; [cbn; apply not_elem_of_nil | exact IH].
    + destruct (split c s) as [|part parts].
      * repeat constructor. cbn. intros H.
        apply elem_of_cons in H as [H|H]; [congruence | apply elem_of_nil in H; exact H].
      * apply Forall_cons in IH as [Hp Hps]. constructor; [|exact Hps].
        cbn. intros H. apply elem_of_cons in H as [H|H]; [congruence | auto].
Qed.

(** A str without the separator is one part; with the separator after
    such a prefix, the prefix is the first part. *)
Lemma split_none c s : c ∉ list_ascii_of_string s -> split c s = [s].
Proof.
  induction s as [|a s IH]; cbn [split list_ascii_of_string]; [reflexivity|].
  intros H. apply not_elem_of_cons in H as [Hne Hs].
  destruct (Ascii.eqb_spec a c) as [->|_]; [congruence|].
  rewrite (IH Hs). reflexivity.
Qed.

Lemma split_app c s rest :
  c ∉ list_ascii_of_string s ->
  split c (s +:+ String c rest) = s :: split c rest.
Proof.
  induction s as [|a s IH]; cbn [list_ascii_of_string]; intros H.
  - change ("" +:+ String c rest)%string with (String c rest). cbn [split].
    rewrite Ascii.eqb_refl. reflexivity.
  - apply not_elem_of_cons in H as [Hne Hs].
    change (String a s +:+ String c rest)%string with (String a (s +:+ String c rest)).
    cbn [split]. destruct (Ascii.eqb_spec a c) as [->|_]; [congruence|].
    rewrite (IH Hs). reflexivity.
Qed.

Lemma drop_while_sublist {A} (p : A -> bool) l : sublist (drop_while p l) l.
Proof.
  induction l as [|x l IH]; cbn [drop_while]; [constructor|].
  destruct (p x); [apply sublist_cons, IH | reflexivity].
Qed.

Lemma sublist_rev {A} (l1 l2 : list A) : sublist l1 l2 -> sublist (rev l1) (rev l2).
Proof.
  induction 1 as [|x l1 l2 _ IH|x l1 l2 _ IH]; cbn [rev].
  - constructor.
  - apply sublist_app; [exact IH | reflexivity].
  - apply sublist_inserts_r, IH.
Qed.

Lemma strip_sublist s :
  sublist (list_ascii_of_string (strip s)) (list_ascii_of_string s).
Proof.
  unfold strip. rewrite list_ascii_of_string_of_list_ascii.
  etransitivity; [|apply (drop_while_sublist is_whitespace)].
  rewrite <- (rev_involutive (drop_while is_whitespace (list_ascii_of_string s))) at 2.
  apply sublist_rev, drop_while_sublist.
Qed.

Lemma drop_while_idem {A} (p : A -> bool) l :
  drop_while p (drop_while p l) = drop_while p l.
Proof.
  induction l as [|x l IH]; cbn [drop_while]; [reflexivity|].
  destruct (p x) eqn:E; [exact IH|]. cbn [drop_while]. rewrite E. reflexivity.
Qed.

(** Dropping at the front of a list keeps what dropping at its back
    has left. *)
Lemma drop_while_head {A} (p : A -> bool) l x l' :
  drop_while p l = x :: l' -> p x = false.
Proof.
  induction l as [|y l IH]; cbn [drop_while]; [discriminate|].
  destruct (p y) eqn:E; [exact IH|]. intros [= <- <-]. exact E.
Qed.

Lemma drop_while_false {A} (p : A -> bool) x l : p x = false -> drop_while p (x :: l) = x :: l.
Proof. cbn [drop_while]. intros ->. reflexivity. Qed.

Lemma drop_while_rev_front {A} (p : A -> bool) x l :
  p x = false ->
  rev (drop_while p (rev (x :: l))) = x :: rev (drop_while p (rev l)).
Proof.
  intros Hx. cbn [rev].
  induction (rev l) as [|y r IH]; cbn [app drop_while].
  - rewrite Hx. reflexivity.
  - destruct (p y); [exact IH|]. cbn [rev]. rewrite rev_app_distr. reflexivity.
Qed.

Lemma strip_chars_idem l :
  let t := rev (drop_while is_whitespace (rev (drop_while is_whitespace l))) in
  rev (drop_while is_whitespace (rev (drop_while is_whitespace t))) = t.
Proof.
  cbv zeta. destruct (drop_while is_whitespace l) as [|x l'] eqn:E; [reflexivity|].
  pose proof (drop_while_head _ _ _ _ E) as Hx.
  rewrite (drop_while_rev_front _ x l' Hx).
  rewrite (drop_while_false _ x _ Hx).
  rewrite (drop_while_rev_front _ x _ Hx). f_equal.
  rewrite rev_involutive, drop_while_idem. reflexivity.
Qed.

Lemma strip_idem s : strip (strip s) = strip s.
Proof.
  unfold strip at 1 2. rewrite list_ascii_of_string_of_list_ascii.
  rewrite strip_chars_idem. reflexivity.
Qed.

(** Every name read from the command line is plain. *)
Theorem comma_separated_names_plain arg :
  Forall plain_name (comma_separated_names arg).
Proof.
  unfold comma_separated_names. apply Forall_fmap, Forall_forall.
  intros n Hn. apply list_elem_of_filter in Hn as [Hne Hin].
  split; [|split].
  - intros E. cbn in Hne. rewrite E in Hne. exact Hne.
  - apply strip_idem.
  - intros Hc. pose proof (split_no_sep "," arg) as HF.
    rewrite Forall_forall in HF. apply (HF n Hin).
    eapply elem_of_sublist; [exact Hc | apply strip_sublist].
Qed.

Lemma comma_separated_names_parts parts :
  parts <> [] ->
  Forall (fun q => ","%char ∉ list_ascii_of_string q) parts ->
  split "," (String.concat "," parts) = parts.
Proof.
  induction parts as [|q parts IH]; [congruence|]. intros _ HF.
  apply Forall_cons in HF as [Hq HF]. destruct parts as [|q' parts].
  - cbn [String.concat]. apply split_none, Hq.
  - change (String.concat "," (q :: q' :: parts))
      with (q +:+ String "," (String.concat "," (q' :: parts))).
    rewrite (split_app _ _ _ Hq), IH by (auto; discriminate). reflexivity.
Qed.

(** Round trip: plain names joined by commas, each with any whitespace
    around it, are read back as they were. *)
Theorem comma_separated_names_round_trip names padded :
  Forall plain_name names ->
  Forall2 (fun n q => strip q = n /\ ","%char ∉ list_ascii_of_string q) names padded ->
  comma_separated_names (String.concat "," padded) = names.
Proof.
  intros Hplain H2. destruct padded as [|q0 padded0] eqn:Ep.
  { inversion H2. reflexivity. }
  rewrite <- Ep in *. unfold comma_separated_names.
  rewrite comma_separated_names_parts.
  2: { rewrite Ep. discriminate. }
  2: { clear -H2. induction H2 as [|n q names padded [_ Hq] _ IH]; constructor; auto. }
  clear Ep q0 padded0.
  induction H2 as [|n q names padded [Hs Hq] _ IH]; [reflexivity|].
  apply Forall_cons in Hplain as [(Hne & _ & _) Hplain].
  rewrite filter_cons_True.
  - cbn [fmap list_fmap]. f_equal; [exact Hs | apply IH, Hplain].
  - rewrite Hs. destruct (String.eqb_spec n ""); [contradiction | exact I].
Qed.

Lemma comma_separated_names_round_trip_witness :
  comma_separated_names (String.concat "," ["LeBron James"; " Luka Doncic "]%string)
  = ["LeBron James"; "Luka Doncic"]%string.
Proof.
  apply (comma_separated_names_round_trip ["LeBron James"; "Luka Doncic"]%string
           ["LeBron James"; " Luka Doncic "]%string).
  - repeat constructor; try discriminate; vm_compute; intros H;
      repeat (apply elem_of_cons in H as [H|H]; [discriminate H|]);
      apply elem_of_nil in H; exact H.
  - repeat constructor; vm_compute; intros H;
      repeat (apply elem_of_cons in H as [H|H]; [discriminate H|]);
      apply elem_of_nil in H; exact H.
Defined.

Example format_draft_board_example :
  format_draft_board test_player_board "nba" "points" 5
  = Ok (String.concat newline
    [ "========================================================================";
      "  FANTASY DRAFT ASSISTANT -- NBA Points League";
      "========================================================================";
      "";
      "  BEST AVAILABLE PLAYERS";
      "  --------------------------------------------------------------------";
      "   1. Test Player (PG, TST) -- VOR: +15.0";
      "      Season: 25.0pts, 7.0reb, 8.0ast, 1.5stl, 0.5blk";
      "      Last 10: UP 12% from season avg";
      "      >> BEST AVAILABLE";
      "";
      "  --------------------------------------------------------------------";
      "  POSITIONAL SCARCITY";
      "";
      "    PG :  1 quality options (SCARCE)";
      "";
      "========================================================================" ]%string).
Proof. vm_compute. reflexivity. Qed.

Lemma mapM_result_total {A B} (f : A -> result B) l :
  Forall (fun x => exists y, f x = Ok y) l -> exists ys, mapM_result f l = Ok ys.
Proof.
  induction 1 as [|x l [y Hy] _ [ys IH]]; cbn [mapM_result]; [eauto|].
  rewrite Hy, IH. cbn [mbind result_bind]. eauto.
Qed.

Lemma season_lines_returns sport (s : dict) :
  (String.eqb sport "nba" = true ->
   Forall (fun k => showable (s !! k)) ["pts"; "reb"; "ast"; "stl"; "blk"]%string) ->
  exists lines, season_lines sport s = Ok lines.
Proof.
  intros H. unfold season_lines. destruct (String.eqb sport "nba").
  - specialize (H eq_refl).
    repeat (apply Forall_cons in H as [[? ->] H]; cbn [mbind result_bind]). eauto.
  - destruct (String.eqb sport "mlb"); [|eauto].
    destruct (_ && _); eauto.
Qed.

Lemma player_lines_returns sport i rp :
  (String.eqb sport "nba" = true -> nba_showable rp) ->
  exists lines, player_lines sport i rp = Ok lines.
Proof.
  intros H. unfold player_lines.
  destruct (season_lines_returns sport (RankedPlayer.season_stats rp) H) as [lines ->].
  cbn [mbind result_bind]. eauto.
Qed.

Lemma scarcity_lines_returns ranked sport :
  Forall readable_position ranked -> exists lines, scarcity_lines ranked sport = Ok lines.
Proof.
  intros H. unfold scarcity_lines.
  destruct (mapM_result_total (fun rp => position_parts (RankedPlayer.position rp)) ranked H)
    as [parts Hparts].
  match goal with |- context [mapM_result ?f ?l] =>
    destruct (mapM_result_total f l) as [lines ->] end.
  - apply Forall_forall. intros position _. unfold eligible_count. rewrite Hparts.
    cbn [mbind result_bind]. eauto.
  - cbn [mbind result_bind]. eauto.
Qed.

Lemma format_draft_board_total ranked sport scoring_format top_n :
  Forall readable_position ranked ->
  (String.eqb sport "nba" = true -> Forall nba_showable (slice_to top_n ranked)) ->
  exists text, format_draft_board ranked sport scoring_format top_n = Ok text.
Proof.
  intros Hpos Hstats. unfold format_draft_board.
  match goal with |- context [mapM_result ?f ?l] =>
    destruct (mapM_result_total f l) as [players ->] end.
  - apply Forall_forall. intros [i rp] Hin. cbn [fst snd].
    apply player_lines_returns. intros Hnba.
    specialize (Hstats Hnba). rewrite Forall_forall in Hstats. apply Hstats.
    apply elem_of_zip_r in Hin. exact Hin.
  - cbn [mbind result_bind].
    destruct (scarcity_lines_returns ranked sport Hpos) as [lines ->].
    cbn [mbind result_bind]. eauto.
Qed.

(** The board is printed whenever every position is a str or counts as
    false and, for basketball, the five stats of the entries shown are
    numbers. *)
Theorem format_draft_board_returns ranked sport scoring_format top_n :
  Forall readable_position ranked ->
  (String.eqb sport "nba" = true -> Forall nba_showable (slice_to top_n ranked)) ->
  exists text, format_draft_board ranked sport scoring_format top_n = Ok text.
Proof. apply format_draft_board_total. Qed.

Lemma format_draft_board_returns_witness :
  exists text, format_draft_board test_player_board "nba" "points" 5 = Ok text.
Proof.
  apply (format_draft_board_returns test_player_board "nba" "points" 5).
  - repeat constructor. eexists. vm_compute. reflexivity.
  - intros _. repeat constructor; eexists; vm_compute; reflexivity.
Defined.

Lemma pos_key_readable position k :
  pos_key_of position = Ok k -> exists parts, position_parts position = Ok parts.
Proof.
  unfold pos_key_of, position_parts, py_or.
  destruct (truthy position); [|eauto].
  destruct position; intros H; try discriminate H; eauto.
Qed.

(** A board that [build_draft_board] returns for a sport other than
    basketball is always printed. *)
Theorem format_draft_board_prints_built_board P sport scoring_format drafted_names
  roster live_context ranked top_n :
  String.eqb sport "nba" = false ->
  build_draft_board P sport scoring_format drafted_names roster live_context
  = Ok ranked ->
  exists text, format_draft_board ranked sport scoring_format top_n = Ok text.
Proof.
  intros Hs H. apply format_draft_board_total; [|rewrite Hs; discriminate].
  apply build_draft_board_inv in H as (valued & rv & l2 & _ & HF & ->).
  apply Forall_forall. intros rp Hrp. apply sort_desc_elem_of in Hrp.
  clear -HF Hrp. induction HF as [|x y l l' Hxy _ IH].
  - apply elem_of_nil in Hrp as [].
  - apply elem_of_cons in Hrp as [-> | Hrp]; [|apply IH, Hrp].
    destruct Hxy as (_ & Hp & _ & k & Hk & _). unfold readable_position.
    rewrite Hp. eapply pos_key_readable, Hk.
Qed.

(** A stat that has no fixed-point format makes the printing fail,
    although the valuation reads it: with such points for the first
    entry shown, a str (ValueError) or a [None] (TypeError), the printing
    raises what the format raises. *)
Theorem format_draft_board_unprintable_points ranked rp scoring_format top_n v e :
  ranked !! 0%nat = Some rp ->
  0 < top_n ->
  RankedPlayer.season_stats rp !! "pts"%string = Some v ->
  format_f_value v 1 = Raise e ->
  format_draft_board ranked "nba" scoring_format top_n = Raise e.
Proof.
  intros H0 Hn Hs He. destruct ranked as [|rp' rest]; [discriminate H0|].
  injection H0 as ->. unfold format_draft_board, slice_to.
  destruct (Z.leb_spec 0 top_n); [|lia].
  destruct (Z.to_nat top_n) as [|n] eqn:E; [lia|].
  cbn [take length seq zip zip_with mapM_result fst snd].
  unfold player_lines, season_lines. cbn [String.eqb Ascii.eqb Bool.eqb].
  rewrite Hs. cbn [default from_option id]. rewrite He. reflexivity.
Qed.

Lemma format_draft_board_unprintable_points_witness :
  format_draft_board str_points_board "nba" "points" 15 = Raise ValueError.
Proof.
  apply (format_draft_board_unprintable_points str_points_board
           (RankedPlayer.mk "Luka Doncic" (PyStr "DAL") (PyStr "PG/SG") (lit 305 1)
              (lit 325 1)
              (list_to_map
                 [ ("team", PyStr "DAL"); ("position", PyStr "PG/SG");
                   ("pts", PyStr "30.5") ]%string)
              zero (PyStr "") false "" "fills PG need")
           "points" 15 (PyStr "30.5") ValueError); reflexivity.
Defined.

Lemma py_get_dict v m k d : as_dict v = Some m -> py_get v k d = Ok (default d (m !! k)).
Proof. unfold py_get. intros ->. reflexivity. Qed.

Lemma copy_fields_ok raw r fields : forall record,
  as_dict raw = Some r ->
  copy_fields raw fields record
  = Ok (foldl (fun record field =>
                 <[field.1 := default field.2.2 (r !! field.2.1)]> record)
          record fields).
Proof.
  intros record Hr. unfold copy_fields. revert record.
  induction fields as [|field fields IH]; intros record; [reflexivity|].
  cbn [foldM_result foldl]. rewrite (py_get_dict _ _ _ _ Hr). cbn [mbind result_bind].
  apply IH.
Qed.

Lemma copy_fields_no_dict raw field fields record :
  as_dict raw = None -> copy_fields raw (field :: fields) record = Raise AttributeError.
Proof.
  intros Hr. unfold copy_fields. cbn [foldM_result]. unfold py_get. rewrite Hr. reflexivity.
Qed.

Lemma py_get_cases v k d :
  (exists x, py_get v k d = Ok x) \/ py_get v k d = Raise AttributeError.
Proof. unfold py_get. destruct (as_dict v); eauto. Qed.

(** The shape of a record that [get_mlb_player_stats] builds. *)
Lemma mlb_stats_record_shape player player_id raw player_name stat_group record :
  mlb_stats_record player player_id raw player_name stat_group = Ok record ->
  exists name team position,
    let base : dict :=
      list_to_map
        [ ("player_id", player_id); ("name", name); ("team", team);
          ("position", position) ]%string in
    (stat_group <> "hitting"%string /\ stat_group <> "pitching"%string /\ record = base)
    \/ exists r fields,
         as_dict raw = Some r
         /\ ((stat_group = "hitting"%string /\ fields = MLB_HITTING_FIELDS)
             \/ (stat_group = "pitching"%string /\ fields = MLB_PITCHING_FIELDS))
         /\ record
            = foldl (fun record field =>
                       <[field.1 := default field.2.2 (r !! field.2.1)]> record)
                base fields.
Proof.
  unfold mlb_stats_record.
  destruct (py_get player "primaryPosition" (PyDict [])) as [primary|];
    cbn [mbind result_bind]; [|intros H; discriminate H].
  destruct (py_get primary "abbreviation" (PyStr "")) as [position|];
    cbn [mbind result_bind]; [|intros H; discriminate H].
  destruct (py_get player "fullName" (PyStr player_name)) as [name|];
    cbn [mbind result_bind]; [|intros H; discriminate H].
  destruct (py_get player "currentTeam" (PyDict [])) as [current|];
    cbn [mbind result_bind]; [|intros H; discriminate H].
  destruct (py_get current "name" (PyStr "")) as [team|];
    cbn [mbind result_bind]; [|intros H; discriminate H].
  intros H. exists name, team, position. cbv zeta.
  destruct (String.eqb_spec stat_group "hitting") as [->|Hh].
  - right. destruct (as_dict raw) as [r|] eqn:Hr.
    + rewrite (copy_fields_ok raw r) in H by exact Hr. injection H as <-.
      exists r, MLB_HITTING_FIELDS. auto.
    + unfold MLB_HITTING_FIELDS in H. rewrite copy_fields_no_dict in H by exact Hr.
      discriminate H.
  - destruct (String.eqb_spec stat_group "pitching") as [->|Hp].
    + right. destruct (as_dict raw) as [r|] eqn:Hr.
      * rewrite (copy_fields_ok raw r) in H by exact Hr. injection H as <-.
        exists r, MLB_PITCHING_FIELDS. auto.
      * unfold MLB_PITCHING_FIELDS in H. rewrite copy_fields_no_dict in H by exact Hr.
        discriminate H.
    + left. injection H as <-. auto.
Qed.

Lemma mlb_stats_record_no_type player player_id raw player_name stat_group record :
  mlb_stats_record player player_id raw player_name stat_group = Ok record ->
  record !! "type"%string = None.
Proof.
  intros H. apply mlb_stats_record_shape in H as (name & team & position & H).
  cbv zeta in H.
  destruct H as [(_ & _ & ->) | (r & fields & _ & [[_ ->]|[_ ->]] & ->)];
    vm_compute; reflexivity.
Qed.

(** The keys of the records of the provider are normalized: the four
    of the player and those of the stat group, whatever the payload
    holds, and the values are those of the payload or the defaults. *)
Theorem mlb_stats_record_keys player player_id raw player_name stat_group record :
  mlb_stats_record player player_id raw player_name stat_group = Ok record ->
  record !! "player_id"%string = Some player_id
  /\ record !! "type"%string = None
  /\ (stat_group = "hitting"%string ->
      dom record
      = list_to_set (["player_id"; "name"; "team"; "position"]%string
                     ++ MLB_HITTING_FIELDS.*1)
      /\ exists r, as_dict raw = Some r
         /\ Forall (fun field => record !! field.1 = Some (default field.2.2 (r !! field.2.1)))
              MLB_HITTING_FIELDS)
  /\ (stat_group = "pitching"%string ->
      dom record
      = list_to_set (["player_id"; "name"; "team"; "position"]%string
                     ++ MLB_PITCHING_FIELDS.*1)
      /\ exists r, as_dict raw = Some r
         /\ Forall (fun field => record !! field.1 = Some (default field.2.2 (r !! field.2.1)))
              MLB_PITCHING_FIELDS).
Proof.
  intros H. pose proof (mlb_stats_record_no_type _ _ _ _ _ _ H) as Hty.
  apply mlb_stats_record_shape in H as (name & team & position & H). cbv zeta in H.
  destruct H as [(Hh & Hp & ->) | (r & fields & Hr & Hf & ->)].
  - split; [vm_compute; reflexivity|]. split; [exact Hty|]. split; intros E; congruence.
  - destruct Hf as [[-> ->]|[-> ->]].
    + split; [vm_compute; reflexivity|]. split; [exact Hty|].
      split; [|intros E; discriminate E]. intros _. split.
      * apply leibniz_equiv. unfold MLB_HITTING_FIELDS. cbn [foldl fst snd fmap list_fmap app].
        rewrite !dom_insert, dom_list_to_map. cbn [fmap list_fmap fst list_to_set].
        set_solver.
      * exists r. split; [exact Hr|]. repeat constructor.
    + split; [vm_compute; reflexivity|]. split; [exact Hty|].
      split; [intros E; discriminate E|]. intros _. split.
      * apply leibniz_equiv. unfold MLB_PITCHING_FIELDS. cbn [foldl fst snd fmap list_fmap app].
        rewrite !dom_insert, dom_list_to_map. cbn [fmap list_fmap fst list_to_set].
        set_solver.
      * exists r. split; [exact Hr|]. repeat constructor.
Qed.

(** ** MLB boards and the records of the provider *)

Lemma resolve_player_mlb_stats P scoring_format n stats value trend position :
  resolve_player P "mlb" scoring_format n = Ok (Some (stats, value, trend, position)) ->
  exists stat_group,
    get_mlb_player_stats P n stat_group <> ∅
    /\ forall k, k <> "spring_training"%string ->
                 stats !! k = get_mlb_player_stats P n stat_group !! k.
Proof.
  unfold resolve_player. cbn [String.eqb Ascii.eqb Bool.eqb].
  assert (Hins : forall (s : dict) (b : bool) v k,
            k <> "spring_training"%string ->
            (if b then <["spring_training"%string := v]> s else s) !! k = s !! k).
  { intros s b v k Hk. destruct b; [|reflexivity].
    apply lookup_insert_ne. congruence. }
  destruct (dict_is_empty (get_mlb_player_stats P n "hitting")) eqn:Eh.
  - destruct (dict_is_empty (get_mlb_player_stats P n "pitching")) eqn:Ep;
      cbn [mbind result_bind]; [intros H; discriminate H|].
    destruct (compute_mlb_pitching_value _) as [v|]; cbn [mbind result_bind];
      [|intros H; discriminate H].
    intros [= <- _ _ _]. exists "pitching"%string. split.
    + intros E. rewrite E in Ep. discriminate Ep.
    + intros k Hk. apply Hins, Hk.
  - destruct (compute_mlb_hitting_value _) as [v|]; cbn [mbind result_bind];
      [|intros H; discriminate H].
    intros [= <- _ _ _]. exists "hitting"%string. split.
    + intros E. rewrite E in Eh. discriminate Eh.
    + intros k Hk. apply Hins, Hk.
Qed.

(** With the records of the provider no MLB entry is ever a sleeper:
    the trend is zero and the record has no "type". *)
Theorem build_draft_board_mlb_no_sleeper P scoring_format drafted_names roster
  live_context ranked :
  mlb_provider_answers P ->
  build_draft_board P "mlb" scoring_format drafted_names roster live_context
  = Ok ranked ->
  Forall
    (fun rp => RankedPlayer.is_sleeper rp = false
               /\ RankedPlayer.sleeper_reason rp = ""%string)
    ranked.
Proof.
  intros HP H. pose proof (mlb_entries_untrended _ _ _ _ _ _ H) as Hmlb.
  apply board_entries_valued in H.
  apply Forall_forall. intros rp Hrp.
  rewrite Forall_forall in H, Hmlb.
  destruct (H rp Hrp) as (stats & value & trend & position & Hr & Hs & _ & _ & _ & Hsl & _).
  destruct (Hmlb rp Hrp) as [_ Hflag].
  destruct (RankedPlayer.is_sleeper rp) eqn:E.
  - exfalso. destruct (Hflag eq_refl) as [_ Hty]. rewrite Hs in Hty.
    apply resolve_player_mlb_stats in Hr as (g & Hne & Hk).
    rewrite Hk in Hty by discriminate.
    destruct (HP (RankedPlayer.name rp) g) as [He | (player & pid & raw & Hrec)];
      [contradiction|].
    apply mlb_stats_record_no_type in Hrec. congruence.
  - split; [reflexivity|].
    apply identify_sleeper_outcomes in Hsl as [[Ht _] | [_ Hreason]];
      [discriminate Ht | exact Hreason].
Qed.

Lemma judge_provider_answers : mlb_provider_answers judge_provider.
Proof.
  intros n g. cbn [get_mlb_player_stats judge_provider].
  destruct (String.eqb_spec n "Aaron Judge") as [->|]; [|auto].
  destruct (String.eqb_spec g "hitting") as [->|]; [|auto].
  right. exists judge_player, (PyInt 592450), judge_raw. vm_compute. reflexivity.
Qed.

Lemma build_draft_board_mlb_no_sleeper_witness :
  Forall
    (fun rp => RankedPlayer.is_sleeper rp = false
               /\ RankedPlayer.sleeper_reason rp = ""%string)
    judge_board.
Proof.
  apply (build_draft_board_mlb_no_sleeper judge_provider "roto" [] [] None judge_board).
  - exact judge_provider_answers.
  - vm_compute. reflexivity.
Defined.

(** ** A record that cannot be valued aborts the board *)

Lemma value_player_raises_everywhere P sport scoring_format hot_players n st e :
  value_player P sport scoring_format hot_players n st = Raise e ->
  forall st', value_player P sport scoring_format hot_players n st' = Raise e.
Proof.
  unfold value_player. intros H st'.
  destruct (resolve_player P sport scoring_format n)
    as [[[[[stats value] trend] position]|]|]; cbn [mbind result_bind] in *;
    [| discriminate H | exact H].
  destruct (pos_key_of position) as [k|]; cbn [mbind result_bind] in *; [|exact H].
  destruct (hot_players !! n);
    (destruct (identify_sleeper stats trend value position) as [[flag reason]|];
     cbn [mbind result_bind] in *; [discriminate H | exact H]).
Qed.

Lemma valuation_loop_raises P sport scoring_format hot_players available n e :
  n ∈ available ->
  (forall st, value_player P sport scoring_format hot_players n st = Raise e) ->
  forall st, exists e',
    valuation_loop P sport scoring_format hot_players available st = Raise e'.
Proof.
  intros Hn Hraise. induction available as [|m rest IH]; intros st.
  - apply elem_of_nil in Hn as [].
  - cbn [valuation_loop].
    destruct (value_player P sport scoring_format hot_players m st) as [st1|e1] eqn:E;
      cbn [mbind result_bind]; [|eauto].
    apply elem_of_cons in Hn as [->|Hn]; [rewrite Hraise in E; discriminate E|].
    apply IH, Hn.
Qed.

(** A hitter whose record has an average that is not a str (the
    provider passes a JSON [null] through) aborts the whole board. *)
Theorem build_draft_board_aborts_on_average P scoring_format drafted_names roster
  live_context player_name player player_id raw r v :
  player_name ∈ available_players "mlb" drafted_names ->
  mlb_stats_record player player_id raw player_name "hitting"
  = Ok (get_mlb_player_stats P player_name "hitting") ->
  as_dict raw = Some r ->
  r !! "avg"%string = Some v ->
  (forall s, v <> PyStr s) ->
  exists e,
    build_draft_board P "mlb" scoring_format drafted_names roster live_context
    = Raise e.
Proof.
  intros Hn Hrec Hr Hv Hns.
  assert (Havg : get_mlb_player_stats P player_name "hitting" !! "avg"%string = Some v).
  { apply mlb_stats_record_shape in Hrec as (name & team & position & H). cbv zeta in H.
    destruct H as [(Hh & _) | (r' & fields & Hr' & [[_ ->]|[E _]] & ->)];
      [congruence | | discriminate E].
    rewrite Hr in Hr'. injection Hr' as <-.
    vm_compute. vm_compute in Hv. rewrite Hv. reflexivity. }
  destruct (compute_mlb_hitting_value_non_str_avg _ _ Havg Hns) as [Hval|Hval].
  all: assert (Hstep : forall st,
         value_player P "mlb" scoring_format (default ∅ live_context) player_name st
         = Raise _) by
    (intros st; unfold value_player, resolve_player; cbn [String.eqb Ascii.eqb Bool.eqb];
     rewrite (dict_nonempty _ _ _ Havg), Hval; reflexivity).
  all: unfold build_draft_board;
    destruct (valuation_loop_raises _ _ _ _ _ _ _ Hn Hstep ([], ∅)) as [e' ->]; eauto.
Qed.

Lemma off_spring_refl s : off_spring s s.
Proof. intros k _. reflexivity. Qed.

Lemma identify_sleeper_off_spring s s' trend value position :
  off_spring s s' ->
  identify_sleeper s trend value position = identify_sleeper s' trend value position.
Proof.
  intros H. unfold identify_sleeper, spring_reason.
  rewrite (H "blk"%string), (H "stl"%string), (H "type"%string), (H "avg"%string),
    (H "games"%string) by discriminate.
  reflexivity.
Qed.

Lemma resolve_player_spring P P' sport scoring_format n :
  same_season_answers P P' ->
  same_outcome
    (fun r r' =>
       match r, r' with
       | Some (s, v, t, p), Some (s', v', t', p') =>
           off_spring s s' /\ v = v' /\ t = t' /\ p = p'
       | None, None => True
       | _, _ => False
       end)
    (resolve_player P sport scoring_format n)
    (resolve_player P' sport scoring_format n).
Proof.
  intros (Hnba & Hlog & Hmlb). unfold resolve_player.
  rewrite <- Hnba, <- !Hmlb.
  destruct (String.eqb sport "nba").
  - destruct (dict_is_empty _); [exact I|].
    rewrite <- Hlog.
    destruct (if String.eqb scoring_format "points" then _ else _) as [v|];
      cbn [mbind result_bind same_outcome]; [|reflexivity].
    destruct (if truthy _ then _ else _) as [t|];
      cbn [mbind result_bind same_outcome]; [|reflexivity].
    split; [apply off_spring_refl|]. repeat split.
  - destruct (String.eqb sport "mlb"); [|exact I].
    assert (Hins : forall (s : dict) (b b' : bool) v v',
      off_spring (if b then <["spring_training"%string := v]> s else s)
                 (if b' then <["spring_training"%string := v']> s else s)).
    { intros s b b' v v' k Hk.
      destruct b, b'; rewrite ?lookup_insert_ne by congruence; reflexivity. }
    assert (Hpos : forall (s : dict) (b b' : bool) v v',
      default (PyStr "") ((if b then <["spring_training"%string := v]> s else s)
                          !! "position"%string)
      = default (PyStr "") ((if b' then <["spring_training"%string := v']> s else s)
                            !! "position"%string)).
    { intros s b b' v v'. rewrite (Hins s b b' v v') by discriminate. reflexivity. }
    destruct (_ : result (option (dict * float64))) as [[[s v]|]|];
      cbn [mbind result_bind same_outcome]; [|exact I|reflexivity].
    split; [apply Hins|]. split; [reflexivity|]. split; [reflexivity|]. apply Hpos.
Qed.

Lemma value_player_spring P P' sport scoring_format hot_players n st st' :
  same_season_answers P P' ->
  Forall2 same_but_spring st.1 st'.1 -> st.2 = st'.2 ->
  same_outcome (fun a a' => Forall2 same_but_spring a.1 a'.1 /\ a.2 = a'.2)
    (value_player P sport scoring_format hot_players n st)
    (value_player P' sport scoring_format hot_players n st').
Proof.
  intros HP H1 H2. unfold value_player.
  pose proof (resolve_player_spring P P' sport scoring_format n HP) as Hr.
  destruct (resolve_player P sport scoring_format n) as [[[[[s v] t] p]|]|],
    (resolve_player P' sport scoring_format n) as [[[[[s' v'] t'] p']|]|];
    cbn [same_outcome] in Hr; try contradiction; cbn [mbind result_bind same_outcome];
    [| auto | exact Hr].
  destruct Hr as (Hs & <- & <- & <-).
  destruct (pos_key_of p) as [k|]; cbn [mbind result_bind same_outcome]; [|reflexivity].
  rewrite <- (identify_sleeper_off_spring s s' t v p Hs), <- (Hs "team"%string) by discriminate.
  rewrite <- H2.
  destruct (hot_players !! n) as [hp|];
    (destruct (identify_sleeper s t v p) as [[flag reason]|];
     cbn [mbind result_bind same_outcome]; [|reflexivity]);
    (split; [|reflexivity]); cbn [fst]; apply Forall2_app; [exact H1| |exact H1|];
    (constructor; [|constructor]); repeat split; exact Hs.
Qed.

Lemma valuation_loop_spring P P' sport scoring_format hot_players available :
  same_season_answers P P' ->
  forall st st',
  Forall2 same_but_spring st.1 st'.1 -> st.2 = st'.2 ->
  same_outcome (fun a a' => Forall2 same_but_spring a.1 a'.1 /\ a.2 = a'.2)
    (valuation_loop P sport scoring_format hot_players available st)
    (valuation_loop P' sport scoring_format hot_players available st').
Proof.
  intros HP. induction available as [|n rest IH]; intros st st' H1 H2;
    cbn [valuation_loop]; [split; assumption|].
  pose proof (value_player_spring P P' sport scoring_format hot_players n st st' HP H1 H2)
    as Hv.
  destruct (value_player P sport scoring_format hot_players n st) as [a|],
    (value_player P' sport scoring_format hot_players n st') as [a'|];
    cbn [same_outcome] in Hv; try contradiction; cbn [mbind result_bind];
    [|exact Hv].
  destruct Hv as [Ha1 Ha2]. apply IH; assumption.
Qed.

Lemma mapM_result_related {A} (R : A -> A -> Prop) (f : A -> result A) l l' :
  (forall x x', R x x' -> same_outcome R (f x) (f x')) ->
  Forall2 R l l' ->
  same_outcome (Forall2 R) (mapM_result f l) (mapM_result f l').
Proof.
  intros Hf. induction 1 as [|x x' l l' Hx _ IH]; cbn [mapM_result]; [constructor|].
  pose proof (Hf x x' Hx) as Hfx.
  destruct (f x) as [y|], (f x') as [y'|]; cbn [same_outcome] in Hfx; try contradiction;
    cbn [mbind result_bind]; [|exact Hfx].
  destruct (mapM_result f l) as [ys|], (mapM_result f l') as [ys'|];
    cbn [same_outcome] in IH; try contradiction; cbn [mbind result_bind same_outcome];
    [constructor; assumption | exact IH].
Qed.

Lemma apply_vor_spring repl rp rp' :
  same_but_spring rp rp' ->
  same_outcome same_but_spring (apply_vor repl rp) (apply_vor repl rp').
Proof.
  intros (Hn & Ht & Hp & Hf & Hv & Hs & Hr & Hl & Hi & Hsr & Hrec). unfold apply_vor.
  rewrite <- Hp, <- Hf.
  destruct (pos_key_of (RankedPlayer.position rp)) as [k|];
    cbn [mbind result_bind same_outcome]; [|reflexivity].
  repeat split; assumption.
Qed.

Lemma positional_need_spring counts rp rp' :
  same_but_spring rp rp' ->
  same_outcome same_but_spring (positional_need counts rp) (positional_need counts rp').
Proof.
  intros (Hn & Ht & Hp & Hf & Hv & Hs & Hr & Hl & Hi & Hsr & Hrec). unfold positional_need.
  rewrite <- Hp, <- Hv.
  destruct (pos_key_of (RankedPlayer.position rp)) as [k|];
    cbn [mbind result_bind same_outcome]; [|reflexivity].
  destruct (_ =? _); cbn [same_outcome]; repeat split; assumption.
Qed.

Lemma insert_desc_spring x x' l l' :
  same_but_spring x x' -> Forall2 same_but_spring l l' ->
  Forall2 same_but_spring (insert_desc RankedPlayer.vor x l)
    (insert_desc RankedPlayer.vor x' l').
Proof.
  intros Hx. induction 1 as [|y y' l l' Hy Hl IH]; cbn [insert_desc].
  - constructor; [exact Hx | constructor].
  - assert (Ex : RankedPlayer.vor x = RankedPlayer.vor x') by apply Hx.
    assert (Ey : RankedPlayer.vor y = RankedPlayer.vor y') by apply Hy.
    rewrite <- Ex, <- Ey. destruct (fltb _ _); constructor; auto.
Qed.

Lemma sort_desc_spring l l' :
  Forall2 same_but_spring l l' ->
  Forall2 same_but_spring (sort_desc RankedPlayer.vor l) (sort_desc RankedPlayer.vor l').
Proof.
  induction 1 as [|x x' l l' Hx _ IH]; [constructor|].
  rewrite !sort_desc_cons. apply insert_desc_spring; assumption.
Qed.

Lemma best_available_spring l l' :
  Forall2 same_but_spring l l' ->
  Forall2 same_but_spring (best_available l) (best_available l').
Proof.
  intros H. destruct H as [|x x' l l' Hx Hl]; [constructor|]. cbn [best_available].
  assert (E : RankedPlayer.recommendation x = RankedPlayer.recommendation x') by apply Hx.
  rewrite <- E. destruct (String.eqb _ ""); constructor; try assumption.
  destruct Hx as (Hn & Ht & Hp & Hf & Hv & Hs & Hr & Hli & Hi & Hsr & Hrec).
  repeat split; assumption.
Qed.

(** The spring training answers never change the ranking: with them
    or without, the board fails alike or lists the same entries in the
    same order, equal but for the record under "spring_training". *)
Theorem build_draft_board_ignores_spring_training P P' sport scoring_format
  drafted_names roster live_context :
  same_season_answers P P' ->
  same_outcome (Forall2 same_but_spring)
    (build_draft_board P sport scoring_format drafted_names roster live_context)
    (build_draft_board P' sport scoring_format drafted_names roster live_context).
Proof.
  intros HP. unfold build_draft_board.
  pose proof (valuation_loop_spring P P' sport scoring_format (default ∅ live_context)
                (available_players sport drafted_names) HP ([], ∅) ([], ∅)
                (Forall2_nil_2 _ _ _) eq_refl) as Hloop.
  destruct (valuation_loop P _ _ _ _ _) as [[valued rv]|],
    (valuation_loop P' _ _ _ _ _) as [[valued' rv']|];
    cbn [same_outcome] in Hloop; try contradiction; cbn [mbind result_bind];
    [|exact Hloop].
  destruct Hloop as [Hv Hrv]. cbn [fst snd] in Hv, Hrv. subst rv'.
  pose proof (mapM_result_related same_but_spring
                (apply_vor (replacement_baseline <$> rv)) valued valued'
                (apply_vor_spring _) Hv) as H1.
  destruct (mapM_result _ valued) as [l1|], (mapM_result _ valued') as [l1'|];
    cbn [same_outcome] in H1; try contradiction; cbn [mbind result_bind]; [|exact H1].
  pose proof (mapM_result_related same_but_spring
                (positional_need (_count_roster_positions roster sport)) l1 l1'
                (positional_need_spring _) H1) as H2.
  destruct (mapM_result _ l1) as [l2|], (mapM_result _ l1') as [l2'|];
    cbn [same_outcome] in H2; try contradiction; cbn [mbind result_bind same_outcome];
    [|exact H2].
  apply best_available_spring, sort_desc_spring, H2.
Qed.

Lemma build_draft_board_ignores_spring_training_witness :
  same_outcome (Forall2 same_but_spring)
    (build_draft_board judge_provider "mlb" "roto" [] [] None)
    (build_draft_board judge_spring_provider "mlb" "roto" [] [] None).
Proof.
  apply (build_draft_board_ignores_spring_training judge_provider judge_spring_provider).
  repeat split.
Defined.

Example poll_request_example :
  poll_request connected_example
  = ("https://api.shipp.ai/api/v1/connections/abc123?api_key=test-key"%string, ∅).
Proof. vm_compute. reflexivity. Qed.

(** Whatever goes wrong, the poll returns an empty list and leaves the
    cursor where it was; without a connection it does so whatever the
    reply would be. *)
Lemma get_live_games_failure self response :
  truthy (ShippLiveContext.connection_id self) = false
  \/ response = None
  \/ (exists data, response = Some data /\ read_events self data = None) ->
  get_live_games self response = (PyList [], self).
Proof.
  unfold get_live_games. intros [->|[->|(data & -> & H)]]; cbn [negb]; [reflexivity| |].
  - destruct (negb _); reflexivity.
  - destruct (negb _); [reflexivity|]. cbn [mbind option_bind]. rewrite H. reflexivity.
Qed.

Lemma append_length a b : String.length (a +:+ b) = (String.length a + String.length b)%nat.
Proof.
  induction a as [|c a IH]; [reflexivity|].
  change (String c a +:+ b)%string with (String c (a +:+ b)).
  cbn [String.length]. rewrite IH. reflexivity.
Qed.

Lemma string_of_N_nonempty n : (0 < String.length (string_of_N n))%nat.
Proof.
  unfold string_of_N. destruct (N.to_uint n); cbn; lia.
Qed.

Lemma float_repr_nonempty x : (0 < String.length (float_repr x))%nat.
Proof.
  destruct x as [[]|[]| |s m e]; cbn [float_repr]; try (cbn; lia).
  destruct (shortest_digits m e) as [digits decpt].
  rewrite append_length.
  destruct (_ && _).
  - destruct (decpt <=? 0); [rewrite !append_length; cbn; lia|].
    destruct (_ <=? decpt); rewrite !append_length; cbn; lia.
  - rewrite !append_length. cbn. lia.
Qed.

(** [str] of a value that counts as true is not the empty str. *)
Lemma py_str_truthy v : truthy v = true -> truthy (PyStr (py_str v)) = true.
Proof.
  intros H. cbn [truthy].
  assert (Hlen : (0 < String.length (py_str v))%nat).
  { destruct v as [|b|z|f|s|l|d]; cbn [py_str py_repr].
    - discriminate H.
    - destruct b; cbn; lia.
    - unfold string_of_Z. destruct (z <? 0).
      + rewrite append_length. cbn. lia.
      + apply string_of_N_nonempty.
    - apply float_repr_nonempty.
    - cbn [truthy] in H. destruct s; [discriminate H | cbn; lia].
    - rewrite !append_length. cbn. lia.
    - rewrite !append_length. cbn. lia. }
  destruct (py_str v); [cbn in Hlen; lia | reflexivity].
Qed.

(** The cursor: after a poll whose last event has an id, the next
    request asks for the events since that id; the poll itself returns
    all the events of the reply. *)
Theorem get_live_games_cursor self data d events last_event l cursor :
  truthy (ShippLiveContext.connection_id self) = true ->
  as_dict data = Some d ->
  d !! "data"%string = Some (PyList events) ->
  last events = Some last_event ->
  as_dict last_event = Some l ->
  l !! "id"%string = Some cursor ->
  truthy cursor = true ->
  (get_live_games self (Some data)).1 = PyList events
  /\ ShippLiveContext.last_event_id (get_live_games self (Some data)).2
     = PyStr (py_str cursor)
  /\ (poll_request (get_live_games self (Some data)).2).2
     = {[ "since_event_id"%string := PyStr (py_str cursor) ]}.
Proof.
  intros Hc Hd Hdata Hlast Hl Hid Hidt.
  assert (E : get_live_games self (Some data)
              = (PyList events,
                 ShippLiveContext.set_last_event_id (PyStr (py_str cursor)) self)).
  { unfold get_live_games, read_events.
    rewrite Hc. cbn [negb mbind option_bind]. rewrite Hd. cbn [mbind option_bind].
    cbv zeta. rewrite Hdata. cbn [default from_option id].
    assert (Ht : truthy (PyList events) = true).
    { destruct events; [discriminate Hlast | reflexivity]. }
    rewrite Ht. cbn [py_last]. rewrite Hlast. cbn [mbind option_bind]. rewrite Hl.
    cbn [mbind option_bind]. rewrite Hid. cbn [default from_option].
    rewrite (py_or_truthy _ _ Hidt), Hidt. reflexivity. }
  rewrite E. cbn [fst snd]. split; [reflexivity|]. split; [reflexivity|].
  unfold poll_request. cbn [snd ShippLiveContext.last_event_id
    ShippLiveContext.set_last_event_id].
  rewrite (py_str_truthy cursor Hidt). reflexivity.
Qed.

Lemma get_live_games_cursor_witness :
  (get_live_games connected_example (Some events_reply_example)).1
  = PyList
      [ PyDict [ ("id", PyStr "evt-98"); ("status", PyStr "live") ];
        PyDict [ ("id", PyStr "evt-99"); ("status", PyStr "live") ] ]%string
  /\ ShippLiveContext.last_event_id
       (get_live_games connected_example (Some events_reply_example)).2
     = PyStr (py_str (PyStr "evt-99"))
  /\ (poll_request (get_live_games connected_example (Some events_reply_example)).2).2
     = {[ "since_event_id"%string := PyStr (py_str (PyStr "evt-99")) ]}.
Proof.
  apply (get_live_games_cursor connected_example events_reply_example
           (list_to_map
              [ ("data",
                 PyList
                   [ PyDict [ ("id", PyStr "evt-98"); ("status", PyStr "live") ];
                     PyDict [ ("id", PyStr "evt-99"); ("status", PyStr "live") ] ]) ]%string)
           _ (PyDict [ ("id", PyStr "evt-99"); ("status", PyStr "live") ]%string)
           (list_to_map [ ("id", PyStr "evt-99"); ("status", PyStr "live") ]%string)
           (PyStr "evt-99")); reflexivity.
Defined.

(** A reply whose "data" is [null], [false] or a zero is handed on as
    it is, and the search for hot players then raises TypeError. *)
Theorem live_hot_players_null_data self data d v :
  truthy (ShippLiveContext.connection_id self) = true ->
  as_dict data = Some d ->
  d !! "data"%string = Some v ->
  truthy v = false ->
  iterate v = Raise TypeError ->
  (get_live_games self (Some data)).1 = v
  /\ live_hot_players self (Some data) = Raise TypeError.
Proof.
  intros Hc Hd Hdata Hv Hit.
  assert (E : get_live_games self (Some data) = (v, self)).
  { unfold get_live_games, read_events.
    rewrite Hc. cbn [negb mbind option_bind]. rewrite Hd. cbn [mbind option_bind].
    cbv zeta. rewrite Hdata. cbn [default from_option id]. rewrite Hv. reflexivity. }
  split; [rewrite E; reflexivity|].
  unfold live_hot_players. rewrite E. cbn [fst]. rewrite Hit. reflexivity.
Qed.

Lemma live_hot_players_null_data_witness :
  (get_live_games connected_example (Some null_data_reply)).1 = PyNone
  /\ live_hot_players connected_example (Some null_data_reply) = Raise TypeError.
Proof.
  apply (live_hot_players_null_data connected_example null_data_reply
           (list_to_map [ ("data", PyNone) ]%string) PyNone); reflexivity.
Defined.


Lemma format_draft_board_prints_built_board_witness :
  exists text, format_draft_board judge_board "mlb" "roto" 15 = Ok text.
Proof.
  apply (format_draft_board_prints_built_board judge_provider "mlb" "roto" [] [] None
           judge_board 15); vm_compute; reflexivity.
Defined.

Lemma build_draft_board_aborts_on_average_witness :
  exists e, build_draft_board null_avg_provider "mlb" "roto" [] [] None = Raise e.
Proof.
  apply (build_draft_board_aborts_on_average null_avg_provider "roto" [] [] None
           "Aaron Judge" judge_player (PyInt 592450) null_avg_raw
           (list_to_map
              [ ("gamesPlayed", PyInt 150); ("avg", PyNone); ("homeRuns", PyInt 52) ]%string)
           PyNone).
  - apply (bool_decide_unpack _). vm_compute. exact I.
  - vm_compute. reflexivity.
  - reflexivity.
  - reflexivity.
  - intros s H. discriminate H.
Defined.

Lemma build_draft_board_mlb_no_trend_witness :
  Forall
    (fun rp =>
       RankedPlayer.recent_trend rp = zero
       /\ (RankedPlayer.is_sleeper rp = true ->
           RankedPlayer.sleeper_reason rp = spring_reason (RankedPlayer.season_stats rp)
           /\ RankedPlayer.season_stats rp !! "type"%string
              = Some (PyStr "spring_training")))
    judge_board.
Proof.
  apply (build_draft_board_mlb_no_trend judge_provider "roto" [] [] None judge_board).
  vm_compute. reflexivity.
Defined.

Lemma mlb_stats_record_keys_witness :
  judge_record !! "player_id"%string = Some (PyInt 592450)
  /\ judge_record !! "type"%string = None.
Proof.
  destruct (mlb_stats_record_keys judge_player (PyInt 592450) judge_raw "Aaron Judge"
              "hitting" judge_record) as (H1 & H2 & _).
  - vm_compute. reflexivity.
  - split; assumption.
Defined.

Example doncic_live_board_example :
  board_vors (Ok doncic_live_board)
  = Some [ ("Luka Doncic"%string, lit 355 1); ("Nikola Jokic"%string, lit 120 1) ]
  /\ format_draft_board doncic_live_board "nba" "points" 1
     = Ok (String.concat newline
       [ "========================================================================";
         "  FANTASY DRAFT ASSISTANT -- NBA Points League";
         "========================================================================";
         "";
         "  BEST AVAILABLE PLAYERS";
         "  --------------------------------------------------------------------";
         "   1. Luka Doncic (PG/SG, DAL) -- VOR: +35.5 [LIVE]";
         "      Season: 30.5pts, 0.0reb, 0.0ast, 0.0stl, 0.0blk";
         "      LIVE: 35pts/8reb/9ast tonight";
         "      >> fills PG need";
         "";
         "  --------------------------------------------------------------------";
         "  POSITIONAL SCARCITY";
         "";
         "    PG :  1 quality options (SCARCE)";
         "    SG :  1 quality options (SCARCE)";
         "    C  :  1 quality options (SCARCE)";
         "";
         "========================================================================" ]%string).
Proof. split; vm_compute; reflexivity. Qed.
